(** * Driver monitoring system: the per-frame detection engine

    A shallow embedding of [mobile-app/src/services/detectionEngine.ts]
    (class [DetectionEngine]) and the properties of its frame processing.

    Modelling choices, all taken from the TypeScript source:
    - a JavaScript [number] that holds a measurement (landmark coordinate,
      ratio, threshold on a ratio, pixel distance) is an IEEE 754 binary64
      value, here Rocq's primitive [float]; [<], [>] and [<=] are the IEEE
      comparisons (false on NaN), as in JavaScript;
    - a [number] that counts frames or blinks, a frame-count threshold and a
      [Date.now()] reading in milliseconds are integers, here [Z] (the
      engine only ever adds 1 to them or stores 0);
    - an array is a list; reading an index outside it yields [undefined],
      and reading a property of [undefined] throws a [TypeError];
    - a method of the engine is a function from the engine state to a
      completion (normal or thrown), the new engine state and the alerts
      delivered to the subscribers during the call. *)

From Stdlib Require Import Floats ZArith List String Bool Lia.
From Stdlib Require Uint63.
Import ListNotations.

Set Warnings "-inexact-float".
Local Open Scope Z_scope.

(** ** JavaScript values used by the engine *)

Inductive JsError := TypeError.

(** How a call ends: with a value, or by throwing. *)
Inductive Completion (A : Type) :=
| Normal (a : A)
| Throw (e : JsError).
Arguments Normal {A} a.
Arguments Throw {A} e.

Definition cbind {A B} (c : Completion A) (k : A -> Completion B) : Completion B :=
  match c with
  | Normal a => k a
  | Throw e => Throw e
  end.

Definition cmap {A B} (f : A -> B) (c : Completion A) : Completion B :=
  cbind c (fun a => Normal (f a)).

(** A small monad interface, shared by plain completions and by engine
    methods. *)
Class Monad (M : Type -> Type) := {
  ret : forall {A}, A -> M A;
  bind : forall {A B}, M A -> (A -> M B) -> M B
}.

Notation "x <- c ;; k" := (bind c (fun x => k))
  (at level 61, c at next level, right associativity).
Notation "c ;;; k" := (bind c (fun _ => k))
  (at level 61, right associativity).

#[global] Instance Completion_Monad : Monad Completion := {
  ret := @Normal;
  bind := @cbind
}.

(** [xs.map(f)] where [f] may throw: elements are visited left to right and
    the first throw ends the call. *)
Fixpoint cmapM {A B} (f : A -> Completion B) (xs : list A) : Completion (list B) :=
  match xs with
  | [] => Normal []
  | x :: rest =>
      cbind (f x) (fun y => cbind (cmapM f rest) (fun ys => Normal (y :: ys)))
  end.

(** [arr[i]] for an array whose cells may hold [undefined]: [None] is
    [undefined], whether the index is outside the array or the cell is. *)
Definition js_index {A} (arr : list (option A)) (i : nat) : option A :=
  match nth_error arr i with
  | Some cell => cell
  | None => None
  end.

(** [indices.map(i => arr[i])] on a dense array [arr]. *)
Definition js_pick {A} (arr : list A) (indices : list nat) : list (option A) :=
  map (fun i => nth_error arr i) indices.

(** A dense array seen as an array with possibly undefined cells. *)
Definition js_dense {A} (arr : list A) : list (option A) := map Some arr.

(** ** Data model (types/index.ts) *)

Record Landmark := { lm_x : float; lm_y : float }.

Record Point := { pt_x : float; pt_y : float }.

Record DetectionConfig := {
  earThreshold : float;
  eyeClosedFramesThreshold : Z;
  blinkRateThreshold : Z;
  marThreshold : float;
  yawnThreshold : Z;
  gazeDeviationThreshold : float;
  headTurnThreshold : float;
  handNearFaceDistance : float
}.

Definition DEFAULT_CONFIG : DetectionConfig := {|
  earThreshold := 0.140%float;
  eyeClosedFramesThreshold := 9;
  blinkRateThreshold := 5;
  marThreshold := 0.6%float;
  yawnThreshold := 3;
  gazeDeviationThreshold := 0.05%float;
  headTurnThreshold := 0.08%float;
  handNearFaceDistance := 200%float
|}.

Inductive AlertType :=
| eye_closure | drowsiness | distraction | phone_usage | texting | yawning
| head_droop | head_turn | gaze_deviation | hand_near_face | blink_rate_high.

Definition AlertType_eqb (a b : AlertType) : bool :=
  match a, b with
  | eye_closure, eye_closure | drowsiness, drowsiness
  | distraction, distraction | phone_usage, phone_usage
  | texting, texting | yawning, yawning | head_droop, head_droop
  | head_turn, head_turn | gaze_deviation, gaze_deviation
  | hand_near_face, hand_near_face | blink_rate_high, blink_rate_high => true
  | _, _ => false
  end.

Inductive Severity := mild | moderate | severe.

(** The [metadata] objects the engine attaches to an alert. *)
Inductive Metadata :=
| MetaEye (ear : float) (frames : Z)
| MetaBlink (blinkCount : Z)
| MetaYawn (mar : float) (yawnCount : Z).

(** [AlertData]. The [id] field, a string made of the clock and of
    [Math.random()], is left out: nothing in the engine reads it. *)
Record AlertData := {
  alert_type : AlertType;
  alert_severity : Severity;
  alert_message : string;
  alert_timestamp : Z;
  alert_confidenceScore : option float;
  alert_metadata : option Metadata;
  alert_sessionId : string
}.

Inductive EyeSeverity := eye_normal | eye_warning | eye_alert.

Inductive Level := lvl_none | lvl_mild | lvl_moderate | lvl_severe.

Record EyeClosureResult := {
  leftEAR : float;
  rightEAR : float;
  averageEAR : float;
  isEyesClosed : bool;
  closureFrames : Z;
  eye_severity : EyeSeverity
}.

Record HeadPoseResult := {
  head_x : float;
  head_y : float;
  pitch : float;
  yaw : float;
  roll : float;
  turn : Level;
  tilt : Level;
  droop : Level
}.

Record GazeResult := {
  gaze_x : float;
  gaze_y : float;
  deviation : float;
  lookingAway : bool
}.

Record MouthResult := {
  MAR : float;
  isYawning : bool;
  yawnCount : Z
}.

Record HandsResult := {
  nearEar : bool;
  nearFace : bool;
  possibleTexting : bool;
  phoneUsage : bool
}.

Record CompositeResult := {
  level : Level;
  indicators : list string
}.

Record DetectionResult := {
  eyeClosure : EyeClosureResult;
  headPose : HeadPoseResult;
  gaze : GazeResult;
  mouth : MouthResult;
  hands : HandsResult;
  res_drowsiness : CompositeResult;
  res_distraction : CompositeResult
}.

(** [FaceDetectionResult]; [landmarks] is tested for presence by the engine,
    so it is optional here. The bounding box and confidence are never read. *)
Record FaceDetectionResult := {
  face_landmarks : option (list Landmark)
}.

Record HandDetectionResult := {
  hand_landmarks : list Landmark
}.

Record CalibrationData := {
  gazeCenter : float;
  headCenterX : float;
  headCenterY : float
}.

(** A registered alert callback. Callbacks are opaque closures; the model
    names each one by a handle and records what it is called with. A
    callback is taken to return normally and not to call back into the
    engine. *)
Definition Callback := nat.

(** One call [callback(alert)]. *)
Definition Delivery : Type := Callback * AlertData.

(** The private fields of [DetectionEngine]. *)
Record DetectionEngine := {
  config : DetectionConfig;
  eyeClosureCounter : Z;
  blinkCounter : Z;
  yawnCounter : Z;
  blinkTimer : Z;
  marHistory : list float;
  calibrationData : option CalibrationData;
  isCalibrated : bool;
  alertCallbacks : list Callback
}.

(** ** Engine methods as state transformers *)

(** A method call: how it completes, the engine afterwards, and the
    callback invocations it made, in order. A throw keeps the mutations and
    deliveries made before it. *)
Definition Eng (A : Type) : Type :=
  DetectionEngine -> Completion A * DetectionEngine * list Delivery.

Definition eng_ret {A} (a : A) : Eng A := fun this => (Normal a, this, []).

Definition eng_bind {A B} (m : Eng A) (k : A -> Eng B) : Eng B :=
  fun this =>
    match m this with
    | (Normal a, this1, out1) =>
        match k a this1 with
        | (r, this2, out2) => (r, this2, out1 ++ out2)
        end
    | (Throw e, this1, out1) => (Throw e, this1, out1)
    end.

#[global] Instance Eng_Monad : Monad Eng := {
  ret := @eng_ret;
  bind := @eng_bind
}.

(** A pure computation that may throw, run inside a method. *)
Definition lift {A} (c : Completion A) : Eng A := fun this => (c, this, []).

(** Read [this]. *)
Definition get : Eng DetectionEngine := fun this => (Normal this, this, []).

(** Assign fields of [this]. *)
Definition modify (f : DetectionEngine -> DetectionEngine) : Eng unit :=
  fun this => (Normal tt, f this, []).

(** [if (c) { body }] without an else branch. *)
Definition when (c : bool) (body : Eng unit) : Eng unit :=
  if c then body else ret tt.

(** Field assignments on [this]. *)
Definition set_eyeClosureCounter (v : Z) (e : DetectionEngine) :=
  {| config := config e; eyeClosureCounter := v;
     blinkCounter := blinkCounter e; yawnCounter := yawnCounter e;
     blinkTimer := blinkTimer e; marHistory := marHistory e;
     calibrationData := calibrationData e; isCalibrated := isCalibrated e;
     alertCallbacks := alertCallbacks e |}.

Definition set_blinkCounter (v : Z) (e : DetectionEngine) :=
  {| config := config e; eyeClosureCounter := eyeClosureCounter e;
     blinkCounter := v; yawnCounter := yawnCounter e;
     blinkTimer := blinkTimer e; marHistory := marHistory e;
     calibrationData := calibrationData e; isCalibrated := isCalibrated e;
     alertCallbacks := alertCallbacks e |}.

Definition set_yawnCounter (v : Z) (e : DetectionEngine) :=
  {| config := config e; eyeClosureCounter := eyeClosureCounter e;
     blinkCounter := blinkCounter e; yawnCounter := v;
     blinkTimer := blinkTimer e; marHistory := marHistory e;
     calibrationData := calibrationData e; isCalibrated := isCalibrated e;
     alertCallbacks := alertCallbacks e |}.

Definition set_blinkTimer (v : Z) (e : DetectionEngine) :=
  {| config := config e; eyeClosureCounter := eyeClosureCounter e;
     blinkCounter := blinkCounter e; yawnCounter := yawnCounter e;
     blinkTimer := v; marHistory := marHistory e;
     calibrationData := calibrationData e; isCalibrated := isCalibrated e;
     alertCallbacks := alertCallbacks e |}.

Definition set_marHistory (v : list float) (e : DetectionEngine) :=
  {| config := config e; eyeClosureCounter := eyeClosureCounter e;
     blinkCounter := blinkCounter e; yawnCounter := yawnCounter e;
     blinkTimer := blinkTimer e; marHistory := v;
     calibrationData := calibrationData e; isCalibrated := isCalibrated e;
     alertCallbacks := alertCallbacks e |}.

Definition set_calibration (c : option CalibrationData) (b : bool)
    (e : DetectionEngine) :=
  {| config := config e; eyeClosureCounter := eyeClosureCounter e;
     blinkCounter := blinkCounter e; yawnCounter := yawnCounter e;
     blinkTimer := blinkTimer e; marHistory := marHistory e;
     calibrationData := c; isCalibrated := b;
     alertCallbacks := alertCallbacks e |}.

Definition set_alertCallbacks (v : list Callback) (e : DetectionEngine) :=
  {| config := config e; eyeClosureCounter := eyeClosureCounter e;
     blinkCounter := blinkCounter e; yawnCounter := yawnCounter e;
     blinkTimer := blinkTimer e; marHistory := marHistory e;
     calibrationData := calibrationData e; isCalibrated := isCalibrated e;
     alertCallbacks := v |}.

(** ** Construction and configuration *)

(** [new DetectionEngine()] at clock reading [now], default configuration. *)
Definition new_DetectionEngine (now : Z) : DetectionEngine := {|
  config := DEFAULT_CONFIG;
  eyeClosureCounter := 0;
  blinkCounter := 0;
  yawnCounter := 0;
  blinkTimer := now;
  marHistory := repeat 0%float 30;
  calibrationData := None;
  isCalibrated := false;
  alertCallbacks := []
|}.

Definition setCalibration (gazeCenter headCenterX headCenterY : float) : Eng unit :=
  modify (set_calibration
            (Some {| gazeCenter := gazeCenter; headCenterX := headCenterX;
                     headCenterY := headCenterY |}) true).

Definition addAlertCallback (callback : Callback) : Eng unit :=
  modify (fun this => set_alertCallbacks (alertCallbacks this ++ [callback]) this).

(** [this.alertCallbacks.forEach(callback => callback(alert))]. *)
Definition forEach_callback (alert : AlertData) : Eng unit :=
  fun this => (Normal tt, this, map (fun callback => (callback, alert)) (alertCallbacks this)).

(** [triggerAlert]; [now] is the clock reading that stamps the alert. *)
Definition triggerAlert (type : AlertType) (severity : Severity)
    (message : string) (confidence : option float)
    (metadata : option Metadata) (now : Z) : Eng AlertData :=
  let alert := {|
    alert_type := type;
    alert_severity := severity;
    alert_message := message;
    alert_timestamp := now;
    alert_confidenceScore := confidence;
    alert_metadata := metadata;
    alert_sessionId := ""
  |} in
  forEach_callback alert ;;;
  ret alert.

(** [reset()] at clock reading [now]. *)
Definition reset (now : Z) : Eng unit :=
  modify (set_eyeClosureCounter 0) ;;;
  modify (set_blinkCounter 0) ;;;
  modify (set_yawnCounter 0) ;;;
  modify (set_blinkTimer now) ;;;
  modify (fun this => set_marHistory (map (fun _ => 0%float) (marHistory this)) this).

(** ** Geometry *)

Notation "x >? y" := (PrimFloat.ltb y x) : float_scope.

(** [array.length] as a number. *)
Definition js_length {A} (arr : list A) : float :=
  PrimFloat.of_uint63 (Uint63.of_Z (Z.of_nat (List.length arr))).

(** [{ x: arr[index].x * frameWidth, y: arr[index].y * frameHeight }]:
    throws when [arr[index]] is [undefined]. *)
Definition getPoint (arr : list (option Landmark)) (frameWidth frameHeight : float)
    (index : nat) : Completion Point :=
  match js_index arr index with
  | Some landmark =>
      Normal {| pt_x := (lm_x landmark * frameWidth)%float;
                pt_y := (lm_y landmark * frameHeight)%float |}
  | None => Throw TypeError
  end.

(** The same scaling applied to an array cell inside [map]. *)
Definition scalePoint (frameWidth frameHeight : float) (cell : option Landmark)
    : Completion Point :=
  match cell with
  | Some landmark =>
      Normal {| pt_x := (lm_x landmark * frameWidth)%float;
                pt_y := (lm_y landmark * frameHeight)%float |}
  | None => Throw TypeError
  end.

(** A division, returned with the divisor it used, so that the divisions a
    function performs can be inspected. *)
Definition divide (a b : float) : float * list float := ((a / b)%float, [b]).

Section Engine.

(** [Math.hypot] on two arguments. ECMAScript leaves its precision to the
    implementation, so every definition and theorem below takes it as a
    parameter. *)
Variable Math_hypot : float -> float -> float.

(** [calculateEAR], with the divisors of the divisions it performs. *)
Definition calculateEAR_traced (eyeLandmarks : list (option Landmark))
    (frameWidth frameHeight : float) : Completion (float * list float) :=
  let getPoint := getPoint eyeLandmarks frameWidth frameHeight in
  p1 <- getPoint 1%nat ;;
  p2 <- getPoint 5%nat ;;
  p3 <- getPoint 2%nat ;;
  p4 <- getPoint 4%nat ;;
  p5 <- getPoint 0%nat ;;
  p6 <- getPoint 3%nat ;;
  let A := Math_hypot (pt_x p2 - pt_x p6) (pt_y p2 - pt_y p6) in
  let B := Math_hypot (pt_x p3 - pt_x p5) (pt_y p3 - pt_y p5) in
  let C := Math_hypot (pt_x p1 - pt_x p4) (pt_y p1 - pt_y p4) in
  ret (if (C >? 0)%float then divide (A + B) (2.0 * C) else (0%float, [])).

Definition calculateEAR (eyeLandmarks : list (option Landmark))
    (frameWidth frameHeight : float) : Completion float :=
  cmap fst (calculateEAR_traced eyeLandmarks frameWidth frameHeight).

(** [calculateMAR], with the divisors of the divisions it performs. *)
Definition calculateMAR_traced (mouthLandmarks : list (option Landmark))
    (frameWidth frameHeight : float) : Completion (float * list float) :=
  let getPoint := getPoint mouthLandmarks frameWidth frameHeight in
  top <- getPoint 13%nat ;;
  bottom <- getPoint 14%nat ;;
  left <- getPoint 78%nat ;;
  right <- getPoint 308%nat ;;
  let vertical := Math_hypot (pt_x top - pt_x bottom) (pt_y top - pt_y bottom) in
  let horizontal := Math_hypot (pt_x left - pt_x right) (pt_y left - pt_y right) in
  ret (if (horizontal >? 0)%float then divide vertical horizontal else (0%float, [])).

Definition calculateMAR (mouthLandmarks : list (option Landmark))
    (frameWidth frameHeight : float) : Completion float :=
  cmap fst (calculateMAR_traced mouthLandmarks frameWidth frameHeight).

(** [points.reduce((sum, p) => sum + p.x, 0) / points.length] and the same
    for [y]. *)
Definition centroid (points : list Point) : Point :=
  {| pt_x := (fold_left (fun sum p => sum + pt_x p) points 0 / js_length points)%float;
     pt_y := (fold_left (fun sum p => sum + pt_y p) points 0 / js_length points)%float |}.

Definition getIrisCenter (irisLandmarks : list (option Landmark))
    (frameWidth frameHeight : float) : Completion Point :=
  points <- cmapM (scalePoint frameWidth frameHeight) irisLandmarks ;;
  ret (centroid points).

Definition getHandCenter (handLandmarks : list Landmark)
    (frameWidth frameHeight : float) : Point :=
  centroid (map (fun landmark =>
                   {| pt_x := (lm_x landmark * frameWidth)%float;
                      pt_y := (lm_y landmark * frameHeight)%float |})
                handLandmarks).

Definition LEFT_EAR_TIP : nat := 234.
Definition RIGHT_EAR_TIP : nat := 454.

(** [isHandNearEar]: the loop returns on the first hand landmark within 40
    pixels of an ear tip. *)
Definition isHandNearEar (faceLandmarks handLandmarks : list Landmark)
    (frameWidth frameHeight : float) : Completion bool :=
  leftEar <- getPoint (js_dense faceLandmarks) frameWidth frameHeight LEFT_EAR_TIP ;;
  rightEar <- getPoint (js_dense faceLandmarks) frameWidth frameHeight RIGHT_EAR_TIP ;;
  ret (existsb
         (fun landmark =>
            let handPoint := {| pt_x := (lm_x landmark * frameWidth)%float;
                                pt_y := (lm_y landmark * frameHeight)%float |} in
            let distanceToLeftEar :=
              Math_hypot (pt_x handPoint - pt_x leftEar) (pt_y handPoint - pt_y leftEar) in
            let distanceToRightEar :=
              Math_hypot (pt_x handPoint - pt_x rightEar) (pt_y handPoint - pt_y rightEar) in
            (distanceToLeftEar <? 40)%float || (distanceToRightEar <? 40)%float)
         handLandmarks).

Definition isHandNearFace (cfg : DetectionConfig) (faceCenter : Point)
    (handLandmarks : list Landmark) (frameWidth frameHeight : float) : bool :=
  existsb
    (fun landmark =>
       let handPoint := {| pt_x := (lm_x landmark * frameWidth)%float;
                           pt_y := (lm_y landmark * frameHeight)%float |} in
       let distance :=
         Math_hypot (pt_x faceCenter - pt_x handPoint) (pt_y faceCenter - pt_y handPoint) in
       (distance <? handNearFaceDistance cfg)%float)
    handLandmarks.

Definition detectTexting (hands : list HandDetectionResult)
    (frameWidth frameHeight : float) : bool :=
  match hands with
  | [hand1; hand2] =>
      let hand1Center := getHandCenter (hand_landmarks hand1) frameWidth frameHeight in
      let hand2Center := getHandCenter (hand_landmarks hand2) frameWidth frameHeight in
      let distance :=
        Math_hypot (pt_x hand1Center - pt_x hand2Center)
                   (pt_y hand1Center - pt_y hand2Center) in
      let normalizedDistance := (distance / frameWidth)%float in
      let bothHandsLow :=
        (pt_y hand1Center / frameHeight >? 0.6)%float
        && (pt_y hand2Center / frameHeight >? 0.6)%float in
      let handsClose := (normalizedDistance <? 0.35)%float in
      bothHandsLow && handsClose
  | _ => false
  end.

(** ** The result object and its field assignments *)

(** The object [processFrame] starts from. *)
Definition initialResult (this : DetectionEngine) : DetectionResult := {|
  eyeClosure := {| leftEAR := 0; rightEAR := 0; averageEAR := 0;
                   isEyesClosed := false;
                   closureFrames := eyeClosureCounter this;
                   eye_severity := eye_normal |};
  headPose := {| head_x := 0; head_y := 0; pitch := 0; yaw := 0; roll := 0;
                 turn := lvl_none; tilt := lvl_none; droop := lvl_none |};
  gaze := {| gaze_x := 0.5; gaze_y := 0.5; deviation := 0; lookingAway := false |};
  mouth := {| MAR := 0; isYawning := false; yawnCount := yawnCounter this |};
  hands := {| nearEar := false; nearFace := false; possibleTexting := false;
              phoneUsage := false |};
  res_drowsiness := {| level := lvl_none; indicators := [] |};
  res_distraction := {| level := lvl_none; indicators := [] |}
|}.

Definition with_eyeClosure (f : EyeClosureResult -> EyeClosureResult)
    (r : DetectionResult) : DetectionResult :=
  {| eyeClosure := f (eyeClosure r); headPose := headPose r; gaze := gaze r;
     mouth := mouth r; hands := hands r; res_drowsiness := res_drowsiness r;
     res_distraction := res_distraction r |}.

Definition with_headPose (f : HeadPoseResult -> HeadPoseResult)
    (r : DetectionResult) : DetectionResult :=
  {| eyeClosure := eyeClosure r; headPose := f (headPose r); gaze := gaze r;
     mouth := mouth r; hands := hands r; res_drowsiness := res_drowsiness r;
     res_distraction := res_distraction r |}.

Definition with_gaze (f : GazeResult -> GazeResult)
    (r : DetectionResult) : DetectionResult :=
  {| eyeClosure := eyeClosure r; headPose := headPose r; gaze := f (gaze r);
     mouth := mouth r; hands := hands r; res_drowsiness := res_drowsiness r;
     res_distraction := res_distraction r |}.

Definition with_mouth (f : MouthResult -> MouthResult)
    (r : DetectionResult) : DetectionResult :=
  {| eyeClosure := eyeClosure r; headPose := headPose r; gaze := gaze r;
     mouth := f (mouth r); hands := hands r; res_drowsiness := res_drowsiness r;
     res_distraction := res_distraction r |}.

Definition with_hands (f : HandsResult -> HandsResult)
    (r : DetectionResult) : DetectionResult :=
  {| eyeClosure := eyeClosure r; headPose := headPose r; gaze := gaze r;
     mouth := mouth r; hands := f (hands r); res_drowsiness := res_drowsiness r;
     res_distraction := res_distraction r |}.

Definition with_drowsiness (c : CompositeResult) (r : DetectionResult) : DetectionResult :=
  {| eyeClosure := eyeClosure r; headPose := headPose r; gaze := gaze r;
     mouth := mouth r; hands := hands r; res_drowsiness := c;
     res_distraction := res_distraction r |}.

Definition with_distraction (c : CompositeResult) (r : DetectionResult) : DetectionResult :=
  {| eyeClosure := eyeClosure r; headPose := headPose r; gaze := gaze r;
     mouth := mouth r; hands := hands r; res_drowsiness := res_drowsiness r;
     res_distraction := c |}.

(** [result.eyeClosure.leftEAR = ...; .rightEAR = ...; .averageEAR = ...]. *)
Definition assign_EAR (l r avg : float) : DetectionResult -> DetectionResult :=
  with_eyeClosure (fun e =>
    {| leftEAR := l; rightEAR := r; averageEAR := avg;
       isEyesClosed := isEyesClosed e; closureFrames := closureFrames e;
       eye_severity := eye_severity e |}).

(** [result.eyeClosure.severity = s; result.eyeClosure.isEyesClosed = true]. *)
Definition assign_eyesClosed (s : EyeSeverity) : DetectionResult -> DetectionResult :=
  with_eyeClosure (fun e =>
    {| leftEAR := leftEAR e; rightEAR := rightEAR e; averageEAR := averageEAR e;
       isEyesClosed := true; closureFrames := closureFrames e;
       eye_severity := s |}).

Definition assign_MAR (mar : float) : DetectionResult -> DetectionResult :=
  with_mouth (fun m =>
    {| MAR := mar; isYawning := isYawning m; yawnCount := yawnCount m |}).

Definition assign_isYawning (b : bool) : DetectionResult -> DetectionResult :=
  with_mouth (fun m =>
    {| MAR := MAR m; isYawning := b; yawnCount := yawnCount m |}).

Definition assign_head_xy (x y : float) : DetectionResult -> DetectionResult :=
  with_headPose (fun p =>
    {| head_x := x; head_y := y; pitch := pitch p; yaw := yaw p; roll := roll p;
       turn := turn p; tilt := tilt p; droop := droop p |}).

Definition assign_turn (l : Level) : DetectionResult -> DetectionResult :=
  with_headPose (fun p =>
    {| head_x := head_x p; head_y := head_y p; pitch := pitch p; yaw := yaw p;
       roll := roll p; turn := l; tilt := tilt p; droop := droop p |}).

Definition assign_tilt (l : Level) : DetectionResult -> DetectionResult :=
  with_headPose (fun p =>
    {| head_x := head_x p; head_y := head_y p; pitch := pitch p; yaw := yaw p;
       roll := roll p; turn := turn p; tilt := l; droop := droop p |}).

Definition assign_droop (l : Level) : DetectionResult -> DetectionResult :=
  with_headPose (fun p =>
    {| head_x := head_x p; head_y := head_y p; pitch := pitch p; yaw := yaw p;
       roll := roll p; turn := turn p; tilt := tilt p; droop := l |}).

(** [result.gaze.x = x; result.gaze.deviation = d]. *)
Definition assign_gaze (x d : float) : DetectionResult -> DetectionResult :=
  with_gaze (fun g =>
    {| gaze_x := x; gaze_y := gaze_y g; deviation := d;
       lookingAway := lookingAway g |}).

Definition assign_lookingAway (b : bool) : DetectionResult -> DetectionResult :=
  with_gaze (fun g =>
    {| gaze_x := gaze_x g; gaze_y := gaze_y g; deviation := deviation g;
       lookingAway := b |}).

(** [result.hands.nearEar = true; result.hands.phoneUsage = true]. *)
Definition assign_nearEar : DetectionResult -> DetectionResult :=
  with_hands (fun h =>
    {| nearEar := true; nearFace := nearFace h;
       possibleTexting := possibleTexting h; phoneUsage := true |}).

Definition assign_nearFace : DetectionResult -> DetectionResult :=
  with_hands (fun h =>
    {| nearEar := nearEar h; nearFace := true;
       possibleTexting := possibleTexting h; phoneUsage := phoneUsage h |}).

Definition assign_possibleTexting : DetectionResult -> DetectionResult :=
  with_hands (fun h =>
    {| nearEar := nearEar h; nearFace := nearFace h;
       possibleTexting := true; phoneUsage := phoneUsage h |}).

(** ** processFrame *)

Definition NOSE_TIP : nat := 1.
Definition LEFT_EYE : list nat := [33; 160; 158; 133; 153; 144]%nat.
Definition RIGHT_EYE : list nat := [362; 385; 387; 263; 373; 380]%nat.
Definition LEFT_IRIS : list nat := [474; 475; 476; 477]%nat.
Definition RIGHT_IRIS : list nat := [469; 470; 471; 472]%nat.
Definition MOUTH : list nat := [13; 14; 78; 308]%nat.

(** [landmarks[i]] read for one of its properties: throws on [undefined]. *)
Definition js_get (landmarks : list Landmark) (i : nat) : Completion Landmark :=
  match nth_error landmarks i with
  | Some landmark => Normal landmark
  | None => Throw TypeError
  end.

(** What lines 255-285 compute from the face landmarks before the engine
    state is touched. *)
Record EyeMeasures := {
  m_faceCenter : Point;
  m_leftEAR : float;
  m_rightEAR : float;
  m_averageEAR : float;
  m_irisCenter : Point
}.

Definition measureEyes (landmarks : list Landmark) (frameWidth frameHeight : float)
    : Completion EyeMeasures :=
  faceCenter <- getPoint (js_dense landmarks) frameWidth frameHeight NOSE_TIP ;;
  let leftEyeLandmarks := js_pick landmarks LEFT_EYE in
  let rightEyeLandmarks := js_pick landmarks RIGHT_EYE in
  leftEAR <- calculateEAR leftEyeLandmarks frameWidth frameHeight ;;
  rightEAR <- calculateEAR rightEyeLandmarks frameWidth frameHeight ;;
  let averageEAR := ((leftEAR + rightEAR) / 2)%float in
  leftIris <- getIrisCenter (js_pick landmarks LEFT_IRIS) frameWidth frameHeight ;;
  rightIris <- getIrisCenter (js_pick landmarks RIGHT_IRIS) frameWidth frameHeight ;;
  let irisCenter :=
    {| pt_x := ((pt_x leftIris + pt_x rightIris) / 2)%float;
       pt_y := ((pt_y leftIris + pt_y rightIris) / 2)%float |} in
  ret {| m_faceCenter := faceCenter; m_leftEAR := leftEAR;
         m_rightEAR := rightEAR; m_averageEAR := averageEAR;
         m_irisCenter := irisCenter |}.

(** The condition of line 289: [eyeClosedByEAR && !irisVisible]. *)
Definition eyesClosedCondition (cfg : DetectionConfig) (m : EyeMeasures)
    (frameHeight : float) : bool :=
  let irisYNormalized := (pt_y (m_irisCenter m) / frameHeight)%float in
  let irisVisible := (irisYNormalized <=? 0.5)%float in
  let eyeClosedByEAR := (m_averageEAR m <? earThreshold cfg)%float in
  eyeClosedByEAR && negb irisVisible.

(** Eye closure detection (lines 273-306). *)
Definition eyeClosureDetection (m : EyeMeasures) (frameHeight : float) (now : Z)
    (result : DetectionResult) : Eng DetectionResult :=
  let averageEAR := m_averageEAR m in
  let result := assign_EAR (m_leftEAR m) (m_rightEAR m) averageEAR result in
  this <- get ;;
  if eyesClosedCondition (config this) m frameHeight then
    modify (fun this => set_eyeClosureCounter (eyeClosureCounter this + 1) this) ;;;
    this <- get ;;
    if eyeClosureCounter this >? 30 then
      triggerAlert eye_closure severe "Alert: Eyes Closed Too Long" (Some 0.9%float)
        (Some (MetaEye averageEAR (eyeClosureCounter this))) now ;;;
      ret (assign_eyesClosed eye_alert result)
    else if eyeClosureCounter this >? eyeClosedFramesThreshold (config this) then
      triggerAlert eye_closure moderate "Warning: Eyes Closed" (Some 0.8%float)
        (Some (MetaEye averageEAR (eyeClosureCounter this))) now ;;;
      ret (assign_eyesClosed eye_warning result)
    else ret result
  else
    when ((eyeClosureCounter this >=? 2)
          && (eyeClosureCounter this <? eyeClosedFramesThreshold (config this)))
      (modify (fun this => set_blinkCounter (blinkCounter this + 1) this)) ;;;
    modify (set_eyeClosureCounter 0) ;;;
    ret result.

(** Blink rate monitoring (lines 308-315). *)
Definition blinkRateMonitoring (currentTime now : Z) : Eng unit :=
  this <- get ;;
  when (currentTime - blinkTimer this >? 60000)
    (when (blinkCounter this >=? blinkRateThreshold (config this))
       (triggerAlert blink_rate_high mild "High Blinking Rate" (Some 0.7%float)
          (Some (MetaBlink (blinkCounter this))) now ;;;
        ret tt) ;;;
     modify (set_blinkCounter 0) ;;;
     modify (set_blinkTimer currentTime)).

(** The yawn counter and alert, once the mouth aspect ratio is known
    (lines 322-334). *)
Definition yawnCounting (mar : float) (now : Z) (result : DetectionResult)
    : Eng DetectionResult :=
  let result := assign_MAR mar result in
  modify (fun this => set_marHistory (marHistory this ++ [mar]) this) ;;;
  modify (fun this => set_marHistory (tl (marHistory this)) this) ;;;
  this <- get ;;
  when (mar >? marThreshold (config this))%float
    (modify (fun this => set_yawnCounter (yawnCounter this + 1) this)) ;;;
  this <- get ;;
  if yawnCounter this >? yawnThreshold (config this) then
    triggerAlert yawning moderate "Warning: Yawning" (Some 0.8%float)
      (Some (MetaYawn mar (yawnCounter this))) now ;;;
    modify (set_yawnCounter 0) ;;;
    ret (assign_isYawning true result)
  else ret result.

(** Yawning detection (lines 317-334). *)
Definition yawningDetection (landmarks : list Landmark)
    (frameWidth frameHeight : float) (now : Z) (result : DetectionResult)
    : Eng DetectionResult :=
  let mouthLandmarks := js_pick landmarks MOUTH in
  mar <- lift (calculateMAR mouthLandmarks frameWidth frameHeight) ;;
  yawnCounting mar now result.

(** The three-tier ladder used for head turn, tilt, droop and gaze: the
    alert of the first tier whose bound the offset is below, else severe. *)
Definition tiered (offset bound1 bound2 : float) (type : AlertType)
    (msg1 msg2 msg3 : string) (conf1 : float) (now : Z) : Eng Level :=
  if (offset <? bound1)%float then
    triggerAlert type mild msg1 (Some conf1) None now ;;; ret lvl_mild
  else if (offset <? bound2)%float then
    triggerAlert type moderate msg2 (Some 0.8%float) None now ;;; ret lvl_moderate
  else
    triggerAlert type severe msg3 (Some 0.9%float) None now ;;; ret lvl_severe.

(** Head pose and gaze estimation (lines 336-408). *)
Definition headPoseEstimation (landmarks : list Landmark) (irisCenter : Point)
    (frameWidth : float) (now : Z) (result : DetectionResult)
    : Eng DetectionResult :=
  nose <- lift (js_get landmarks NOSE_TIP) ;;
  let headX := lm_x nose in
  let headY := lm_y nose in
  let result := assign_head_xy headX headY result in
  this <- get ;;
  match isCalibrated this, calibrationData this with
  | true, Some calibration =>
      let headXOffset := abs (headX - headCenterX calibration) in
      let headYOffset := abs (headY - headCenterY calibration) in
      result <-
        (if (headXOffset >? headTurnThreshold (config this))%float then
           l <- tiered headXOffset 0.1 0.2 head_turn "Mild Head Turn"
                  "Moderate Head Turn" "Severe Head Turn" 0.6 now ;;
           ret (assign_turn l result)
         else ret result) ;;
      result <-
        (if (abs headYOffset >? headTurnThreshold (config this))%float then
           if (headY <? headCenterY calibration)%float then
             l <- tiered (abs headYOffset) 0.08 0.15 head_turn
                    "Mild Looking Upward" "Moderate Looking Upward"
                    "Severe Looking Upward" 0.6 now ;;
             ret (assign_tilt l result)
           else
             l <- tiered (abs headYOffset) 0.07 0.12 head_droop
                    "Head drooping symptom" "Head drooping started"
                    "Head drooped" 0.7 now ;;
             ret (assign_droop l result)
         else ret result) ;;
      let gazeXNorm := (pt_x irisCenter / frameWidth)%float in
      let gazeOffset := abs (gazeXNorm - gazeCenter calibration) in
      let result := assign_gaze gazeXNorm gazeOffset result in
      if (gazeOffset >? gazeDeviationThreshold (config this))%float then
        let result := assign_lookingAway true result in
        tiered gazeOffset 0.1 0.2 gaze_deviation "Mild Gaze Deviation"
          "Moderate Gaze Deviation" "Severe Gaze Deviation" 0.6 now ;;;
        ret result
      else ret result
  | _, _ => ret result
  end.

(** [for (const hand of handResults) { ... }] with the result threaded
    through the iterations. *)
Fixpoint forEach_hand (body : HandDetectionResult -> DetectionResult -> Eng DetectionResult)
    (handResults : list HandDetectionResult) (result : DetectionResult)
    : Eng DetectionResult :=
  match handResults with
  | [] => ret result
  | hand :: rest =>
      result <- body hand result ;;
      forEach_hand body rest result
  end.

(** Hand detection and analysis (lines 410-432). *)
Definition handDetection (landmarks : list Landmark) (faceCenter : Point)
    (handResults : list HandDetectionResult) (frameWidth frameHeight : float)
    (now : Z) (result : DetectionResult) : Eng DetectionResult :=
  match handResults with
  | [] => ret result
  | _ :: _ =>
      result <-
        forEach_hand
          (fun hand result =>
             near <- lift (isHandNearEar landmarks (hand_landmarks hand)
                             frameWidth frameHeight) ;;
             result <-
               (if near : bool then
                  triggerAlert phone_usage moderate "Likely mobile call"
                    (Some 0.8%float) None now ;;;
                  ret (assign_nearEar result)
                else ret result) ;;
             this <- get ;;
             if isHandNearFace (config this) faceCenter (hand_landmarks hand)
                  frameWidth frameHeight then
               triggerAlert hand_near_face mild "Hand near the face"
                 (Some 0.7%float) None now ;;;
               ret (assign_nearFace result)
             else ret result)
          handResults result ;;
      if detectTexting handResults frameWidth frameHeight then
        triggerAlert texting severe "Possible texting observed"
          (Some 0.9%float) None now ;;;
        ret (assign_possibleTexting result)
      else ret result
  end.

Definition levelSeverity (l : Level) : Z :=
  match l with
  | lvl_severe => 3
  | lvl_moderate => 2
  | lvl_mild => 1
  | lvl_none => 0
  end.

Definition eyeClosureSeverity (result : DetectionResult) : Z :=
  match eye_severity (eyeClosure result) with
  | eye_alert => 2
  | eye_warning => 1
  | eye_normal => 0
  end.

(** Composite drowsiness assessment (lines 434-446). *)
Definition drowsinessAssessment (now : Z) (result : DetectionResult)
    : Eng DetectionResult :=
  let eyeClosureSeverity := eyeClosureSeverity result in
  let headDroopSeverity := levelSeverity (droop (headPose result)) in
  if (eyeClosureSeverity >=? 2)
     && ((headDroopSeverity >=? 1) || isYawning (mouth result)) then
    let result :=
      with_drowsiness
        {| level := lvl_severe;
           indicators := ["prolonged eye closure";
                          if headDroopSeverity >=? 1 then "head droop" else "yawning"]%string |}
        result in
    triggerAlert drowsiness severe "Severe DROWSINESS Observed"
      (Some 0.95%float) None now ;;;
    ret result
  else if (eyeClosureSeverity >=? 1)
          && ((headDroopSeverity >=? 1) || isYawning (mouth result)) then
    let result :=
      with_drowsiness
        {| level := lvl_moderate;
           indicators := ["eye closure";
                          if headDroopSeverity >=? 1 then "head droop" else "yawning"]%string |}
        result in
    triggerAlert drowsiness moderate "Moderate DROWSINESS Observed"
      (Some 0.85%float) None now ;;;
    ret result
  else ret result.

(** Composite distraction assessment (lines 448-461). *)
Definition distractionAssessment (now : Z) (result : DetectionResult)
    : Eng DetectionResult :=
  let headTurnSeverity := levelSeverity (turn (headPose result)) in
  let headTiltSeverity := levelSeverity (tilt (headPose result)) in
  let handsNotFree :=
    nearEar (hands result) || nearFace (hands result)
    || possibleTexting (hands result) in
  if ((headTurnSeverity >=? 2) || (headTiltSeverity >=? 2)) && handsNotFree then
    let result :=
      with_distraction
        {| level := lvl_severe;
           indicators := ["head movement"; "hands not free"]%string |} result in
    triggerAlert distraction severe "Severe DISTRACTION Observed"
      (Some 0.9%float) None now ;;;
    ret result
  else if ((headTurnSeverity >=? 1) || (headTiltSeverity >=? 1)) && handsNotFree then
    let result :=
      with_distraction
        {| level := lvl_moderate;
           indicators := ["head movement"; "hands not free"]%string |} result in
    triggerAlert distraction moderate "Moderate DISTRACTION Observed"
      (Some 0.8%float) None now ;;;
    ret result
  else ret result.

(** What follows the no-face test (lines 253-463). *)
Definition processFace (landmarks : list Landmark)
    (handResults : list HandDetectionResult) (frameWidth frameHeight : float)
    (currentTime now : Z) (result : DetectionResult) : Eng DetectionResult :=
  m <- lift (measureEyes landmarks frameWidth frameHeight) ;;
  result <- eyeClosureDetection m frameHeight now result ;;
  blinkRateMonitoring currentTime now ;;;
  result <- yawningDetection landmarks frameWidth frameHeight now result ;;
  result <- headPoseEstimation landmarks (m_irisCenter m) frameWidth now result ;;
  result <- handDetection landmarks (m_faceCenter m) handResults
              frameWidth frameHeight now result ;;
  result <- drowsinessAssessment now result ;;
  distractionAssessment now result.

(** [processFrame]. [now] is the reading of [Date.now()] during the call:
    the method is synchronous, and the one reading stands for the
    [currentTime] of line 200 and for the time stamps of the alerts. *)
Definition processFrame (faceResult : option FaceDetectionResult)
    (handResults : list HandDetectionResult) (frameWidth frameHeight : float)
    (sessionId : string) (now : Z) : Eng DetectionResult :=
  let currentTime := now in
  this <- get ;;
  let result := initialResult this in
  match faceResult with
  | None => ret result
  | Some face =>
      match face_landmarks face with
      | None => ret result
      | Some landmarks =>
          processFace landmarks handResults frameWidth frameHeight
            currentTime now result
      end
  end.

End Engine.

(** ** Sequences of [triggerAlert] calls *)





(** ** Running the engine on a stream of frames *)

(** The arguments of one [processFrame] call and the clock reading at it. *)
Record Frame := {
  f_face : option FaceDetectionResult;
  f_hands : list HandDetectionResult;
  f_width : float;
  f_height : float;
  f_session : string;
  f_now : Z
}.

(** The alert handed to each registered callback by one [triggerAlert]. *)
Definition fanout (callbacks : list Callback) (alert : AlertData) : list Delivery :=
  map (fun callback => (callback, alert)) callbacks.

(** The deliveries of one alert type among those of a call. *)
Definition deliveriesOf (type : AlertType) (out : list Delivery) : list Delivery :=
  filter (fun d => AlertType_eqb (alert_type (snd d)) type) out.

Section Feeding.

Variable Math_hypot : float -> float -> float.

Definition process (f : Frame) : Eng DetectionResult :=
  processFrame Math_hypot (f_face f) (f_hands f) (f_width f) (f_height f)
    (f_session f) (f_now f).

(** A caller that hands the frames to [processFrame] one after the other
    and goes on with the next frame however a call completes. For each call
    it keeps the completion and the deliveries; it ends with the engine the
    last call left. *)
Fixpoint feed (frames : list Frame) (this : DetectionEngine)
    : list (Completion DetectionResult * list Delivery) * DetectionEngine :=
  match frames with
  | [] => ([], this)
  | f :: rest =>
      match process f this with
      | (r, this1, out) =>
          match feed rest this1 with
          | (outs, this2) => ((r, out) :: outs, this2)
          end
      end
  end.

(** The eye measures of a frame that shows a face. *)
Definition frameMeasures (f : Frame) : option EyeMeasures :=
  match f_face f with
  | Some {| face_landmarks := Some landmarks |} =>
      match measureEyes Math_hypot landmarks (f_width f) (f_height f) with
      | Normal m => Some m
      | Throw _ => None
      end
  | _ => None
  end.

(** A frame that shows a face whose eyes count as closed (line 289). *)
Definition eyesClosedFrame (cfg : DetectionConfig) (f : Frame) : bool :=
  match frameMeasures f with
  | Some m => eyesClosedCondition cfg m (f_height f)
  | None => false
  end.

(** A frame that shows a face whose eyes do not count as closed. *)
Definition eyesOpenFrame (cfg : DetectionConfig) (f : Frame) : bool :=
  match frameMeasures f with
  | Some m => negb (eyesClosedCondition cfg m (f_height f))
  | None => false
  end.

End Feeding.

(** ** What a face frame leaves behind

    Closed forms of the alerts and of the engine fields after the
    eye-closure and blink-rate steps, used to state the properties. *)

(** The alert the eye-closure branch raises once the counter holds [count]. *)
Definition eyeClosureAlert (cfg : DetectionConfig) (ear : float) (count now : Z)
    : list AlertData :=
  if count >? 30 then
    [ {| alert_type := eye_closure; alert_severity := severe;
         alert_message := "Alert: Eyes Closed Too Long"; alert_timestamp := now;
         alert_confidenceScore := Some 0.9%float;
         alert_metadata := Some (MetaEye ear count); alert_sessionId := "" |} ]
  else if count >? eyeClosedFramesThreshold cfg then
    [ {| alert_type := eye_closure; alert_severity := moderate;
         alert_message := "Warning: Eyes Closed"; alert_timestamp := now;
         alert_confidenceScore := Some 0.8%float;
         alert_metadata := Some (MetaEye ear count); alert_sessionId := "" |} ]
  else [].

(** The engine after the eye-closure step, by the condition of line 289. *)
Definition afterEyes (closed : bool) (this : DetectionEngine) : DetectionEngine :=
  if closed then set_eyeClosureCounter (eyeClosureCounter this + 1) this
  else
    set_eyeClosureCounter 0
      (if (eyeClosureCounter this >=? 2)
          && (eyeClosureCounter this <? eyeClosedFramesThreshold (config this))
       then set_blinkCounter (blinkCounter this + 1) this
       else this).

(** The alert of the blink-rate step at clock reading [now]. *)
Definition blinkRateAlert (this : DetectionEngine) (now : Z) : list AlertData :=
  if (now - blinkTimer this >? 60000)
     && (blinkCounter this >=? blinkRateThreshold (config this)) then
    [ {| alert_type := blink_rate_high; alert_severity := mild;
         alert_message := "High Blinking Rate"; alert_timestamp := now;
         alert_confidenceScore := Some 0.7%float;
         alert_metadata := Some (MetaBlink (blinkCounter this));
         alert_sessionId := "" |} ]
  else [].

(** The engine after the blink-rate step at clock reading [now]. *)
Definition afterBlinkRate (now : Z) (this : DetectionEngine) : DetectionEngine :=
  if now - blinkTimer this >? 60000 then
    set_blinkTimer now (set_blinkCounter 0 this)
  else this.

(** ** Concrete frames used to exercise the engine *)

(** One implementation of [Math.hypot]: the rounded square root of the
    rounded sum of squares. *)
Definition hypot_sqrt (x y : float) : float := PrimFloat.sqrt (x * x + y * y).

Definition lm (x y : float) : Landmark := {| lm_x := x; lm_y := y |}.

(** A face mesh of 478 landmarks given by a function of the index. *)
Definition mesh (at_index : nat -> Landmark) : list Landmark :=
  map at_index (seq 0 478).

(** A face in a 640x480 frame: every landmark at (0.5, 0.6) except the nose
    tip, the lid points read by [calculateEAR] and the mouth points. The
    irises sit at y = 0.6, below the middle of the frame. [gap] is the
    height of the lid opening and [mouthGap] of the mouth opening, both in
    normalized units; the distance [calculateEAR] divides by (landmarks
    160 to 153, 385 to 373) is 0.05 and the mouth is 0.1 wide. *)
Definition faceAt (noseX gap mouthGap : float) (i : nat) : Landmark :=
  match i with
  | 1%nat => lm noseX 0.6
  | 160%nat => lm 0.40 0.6 | 153%nat => lm 0.45 0.6
  | 144%nat => lm 0.42 (0.6 + gap) | 133%nat => lm 0.42 0.6
  | 158%nat => lm 0.43 (0.6 + gap) | 33%nat => lm 0.43 0.6
  | 385%nat => lm 0.55 0.6 | 373%nat => lm 0.60 0.6
  | 380%nat => lm 0.57 (0.6 + gap) | 263%nat => lm 0.57 0.6
  | 387%nat => lm 0.58 (0.6 + gap) | 362%nat => lm 0.58 0.6
  | 13%nat => lm 0.5 0.7 | 14%nat => lm 0.5 (0.7 + mouthGap)
  | 78%nat => lm 0.45 0.7 | 308%nat => lm 0.55 0.7
  | _ => lm 0.5 0.6
  end.

Definition frameOf (landmarks : list Landmark) (now : Z) : Frame := {|
  f_face := Some {| face_landmarks := Some landmarks |};
  f_hands := [];
  f_width := 640;
  f_height := 480;
  f_session := "session";
  f_now := now
|}.

(** Eyes closed (aspect ratio about 0.10), mouth shut. *)
Definition closedEyes (now : Z) : Frame :=
  frameOf (mesh (faceAt 0.5 0.0066 0.01)) now.

(** Eyes open (aspect ratio about 0.30), mouth shut. *)
Definition openEyes (now : Z) : Frame :=
  frameOf (mesh (faceAt 0.5 0.02 0.01)) now.

(** Eyes open, mouth wide open (aspect ratio 1.5). *)
Definition yawningFace (now : Z) : Frame :=
  frameOf (mesh (faceAt 0.5 0.02 0.2)) now.

(** Eyes closed, mouth wide open. *)
Definition closedEyesYawning (now : Z) : Frame :=
  frameOf (mesh (faceAt 0.5 0.0066 0.2)) now.

(** A face whose eye corners coincide (landmarks 33 and 133 on the left,
    362 and 263 on the right): eyes of zero width, with the upper lid
    points (160, 158 and 385, 387) 0.04 above the lower ones (153, 144 and
    373, 380). Every other landmark is at (0.5, 0.6). *)
Definition cornersTogether (i : nat) : Landmark :=
  match i with
  | 33%nat => lm 0.42 0.6 | 133%nat => lm 0.42 0.6
  | 160%nat => lm 0.42 0.58 | 158%nat => lm 0.42 0.58
  | 153%nat => lm 0.42 0.62 | 144%nat => lm 0.42 0.62
  | 362%nat => lm 0.58 0.6 | 263%nat => lm 0.58 0.6
  | 385%nat => lm 0.58 0.58 | 387%nat => lm 0.58 0.58
  | 373%nat => lm 0.58 0.62 | 380%nat => lm 0.58 0.62
  | _ => lm 0.5 0.6
  end.

(** A face whose eyes are 0.05 wide (corners 33 and 133, 362 and 263) and
    open at one end (158 above 144, 387 above 380), with the lid points
    160 and 153 (385 and 373) on one spot. *)
Definition lidsTogether (i : nat) : Landmark :=
  match i with
  | 33%nat => lm 0.40 0.6 | 133%nat => lm 0.45 0.6
  | 160%nat => lm 0.42 0.6 | 153%nat => lm 0.42 0.6
  | 158%nat => lm 0.43 0.58 | 144%nat => lm 0.43 0.62
  | 362%nat => lm 0.55 0.6 | 263%nat => lm 0.60 0.6
  | 385%nat => lm 0.57 0.6 | 373%nat => lm 0.57 0.6
  | 387%nat => lm 0.58 0.58 | 380%nat => lm 0.58 0.62
  | _ => lm 0.5 0.6
  end.

(** Eyes open, head turned: the nose tip is at x = 0.9. *)
Definition turnedHead (now : Z) : Frame :=
  frameOf (mesh (faceAt 0.9 0.02 0.01)) now.

(** [new DetectionEngine()] at clock reading 0, then one
    [addAlertCallback]. *)
Definition engine1 : DetectionEngine :=
  snd (fst (addAlertCallback 7%nat (new_DetectionEngine 0))).

(** [n] frames built by [frame], one every 33 ms from clock reading
    [start]. *)
Definition run (frame : Z -> Frame) (n : nat) (start : Z) : list Frame :=
  map (fun i => frame (start + 33 * Z.of_nat i)) (seq 0 n).

Definition closedRun : nat -> Z -> list Frame := run closedEyes.

(** [engine1] after [setCalibration(0.5, 0.5, 0.6)]. *)
Definition calibratedEngine : DetectionEngine :=
  snd (fst (setCalibration 0.5 0.5 0.6 engine1)).

(** An engine whose yawn counter holds 3, the default threshold. *)
Definition threeYawnFrames : DetectionEngine := set_yawnCounter 3 engine1.

(** A result object in which the eye-closure step found the severe tier and
    the yawn step a yawn. *)
Definition severeAndYawning : DetectionResult :=
  assign_isYawning true (assign_eyesClosed eye_alert (initialResult engine1)).

(** ** Configuration merges *)

(** [Partial<DetectionConfig>]: a key that is absent is [None]. *)
Record PartialConfig := {
  p_earThreshold : option float;
  p_eyeClosedFramesThreshold : option Z;
  p_blinkRateThreshold : option Z;
  p_marThreshold : option float;
  p_yawnThreshold : option Z;
  p_gazeDeviationThreshold : option float;
  p_headTurnThreshold : option float;
  p_handNearFaceDistance : option float
}.

(** [base[key]] unless [partial] has the key. *)
Definition spread {A} (base : A) (partial : option A) : A :=
  match partial with
  | Some v => v
  | None => base
  end.

(** [{ ...base, ...partial }]. *)
Definition spreadConfig (base : DetectionConfig) (partial : PartialConfig)
    : DetectionConfig := {|
  earThreshold := spread (earThreshold base) (p_earThreshold partial);
  eyeClosedFramesThreshold :=
    spread (eyeClosedFramesThreshold base) (p_eyeClosedFramesThreshold partial);
  blinkRateThreshold :=
    spread (blinkRateThreshold base) (p_blinkRateThreshold partial);
  marThreshold := spread (marThreshold base) (p_marThreshold partial);
  yawnThreshold := spread (yawnThreshold base) (p_yawnThreshold partial);
  gazeDeviationThreshold :=
    spread (gazeDeviationThreshold base) (p_gazeDeviationThreshold partial);
  headTurnThreshold :=
    spread (headTurnThreshold base) (p_headTurnThreshold partial);
  handNearFaceDistance :=
    spread (handNearFaceDistance base) (p_handNearFaceDistance partial)
|}.

(** [{ ...p, ...q }] on two partial configurations. *)
Definition spreadPartial (p q : PartialConfig) : PartialConfig := {|
  p_earThreshold :=
    match p_earThreshold q with Some v => Some v | None => p_earThreshold p end;
  p_eyeClosedFramesThreshold :=
    match p_eyeClosedFramesThreshold q with
    | Some v => Some v | None => p_eyeClosedFramesThreshold p end;
  p_blinkRateThreshold :=
    match p_blinkRateThreshold q with
    | Some v => Some v | None => p_blinkRateThreshold p end;
  p_marThreshold :=
    match p_marThreshold q with Some v => Some v | None => p_marThreshold p end;
  p_yawnThreshold :=
    match p_yawnThreshold q with Some v => Some v | None => p_yawnThreshold p end;
  p_gazeDeviationThreshold :=
    match p_gazeDeviationThreshold q with
    | Some v => Some v | None => p_gazeDeviationThreshold p end;
  p_headTurnThreshold :=
    match p_headTurnThreshold q with
    | Some v => Some v | None => p_headTurnThreshold p end;
  p_handNearFaceDistance :=
    match p_handNearFaceDistance q with
    | Some v => Some v | None => p_handNearFaceDistance p end
|}.

Definition set_config (v : DetectionConfig) (e : DetectionEngine) :=
  {| config := v; eyeClosureCounter := eyeClosureCounter e;
     blinkCounter := blinkCounter e; yawnCounter := yawnCounter e;
     blinkTimer := blinkTimer e; marHistory := marHistory e;
     calibrationData := calibrationData e; isCalibrated := isCalibrated e;
     alertCallbacks := alertCallbacks e |}.

(** [setConfig]. *)
Definition setConfig (partial : PartialConfig) : Eng unit :=
  modify (fun this => set_config (spreadConfig (config this) partial) this).

(** [new DetectionEngine(config)] at clock reading [now]; the argument is
    optional. *)
Definition constructEngine (partial : option PartialConfig) (now : Z)
    : DetectionEngine := {|
  config :=
    match partial with
    | Some p => spreadConfig DEFAULT_CONFIG p
    | None => DEFAULT_CONFIG
    end;
  eyeClosureCounter := 0;
  blinkCounter := 0;
  yawnCounter := 0;
  blinkTimer := now;
  marHistory := repeat 0%float 30;
  calibrationData := None;
  isCalibrated := false;
  alertCallbacks := []
|}.

(** ** Sessions: sequences of calls on one engine *)

(** One call of a public method, with the clock reading where the method
    reads the clock. *)
Inductive ApiCall :=
| CallProcessFrame (f : Frame)
| CallReset (now : Z)
| CallSetConfig (partial : PartialConfig)
| CallSetCalibration (gazeCenter headCenterX headCenterY : float)
| CallAddAlertCallback (callback : Callback).

Section Sessions.

Variable Math_hypot : float -> float -> float.

(** The engine a call leaves, however the call completes. *)
Definition afterCall (this : DetectionEngine) (c : ApiCall) : DetectionEngine :=
  match c with
  | CallProcessFrame f => snd (fst (process Math_hypot f this))
  | CallReset now => snd (fst (reset now this))
  | CallSetConfig partial => snd (fst (setConfig partial this))
  | CallSetCalibration g x y => snd (fst (setCalibration g x y this))
  | CallAddAlertCallback callback => snd (fst (addAlertCallback callback this))
  end.

(** The engine after a sequence of calls on a newly constructed one. *)
Definition session (partial : option PartialConfig) (start : Z)
    (calls : list ApiCall) : DetectionEngine :=
  fold_left afterCall calls (constructEngine partial start).

End Sessions.

(** What holds of every engine a session reaches. *)
Definition SessionInvariant (e : DetectionEngine) : Prop :=
  yawnCounter e = 0
  /\ marHistory e = repeat 0%float 30
  /\ 0 <= eyeClosureCounter e
  /\ 0 <= blinkCounter e.

(** The callbacks a sequence of calls registers, in order. *)
Definition registered (calls : list ApiCall) : list Callback :=
  flat_map (fun c => match c with
                     | CallAddAlertCallback callback => [callback]
                     | _ => []
                     end) calls.

(** A frame without a face: no face result, or one without landmarks. *)
Definition noFaceFrame (f : Frame) : bool :=
  match f_face f with
  | None => true
  | Some {| face_landmarks := None |} => true
  | Some {| face_landmarks := Some _ |} => false
  end.

(** The yawn lines (322-334) run on a sequence of mouth aspect ratios, one
    per frame, each frame starting from the result object of line 203. The
    deliveries are kept per frame. *)
Fixpoint yawnCountingRun (mars : list float) (now : Z) (this : DetectionEngine)
    : list (list Delivery) * DetectionEngine :=
  match mars with
  | [] => ([], this)
  | mar :: rest =>
      match yawnCounting mar now (initialResult this) this with
      | (_, this1, out) =>
          match yawnCountingRun rest now this1 with
          | (outs, this2) => (out :: outs, this2)
          end
      end
  end.

(** A partial configuration with no key. *)
Definition emptyPartial : PartialConfig := {|
  p_earThreshold := None;
  p_eyeClosedFramesThreshold := None;
  p_blinkRateThreshold := None;
  p_marThreshold := None;
  p_yawnThreshold := None;
  p_gazeDeviationThreshold := None;
  p_headTurnThreshold := None;
  p_handNearFaceDistance := None
|}.

(** * The eye aspect ratio of the MediaPipe integration

    [MediaPipeIntegration.calculateEAR] (mediaPipeIntegration.ts, lines
    117-130) and [euclideanDistance] (lines 161-165), which work on the
    normalized landmarks and take the index list themselves. A landmark
    that is [undefined] makes the property read throw. *)

Module MediaPipe.

Definition euclideanDistance (point1 point2 : option Landmark)
    : Completion float :=
  match point1, point2 with
  | Some point1, Some point2 =>
      let dx := (lm_x point1 - lm_x point2)%float in
      let dy := (lm_y point1 - lm_y point2)%float in
      Normal (PrimFloat.sqrt (dx * dx + dy * dy))
  | _, _ => Throw TypeError
  end.

Definition calculateEAR (landmarks : list Landmark) (indices : list nat)
    : Completion float :=
  let points := js_pick landmarks indices in
  A <- euclideanDistance (js_index points 1) (js_index points 5) ;;
  B <- euclideanDistance (js_index points 2) (js_index points 4) ;;
  C <- euclideanDistance (js_index points 0) (js_index points 3) ;;
  ret ((A + B) / (2.0 * C))%float.

End MediaPipe.

(** * Battery optimization service

    The decision methods of the class [BatteryOptimizationService]. They
    read three fields of the object: the configuration, the last known
    battery level (a number between 0 and 1) and the charging flag. The
    constructor, the asynchronous initialisation, the battery listener,
    [updateConfig] and the storage calls reassign these fields over the
    life of the object and are not modelled: a record here is the object as
    a decision method finds it at the time of the call, and the decisions
    are stated for every value of the fields. *)

Module Battery.

Record BatteryOptimizationConfig := {
  lowBatteryThreshold : float;
  criticalBatteryThreshold : float;
  adaptiveFrameRate : bool;
  reducedProcessingMode : bool;
  autoStopOnLowBattery : bool
}.

Definition DEFAULT_CONFIG : BatteryOptimizationConfig := {|
  lowBatteryThreshold := 0.2;
  criticalBatteryThreshold := 0.1;
  adaptiveFrameRate := true;
  reducedProcessingMode := true;
  autoStopOnLowBattery := false
|}.

(** [Partial<BatteryOptimizationConfig>]: an absent key is [None]. *)
Record PartialConfig := {
  p_lowBatteryThreshold : option float;
  p_criticalBatteryThreshold : option float;
  p_adaptiveFrameRate : option bool;
  p_reducedProcessingMode : option bool;
  p_autoStopOnLowBattery : option bool
}.

(** [{ ...base, ...partial }]. *)
Definition spreadConfig (base : BatteryOptimizationConfig) (partial : PartialConfig)
    : BatteryOptimizationConfig := {|
  lowBatteryThreshold :=
    spread (lowBatteryThreshold base) (p_lowBatteryThreshold partial);
  criticalBatteryThreshold :=
    spread (criticalBatteryThreshold base) (p_criticalBatteryThreshold partial);
  adaptiveFrameRate :=
    spread (adaptiveFrameRate base) (p_adaptiveFrameRate partial);
  reducedProcessingMode :=
    spread (reducedProcessingMode base) (p_reducedProcessingMode partial);
  autoStopOnLowBattery :=
    spread (autoStopOnLowBattery base) (p_autoStopOnLowBattery partial)
|}.

Record BatteryOptimizationService := {
  config : BatteryOptimizationConfig;
  currentBatteryLevel : float;
  isCharging : bool
}.

Inductive Quality := high | medium | low.

Inductive RecommendationSeverity := info | warning | critical.

Record Recommendation := {
  message : string;
  severity : RecommendationSeverity;
  recommendations : list string
}.

Definition getOptimizedFrameRate (this : BatteryOptimizationService) : Z :=
  if negb (adaptiveFrameRate (config this)) || isCharging this then 30
  else if (currentBatteryLevel this <=? criticalBatteryThreshold (config this))%float
  then 10
  else if (currentBatteryLevel this <=? lowBatteryThreshold (config this))%float
  then 15
  else 30.

Definition getFrameSkipCount (this : BatteryOptimizationService) : Z :=
  if negb (reducedProcessingMode (config this)) || isCharging this then 0
  else if (currentBatteryLevel this <=? criticalBatteryThreshold (config this))%float
  then 4
  else if (currentBatteryLevel this <=? lowBatteryThreshold (config this))%float
  then 2
  else 1.

Definition getProcessingQuality (this : BatteryOptimizationService) : Quality :=
  if isCharging this then high
  else if (currentBatteryLevel this <=? criticalBatteryThreshold (config this))%float
  then low
  else if (currentBatteryLevel this <=? lowBatteryThreshold (config this))%float
  then medium
  else high.

Definition shouldStopMonitoring (this : BatteryOptimizationService) : bool :=
  autoStopOnLowBattery (config this)
  && (currentBatteryLevel this <=? criticalBatteryThreshold (config this))%float
  && negb (isCharging this).

Definition getOptimizationRecommendations (this : BatteryOptimizationService)
    : option Recommendation :=
  if isCharging this then None
  else if (currentBatteryLevel this <=? criticalBatteryThreshold (config this))%float
  then Some {| message := "Critical battery level detected";
               severity := critical;
               recommendations :=
                 ["Consider stopping monitoring to save battery";
                  "Connect charger to continue monitoring";
                  "Processing quality reduced to minimum"]%string |}
  else if (currentBatteryLevel this <=? lowBatteryThreshold (config this))%float
  then Some {| message := "Low battery level detected";
               severity := warning;
               recommendations :=
                 ["Frame rate reduced for battery optimization";
                  "Consider connecting charger for better performance";
                  "Some features may be limited"]%string |}
  else None.

Record BatteryStatus := {
  status_level : float;
  status_isCharging : bool;
  optimizationActive : bool;
  currentFrameRate : Z;
  processingQuality : Quality
}.

Definition getBatteryStatus (this : BatteryOptimizationService) : BatteryStatus := {|
  status_level := currentBatteryLevel this;
  status_isCharging := isCharging this;
  optimizationActive :=
    negb (isCharging this)
    && (currentBatteryLevel this <=? lowBatteryThreshold (config this))%float;
  currentFrameRate := getOptimizedFrameRate this;
  processingQuality := getProcessingQuality this
|}.

(** The quality levels in order: low, medium, high. *)
Definition qualityRank (q : Quality) : Z :=
  match q with
  | low => 0
  | medium => 1
  | high => 2
  end.

End Battery.

(** * The detection state of the FaceDetectionProcessor component

    The component keeps four frame counters in its React state and updates
    them in the function it hands to [setDetectionState] inside
    [handleDetectionResults]. That function is modelled as it is written:
    from the detection data and the previous state to the new state,
    together with the calls it makes on the way ([trigger...Alert] and the
    warning flag of [setCurrentMetrics]), in order. The alert helpers
    those calls stand for, with their cooldown gates, follow the update;
    the state object a helper reads is the one of the render its closure
    was made in, which React decides, so it is a parameter of the
    helper. *)

Module Processor.

Definition DROWSY_FRAME_THRESHOLD : Z := 8.
Definition YAWN_FRAME_THRESHOLD : Z := 5.
Definition DISTRACTION_FRAME_THRESHOLD : Z := 10.

Record DetectionState := {
  drowsyFrameCount : Z;
  yawnFrameCount : Z;
  distractionFrameCount : Z;
  phoneUseFrameCount : Z;
  lastAlertTime : Z;
  lastPhoneAlertTime : Z;
  lastDistractionAlertTime : Z;
  calibratedEARThreshold : float;
  calibratedMARThreshold : float;
  isCalibrating : bool;
  calibrationSamples : list float
}.

(** The state [useState] starts with. *)
Definition initialState : DetectionState := {|
  drowsyFrameCount := 0;
  yawnFrameCount := 0;
  distractionFrameCount := 0;
  phoneUseFrameCount := 0;
  lastAlertTime := 0;
  lastPhoneAlertTime := 0;
  lastDistractionAlertTime := 0;
  calibratedEARThreshold := 0.21;
  calibratedMARThreshold := 0.6;
  isCalibrating := false;
  calibrationSamples := []
|}.

(** The fields of [data] the update reads. [handData] and [headPose] may be
    missing. *)
Record DetectionData := {
  avgEAR : float;
  MAR : float;
  handData_nearEar : option bool;
  headPose_isDistracted : option bool
}.

(** A call the update makes. *)
Inductive Effect :=
| WarningActive (active : bool)
| TriggerDrowsinessAlert
| TriggerYawnAlert
| TriggerPhoneUseAlert
| TriggerDistractionAlert.

Definition set_drowsyFrameCount (v : Z) (s : DetectionState) : DetectionState :=
  {| drowsyFrameCount := v; yawnFrameCount := yawnFrameCount s;
     distractionFrameCount := distractionFrameCount s;
     phoneUseFrameCount := phoneUseFrameCount s;
     lastAlertTime := lastAlertTime s;
     lastPhoneAlertTime := lastPhoneAlertTime s;
     lastDistractionAlertTime := lastDistractionAlertTime s;
     calibratedEARThreshold := calibratedEARThreshold s;
     calibratedMARThreshold := calibratedMARThreshold s;
     isCalibrating := isCalibrating s;
     calibrationSamples := calibrationSamples s |}.

Definition set_yawnFrameCount (v : Z) (s : DetectionState) : DetectionState :=
  {| drowsyFrameCount := drowsyFrameCount s; yawnFrameCount := v;
     distractionFrameCount := distractionFrameCount s;
     phoneUseFrameCount := phoneUseFrameCount s;
     lastAlertTime := lastAlertTime s;
     lastPhoneAlertTime := lastPhoneAlertTime s;
     lastDistractionAlertTime := lastDistractionAlertTime s;
     calibratedEARThreshold := calibratedEARThreshold s;
     calibratedMARThreshold := calibratedMARThreshold s;
     isCalibrating := isCalibrating s;
     calibrationSamples := calibrationSamples s |}.

Definition set_phoneUseFrameCount (v : Z) (s : DetectionState) : DetectionState :=
  {| drowsyFrameCount := drowsyFrameCount s; yawnFrameCount := yawnFrameCount s;
     distractionFrameCount := distractionFrameCount s;
     phoneUseFrameCount := v;
     lastAlertTime := lastAlertTime s;
     lastPhoneAlertTime := lastPhoneAlertTime s;
     lastDistractionAlertTime := lastDistractionAlertTime s;
     calibratedEARThreshold := calibratedEARThreshold s;
     calibratedMARThreshold := calibratedMARThreshold s;
     isCalibrating := isCalibrating s;
     calibrationSamples := calibrationSamples s |}.

Definition set_distractionFrameCount (v : Z) (s : DetectionState) : DetectionState :=
  {| drowsyFrameCount := drowsyFrameCount s; yawnFrameCount := yawnFrameCount s;
     distractionFrameCount := v;
     phoneUseFrameCount := phoneUseFrameCount s;
     lastAlertTime := lastAlertTime s;
     lastPhoneAlertTime := lastPhoneAlertTime s;
     lastDistractionAlertTime := lastDistractionAlertTime s;
     calibratedEARThreshold := calibratedEARThreshold s;
     calibratedMARThreshold := calibratedMARThreshold s;
     isCalibrating := isCalibrating s;
     calibrationSamples := calibrationSamples s |}.

(** A truthy optional flag: [x?.flag]. *)
Definition truthy (flag : option bool) : bool :=
  match flag with
  | Some b => b
  | None => false
  end.

(** 1. Drowsiness detection (eye aspect ratio). *)
Definition updateDrowsy (data : DetectionData) (prev newState : DetectionState)
    : DetectionState * list Effect :=
  if (avgEAR data <? calibratedEARThreshold prev)%float then
    let newState := set_drowsyFrameCount (drowsyFrameCount newState + 1) newState in
    let warn :=
      if drowsyFrameCount newState >? DROWSY_FRAME_THRESHOLD / 2
      then [WarningActive true] else [] in
    if drowsyFrameCount newState >? DROWSY_FRAME_THRESHOLD then
      (set_drowsyFrameCount 0 newState,
       warn ++ [TriggerDrowsinessAlert; WarningActive false])
    else (newState, warn)
  else
    let newState :=
      set_drowsyFrameCount (Z.max 0 (drowsyFrameCount newState - 2)) newState in
    (newState,
     if drowsyFrameCount newState =? 0 then [WarningActive false] else []).

(** 2. Yawning detection (mouth aspect ratio). *)
Definition updateYawn (data : DetectionData) (prev newState : DetectionState)
    : DetectionState * list Effect :=
  if (MAR data >? calibratedMARThreshold prev)%float then
    let newState := set_yawnFrameCount (yawnFrameCount newState + 1) newState in
    if yawnFrameCount newState >? YAWN_FRAME_THRESHOLD then
      (set_yawnFrameCount 0 newState, [TriggerYawnAlert])
    else (newState, [])
  else
    (set_yawnFrameCount (Z.max 0 (yawnFrameCount newState - 1)) newState, []).

(** 3. Phone use detection (hand near ear). *)
Definition updatePhoneUse (data : DetectionData) (newState : DetectionState)
    : DetectionState * list Effect :=
  if truthy (handData_nearEar data) then
    let newState :=
      set_phoneUseFrameCount (phoneUseFrameCount newState + 1) newState in
    if phoneUseFrameCount newState >? 5 then
      (set_phoneUseFrameCount 0 newState, [TriggerPhoneUseAlert])
    else (newState, [])
  else
    (set_phoneUseFrameCount (Z.max 0 (phoneUseFrameCount newState - 1)) newState,
     []).

(** 4. Distraction detection (head rotation). *)
Definition updateDistraction (data : DetectionData) (newState : DetectionState)
    : DetectionState * list Effect :=
  if truthy (headPose_isDistracted data) then
    let newState :=
      set_distractionFrameCount (distractionFrameCount newState + 1) newState in
    if distractionFrameCount newState >? DISTRACTION_FRAME_THRESHOLD then
      (set_distractionFrameCount 0 newState, [TriggerDistractionAlert])
    else (newState, [])
  else
    (set_distractionFrameCount
       (Z.max 0 (distractionFrameCount newState - 1)) newState,
     []).

(** The function handed to [setDetectionState]. *)
Definition updateDetectionState (data : DetectionData) (prev : DetectionState)
    : DetectionState * list Effect :=
  let newState := prev in
  let '(newState, e1) := updateDrowsy data prev newState in
  let '(newState, e2) := updateYawn data prev newState in
  let '(newState, e3) := updatePhoneUse data newState in
  let '(newState, e4) := updateDistraction data newState in
  (newState, e1 ++ e2 ++ e3 ++ e4).

(** The updates of a sequence of detection results, each applied to the
    state the previous one returned; the calls are kept per result. *)
Fixpoint updateAll (datas : list DetectionData) (state : DetectionState)
    : DetectionState * list (list Effect) :=
  match datas with
  | [] => (state, [])
  | data :: rest =>
      let '(state1, effects) := updateDetectionState data state in
      let '(state2, more) := updateAll rest state1 in
      (state2, effects :: more)
  end.

(** The four counters within their bounds. *)
Definition CountersInRange (s : DetectionState) : Prop :=
  0 <= drowsyFrameCount s <= DROWSY_FRAME_THRESHOLD
  /\ 0 <= yawnFrameCount s <= YAWN_FRAME_THRESHOLD
  /\ 0 <= phoneUseFrameCount s <= 5
  /\ 0 <= distractionFrameCount s <= DISTRACTION_FRAME_THRESHOLD.

(** How often a call occurs among the calls of one update. *)
Definition effect_eqb (a b : Effect) : bool :=
  match a, b with
  | WarningActive x, WarningActive y => Bool.eqb x y
  | TriggerDrowsinessAlert, TriggerDrowsinessAlert
  | TriggerYawnAlert, TriggerYawnAlert
  | TriggerPhoneUseAlert, TriggerPhoneUseAlert
  | TriggerDistractionAlert, TriggerDistractionAlert => true
  | _, _ => false
  end.

Definition occurs (e : Effect) (effects : list Effect) : bool :=
  existsb (effect_eqb e) effects.

(** ** The alert helpers and their cooldown gates (lines 1076-1134) *)

Definition ALERT_COOLDOWN : Z := 3000.

(** The argument of [incrementDetection]. *)
Inductive DetectionKind := drowsy | phoneUse | distracted.

(** The function a helper hands to [setDetectionState]:
    [prev => ({ ...prev, lastAlertTime: now })] and its two likes. *)
Inductive StateUpdate :=
| Set_lastAlertTime (now : Z)
| Set_lastPhoneAlertTime (now : Z)
| Set_lastDistractionAlertTime (now : Z).


(** What a helper does once past its gate, in order: the store dispatch,
    the dialog (its one OK button and its options are constants, left
    out), the queued state update. *)
Inductive Action :=
| Dispatch_incrementDetection (kind : DetectionKind)
| Alert_alert (title message : string)
| SetDetectionState (update : StateUpdate).

(** Each helper reads the clock and [detectionState], the state object of
    the render its closure was made in, which is a parameter here. *)
Definition triggerDrowsinessAlert (detectionState : DetectionState) (now : Z)
    : list Action :=
  if now - lastAlertTime detectionState <? ALERT_COOLDOWN then []
  else
    [Dispatch_incrementDetection drowsy;
     Alert_alert "⚠️ Drowsiness Detected"
       "Your eyes appear to be closing. Please take a break if you feel tired.";
     SetDetectionState (Set_lastAlertTime now)].

Definition triggerYawnAlert (detectionState : DetectionState) (now : Z)
    : list Action :=
  if now - lastAlertTime detectionState <? ALERT_COOLDOWN then []
  else
    [Dispatch_incrementDetection drowsy;
     Alert_alert "😴 Yawning Detected"
       "Frequent yawning may indicate fatigue. Consider taking a rest.";
     SetDetectionState (Set_lastAlertTime now)].

Definition triggerPhoneUseAlert (detectionState : DetectionState) (now : Z)
    : list Action :=
  if now - lastPhoneAlertTime detectionState <? ALERT_COOLDOWN then []
  else
    [Dispatch_incrementDetection phoneUse;
     Alert_alert "📱 Phone Use Detected"
       "Please keep your hands on the wheel and eyes on the road. Pull over safely if you need to make a call.";
     SetDetectionState (Set_lastPhoneAlertTime now)].

Definition triggerDistractionAlert (detectionState : DetectionState) (now : Z)
    : list Action :=
  if now - lastDistractionAlertTime detectionState <? ALERT_COOLDOWN then []
  else
    [Dispatch_incrementDetection distracted;
     Alert_alert "👀 Distraction Detected"
       "Please keep your eyes on the road. Stay focused on driving.";
     SetDetectionState (Set_lastDistractionAlertTime now)].

(** The helper a call of the state update stands for. *)
Definition helperOf (effect : Effect)
    : option (DetectionState -> Z -> list Action) :=
  match effect with
  | TriggerDrowsinessAlert => Some triggerDrowsinessAlert
  | TriggerYawnAlert => Some triggerYawnAlert
  | TriggerPhoneUseAlert => Some triggerPhoneUseAlert
  | TriggerDistractionAlert => Some triggerDistractionAlert
  | WarningActive _ => None
  end.







(** The head of [processFrameLoop] (lines 947-960) while processing is on:
    the frame counter is incremented, and the iteration goes on to the
    throttle test unless the skip count is positive and the counter is not
    a multiple of the skip count plus one. Returns the counter and whether
    the iteration goes on. *)
Definition frameSkipTest (service : Battery.BatteryOptimizationService)
    (frameCount : Z) : Z * bool :=
  let frameSkipCount := Battery.getFrameSkipCount service in
  let frameCount := frameCount + 1 in
  (frameCount,
   negb ((frameSkipCount >? 0)
         && negb (frameCount mod (frameSkipCount + 1) =? 0))).

(** [n] iterations of the loop from a frame counter, the service staying
    as it is: which iterations go on. *)
Fixpoint frameSkipTests (n : nat) (service : Battery.BatteryOptimizationService)
    (frameCount : Z) : list bool :=
  match n with
  | O => []
  | S n' =>
      let '(frameCount, goes_on) := frameSkipTest service frameCount in
      goes_on :: frameSkipTests n' service frameCount
  end.

End Processor.

(** ** Concrete services, states and detection results *)

(** A service off the charger at 5 % with automatic stop switched on. *)
Definition criticalService : Battery.BatteryOptimizationService := {|
  Battery.config :=
    Battery.spreadConfig Battery.DEFAULT_CONFIG
      {| Battery.p_lowBatteryThreshold := None;
         Battery.p_criticalBatteryThreshold := None;
         Battery.p_adaptiveFrameRate := None;
         Battery.p_reducedProcessingMode := None;
         Battery.p_autoStopOnLowBattery := Some true |};
  Battery.currentBatteryLevel := 0.05;
  Battery.isCharging := false
|}.

(** A service whose battery level is not a number. *)
Definition unknownLevelService : Battery.BatteryOptimizationService := {|
  Battery.config := Battery.DEFAULT_CONFIG;
  Battery.currentBatteryLevel := nan;
  Battery.isCharging := false
|}.

(** A detection result with the eyes closing (ratio 0.15 against 0.21). *)
Definition drowsyData : Processor.DetectionData := {|
  Processor.avgEAR := 0.15;
  Processor.MAR := 0.4;
  Processor.handData_nearEar := Some false;
  Processor.headPose_isDistracted := Some false
|}.

(** A detection result with the eyes open (ratio 0.30 against 0.21). *)
Definition alertData : Processor.DetectionData := {|
  Processor.avgEAR := 0.30;
  Processor.MAR := 0.4;
  Processor.handData_nearEar := None;
  Processor.headPose_isDistracted := None
|}.

(** A frame with a face result and no landmarks at all in its array. *)
Definition emptyLandmarks (now : Z) : Frame := frameOf [] now.

(** A frame without a face result. *)
Definition facelessFrame (now : Z) : Frame := {|
  f_face := None;
  f_hands := [];
  f_width := 640;
  f_height := 480;
  f_session := "session";
  f_now := now
|}.

(** A hand result whose landmark array is empty. *)
Definition landmarklessHand (hand : HandDetectionResult) : bool :=
  match hand_landmarks hand with
  | [] => true
  | _ :: _ => false
  end.

(** A service off the charger at 50 %, default configuration. *)
Definition halfChargedService : Battery.BatteryOptimizationService := {|
  Battery.config := Battery.DEFAULT_CONFIG;
  Battery.currentBatteryLevel := 0.5;
  Battery.isCharging := false
|}.

(** * Properties *)

Section Properties.

Variable Math_hypot : float -> float -> float.

(** ** Facts on binary64 comparisons and doubling *)

Lemma zero_not_positive : forall c : float, (c =? 0)%float = true -> (0 <? c)%float = false.
Proof.
  intros c. rewrite FloatAxioms.eqb_spec, FloatAxioms.ltb_spec.
  change (Prim2SF 0) with (S754_zero false).
  destruct (Prim2SF c) as [s|s| |s m e]; cbn; try discriminate; try reflexivity.
  - destruct s; discriminate.
  - destruct s; discriminate.
Qed.

Lemma positive_nonzero : forall c : float, (0 <? c)%float = true -> (c =? 0)%float = false.
Proof.
  intros c H. destruct (c =? 0)%float eqn:E; [|reflexivity].
  apply zero_not_positive in E. congruence.
Qed.

(** Doubling a positive binary64 number never rounds to zero: the product
    by 2 is exact, or overflows to infinity. *)
Lemma shr_exact_52 : forall m e,
  shr {| shr_m := Zpos (4503599627370496 * m); shr_r := false; shr_s := false |} e 52
  = ({| shr_m := Zpos m; shr_r := false; shr_s := false |}, e + 52).
Proof. intros. reflexivity. Qed.

Lemma shr_exact_51 : forall m e,
  shr {| shr_m := Zpos (4503599627370496 * m); shr_r := false; shr_s := false |} e 51
  = ({| shr_m := Zpos (m~0); shr_r := false; shr_s := false |}, e + 51).
Proof. intros. reflexivity. Qed.

Lemma digits_twice : forall m,
  Zpos (digits2_pos (4503599627370496 * m)) = Zpos (digits2_pos m) + 52.
Proof.
  intros m. cbn [Pos.mul digits2_pos]. lia.
Qed.

Lemma round_twice_not_zero : forall m e,
  bounded prec emax m e = true ->
  forall s, binary_round_aux prec emax false (Zpos (4503599627370496 * m)) (-51 + e) loc_Exact
            <> S754_zero s.
Proof.
  intros m e Hb s. unfold bounded, canonical_mantissa, fexp, SpecFloat.emin in Hb.
  apply andb_true_iff in Hb as [Hc He].
  apply Z.eqb_eq in Hc. apply Z.leb_le in He.
  unfold prec, emax in *.
  unfold binary_round_aux, shr_fexp, fexp, SpecFloat.emin.
  unfold Zdigits2 at 1. rewrite digits_twice.
  unfold shr_record_of_loc at 1.
  set (d := Zpos (digits2_pos m)) in *.
  assert (Hd : 0 < d) by (subst d; lia).
  destruct (Z.eq_dec d 53) as [Hd53|Hd53].
  - replace (Z.max (d + 52 + (-51 + e) - 53) (3 - 1024 - 53) - (-51 + e)) with 52 by lia.
    rewrite shr_exact_52. cbn [shr_m loc_of_shr_record round_nearest_even shr_record_of_loc Zdigits2].
    fold d.
    replace (Z.max (d + (-51 + e + 52) - 53) (3 - 1024 - 53) - (-51 + e + 52)) with 0 by lia.
    cbn [shr shr_m]. destruct (_ <=? _); discriminate.
  - replace (Z.max (d + 52 + (-51 + e) - 53) (3 - 1024 - 53) - (-51 + e)) with 51 by lia.
    rewrite shr_exact_51. cbn [shr_m loc_of_shr_record round_nearest_even shr_record_of_loc Zdigits2 digits2_pos].
    fold d.
    replace (Z.max (Zpos (Pos.succ (digits2_pos m)) + (-51 + e + 51) - 53) (3 - 1024 - 53) - (-51 + e + 51)) with 0 by lia.
    cbn [shr shr_m]. destruct (_ <=? _); discriminate.
Qed.

Lemma twice_positive_nonzero : forall c : float, (0 <? c)%float = true -> (2 * c =? 0)%float = false.
Proof.
  intros c. rewrite FloatAxioms.ltb_spec, FloatAxioms.eqb_spec, FloatAxioms.mul_spec.
  pose proof (Prim2SF_valid c) as V.
  change (Prim2SF 0) with (S754_zero false).
  change (Prim2SF 2) with (S754_finite false 4503599627370496 (-51)).
  destruct (Prim2SF c) as [s|s| |s m e]; cbn [SFltb SFcompare]; try discriminate.
  - destruct s; [discriminate|]. intros _. reflexivity.
  - destruct s; [discriminate|]. intros _.
    cbn [valid_binary] in V.
    pose proof (round_twice_not_zero m e V) as H.
    unfold SF64mul, SFmul. cbn [xorb].
    destruct (binary_round_aux prec emax false (Zpos (4503599627370496 * m)) (-51 + e) loc_Exact)
      as [s'|s'| |s' m' e'] eqn:E.
    + exfalso. now apply (H s').
    + destruct s'; reflexivity.
    + reflexivity.
    + destruct s'; reflexivity.
Qed.

(** ** The mouth landmarks handed to [calculateMAR] *)

(** [processFrame] hands [calculateMAR] the four picked mouth points, and
    [calculateMAR] reads cells 13, 14, 78 and 308 of what it is handed:
    the first read finds [undefined] and the call throws. *)
Lemma calculateMAR_of_picked_throws :
  forall landmarks frameWidth frameHeight,
    calculateMAR Math_hypot (js_pick landmarks MOUTH) frameWidth frameHeight
    = Throw TypeError.
Proof.
  intros. reflexivity.
Qed.

Lemma yawningDetection_throws :
  forall landmarks frameWidth frameHeight now result this,
    yawningDetection Math_hypot landmarks frameWidth frameHeight now result this
    = (Throw TypeError, this, []).
Proof.
  intros. reflexivity.
Qed.

(** ** Eye closure detection and blink-rate monitoring, step by step *)

Lemma eyeClosureDetection_closed :
  forall m frameHeight now result this,
    eyesClosedCondition (config this) m frameHeight = true ->
    exists result',
      eyeClosureDetection m frameHeight now result this
      = (Normal result', afterEyes true this,
         flat_map (fanout (alertCallbacks this))
           (eyeClosureAlert (config this) (m_averageEAR m)
              (eyeClosureCounter this + 1) now)).
Proof.
  intros m frameHeight now result this Hc.
  unfold eyeClosureDetection, eyeClosureAlert. cbn.
  unfold eng_bind, get. rewrite Hc. cbn.
  destruct (eyeClosureCounter this + 1 >? 30); cbn.
  - eexists. rewrite app_nil_r. reflexivity.
  - destruct (eyeClosureCounter this + 1 >? eyeClosedFramesThreshold (config this)); cbn.
    + eexists. rewrite app_nil_r. reflexivity.
    + eexists. reflexivity.
Qed.

Lemma eyeClosureDetection_open :
  forall m frameHeight now result this,
    eyesClosedCondition (config this) m frameHeight = false ->
    exists result',
      eyeClosureDetection m frameHeight now result this
      = (Normal result', afterEyes false this, []).
Proof.
  intros m frameHeight now result this Hc.
  unfold eyeClosureDetection, afterEyes. cbn.
  unfold eng_bind, get. rewrite Hc. cbn.
  destruct ((eyeClosureCounter this >=? 2)
            && (eyeClosureCounter this <? eyeClosedFramesThreshold (config this)));
    cbn; eexists; reflexivity.
Qed.

Lemma blinkRateMonitoring_outcome :
  forall now this,
    blinkRateMonitoring now now this
    = (Normal tt, afterBlinkRate now this,
       flat_map (fanout (alertCallbacks this)) (blinkRateAlert this now)).
Proof.
  intros now this.
  unfold blinkRateMonitoring, afterBlinkRate, blinkRateAlert. cbn.
  unfold eng_bind, get. cbn.
  destruct (now - blinkTimer this >? 60000); cbn; [|reflexivity].
  destruct (blinkCounter this >=? blinkRateThreshold (config this)); cbn.
  - rewrite !app_nil_r. reflexivity.
  - reflexivity.
Qed.

(** Neither step touches the configuration, the calibration or the
    subscribers. *)
Lemma afterEyes_frame :
  forall closed this,
    config (afterEyes closed this) = config this
    /\ alertCallbacks (afterEyes closed this) = alertCallbacks this
    /\ calibrationData (afterEyes closed this) = calibrationData this
    /\ isCalibrated (afterEyes closed this) = isCalibrated this
    /\ yawnCounter (afterEyes closed this) = yawnCounter this
    /\ blinkTimer (afterEyes closed this) = blinkTimer this.
Proof.
  intros closed this. unfold afterEyes.
  destruct closed; [repeat split|].
  destruct ((eyeClosureCounter this >=? 2)
            && (eyeClosureCounter this <? eyeClosedFramesThreshold (config this)));
    repeat split.
Qed.

Lemma afterBlinkRate_frame :
  forall now this,
    config (afterBlinkRate now this) = config this
    /\ alertCallbacks (afterBlinkRate now this) = alertCallbacks this
    /\ calibrationData (afterBlinkRate now this) = calibrationData this
    /\ isCalibrated (afterBlinkRate now this) = isCalibrated this
    /\ yawnCounter (afterBlinkRate now this) = yawnCounter this
    /\ eyeClosureCounter (afterBlinkRate now this) = eyeClosureCounter this.
Proof.
  intros now this. unfold afterBlinkRate.
  destruct (now - blinkTimer this >? 60000); repeat split.
Qed.

(** Sequencing in [Eng], one case per completion of the first call. *)
Lemma bind_Normal :
  forall A B (c : Eng A) (k : A -> Eng B) this a this1 out1,
    c this = (Normal a, this1, out1) ->
    bind c k this
    = (fst (fst (k a this1)), snd (fst (k a this1)), out1 ++ snd (k a this1)).
Proof.
  intros A B c k this a this1 out1 H. cbn. unfold eng_bind. rewrite H.
  destruct (k a this1) as [[r this2] out2]. reflexivity.
Qed.

Lemma bind_Throw :
  forall A B (c : Eng A) (k : A -> Eng B) this e this1 out1,
    c this = (Throw e, this1, out1) ->
    bind c k this = (Throw e, this1, out1).
Proof.
  intros A B c k this e this1 out1 H. cbn. unfold eng_bind. rewrite H.
  reflexivity.
Qed.

(** The face branch of [processFrame] runs the eye-closure and blink-rate
    steps and then throws in [calculateMAR]: the counters keep what the two
    steps wrote and the alerts raised before the throw were delivered. *)
Lemma processFace_outcome :
  forall landmarks handResults frameWidth frameHeight now result m this,
    measureEyes Math_hypot landmarks frameWidth frameHeight = Normal m ->
    processFace Math_hypot landmarks handResults frameWidth frameHeight now now
      result this
    = (Throw TypeError,
       afterBlinkRate now
         (afterEyes (eyesClosedCondition (config this) m frameHeight) this),
       flat_map (fanout (alertCallbacks this))
         ((if eyesClosedCondition (config this) m frameHeight
           then eyeClosureAlert (config this) (m_averageEAR m)
                  (eyeClosureCounter this + 1) now
           else [])
          ++ blinkRateAlert
               (afterEyes (eyesClosedCondition (config this) m frameHeight) this)
               now)).
Proof.
  intros landmarks handResults frameWidth frameHeight now result m this E.
  unfold processFace.
  rewrite (bind_Normal _ _ _ _ this m this []) by (unfold lift; now rewrite E).
  cbn [app fst snd].
  destruct (eyesClosedCondition (config this) m frameHeight) eqn:Hc.
  - destruct (eyeClosureDetection_closed m frameHeight now result this Hc)
      as [r' Hr].
    rewrite (bind_Normal _ _ _ _ _ _ _ _ Hr). cbn [fst snd].
    rewrite (bind_Normal _ _ _ _ _ _ _ _ (blinkRateMonitoring_outcome now _)).
    cbn [fst snd].
    rewrite (bind_Throw _ _ _ _ _ _ _ _ (yawningDetection_throws _ _ _ _ _ _)).
    cbn [fst snd]. rewrite app_nil_r, flat_map_app.
    destruct (afterEyes_frame true this) as (_ & -> & _). reflexivity.
  - destruct (eyeClosureDetection_open m frameHeight now result this Hc)
      as [r' Hr].
    rewrite (bind_Normal _ _ _ _ _ _ _ _ Hr). cbn [fst snd].
    rewrite (bind_Normal _ _ _ _ _ _ _ _ (blinkRateMonitoring_outcome now _)).
    cbn [fst snd].
    rewrite (bind_Throw _ _ _ _ _ _ _ _ (yawningDetection_throws _ _ _ _ _ _)).
    cbn [fst snd]. rewrite app_nil_r.
    destruct (afterEyes_frame false this) as (_ & -> & _). reflexivity.
Qed.

Lemma process_face_frame :
  forall f m this,
    frameMeasures Math_hypot f = Some m ->
    process Math_hypot f this
    = (Throw TypeError,
       afterBlinkRate (f_now f)
         (afterEyes (eyesClosedCondition (config this) m (f_height f)) this),
       flat_map (fanout (alertCallbacks this))
         ((if eyesClosedCondition (config this) m (f_height f)
           then eyeClosureAlert (config this) (m_averageEAR m)
                  (eyeClosureCounter this + 1) (f_now f)
           else [])
          ++ blinkRateAlert
               (afterEyes (eyesClosedCondition (config this) m (f_height f)) this)
               (f_now f))).
Proof.
  intros f m this Hm.
  unfold frameMeasures in Hm. unfold process, processFrame.
  destruct (f_face f) as [[[landmarks|]]|]; try discriminate.
  destruct (measureEyes Math_hypot landmarks (f_width f) (f_height f)) as [m'|] eqn:E;
    [|discriminate].
  injection Hm as ->.
  rewrite (bind_Normal _ _ _ _ this this this []) by reflexivity.
  cbn [face_landmarks app fst snd].
  rewrite (processFace_outcome _ _ _ _ _ _ _ _ E). reflexivity.
Qed.

(** ** Selecting the deliveries of one alert type *)

Lemma deliveriesOf_app :
  forall type out1 out2,
    deliveriesOf type (out1 ++ out2)
    = deliveriesOf type out1 ++ deliveriesOf type out2.
Proof.
  intros. unfold deliveriesOf. apply filter_app.
Qed.

Lemma deliveriesOf_fanout :
  forall type callbacks alert,
    deliveriesOf type (fanout callbacks alert)
    = if AlertType_eqb (alert_type alert) type then fanout callbacks alert else [].
Proof.
  intros type callbacks alert. unfold deliveriesOf, fanout.
  induction callbacks as [|cb cbs IH]; cbn.
  - now destruct (AlertType_eqb (alert_type alert) type).
  - rewrite IH. now destruct (AlertType_eqb (alert_type alert) type).
Qed.

Lemma deliveriesOf_flat_map :
  forall type callbacks alerts,
    deliveriesOf type (flat_map (fanout callbacks) alerts)
    = flat_map (fanout callbacks)
        (filter (fun a => AlertType_eqb (alert_type a) type) alerts).
Proof.
  intros type callbacks alerts.
  induction alerts as [|a rest IH]; cbn [flat_map filter]; [reflexivity|].
  rewrite deliveriesOf_app, deliveriesOf_fanout, IH.
  destruct (AlertType_eqb (alert_type a) type); reflexivity.
Qed.

Lemma eyeClosureAlert_type :
  forall cfg ear count now type,
    filter (fun a => AlertType_eqb (alert_type a) type)
      (eyeClosureAlert cfg ear count now)
    = if AlertType_eqb eye_closure type
      then eyeClosureAlert cfg ear count now else [].
Proof.
  intros. unfold eyeClosureAlert.
  destruct (count >? 30); [|destruct (count >? eyeClosedFramesThreshold cfg)];
    cbn; destruct type; reflexivity.
Qed.

Lemma blinkRateAlert_type :
  forall this now type,
    filter (fun a => AlertType_eqb (alert_type a) type) (blinkRateAlert this now)
    = if AlertType_eqb blink_rate_high type then blinkRateAlert this now else [].
Proof.
  intros. unfold blinkRateAlert.
  destruct ((now - blinkTimer this >? 60000)
            && (blinkCounter this >=? blinkRateThreshold (config this)));
    cbn; destruct type; reflexivity.
Qed.

(** The only alert types a call on a face frame delivers are [eye_closure]
    and [blink_rate_high]. *)
Lemma face_frame_deliveries :
  forall f m this type,
    frameMeasures Math_hypot f = Some m ->
    deliveriesOf type (snd (process Math_hypot f this))
    = flat_map (fanout (alertCallbacks this))
        ((if AlertType_eqb eye_closure type
             && eyesClosedCondition (config this) m (f_height f)
          then eyeClosureAlert (config this) (m_averageEAR m)
                 (eyeClosureCounter this + 1) (f_now f)
          else [])
         ++ (if AlertType_eqb blink_rate_high type
             then blinkRateAlert
                    (afterEyes (eyesClosedCondition (config this) m (f_height f))
                       this) (f_now f)
             else [])).
Proof.
  intros f m this type Hm.
  rewrite (process_face_frame f m this Hm). cbn [snd].
  rewrite deliveriesOf_flat_map, filter_app, blinkRateAlert_type.
  destruct (eyesClosedCondition (config this) m (f_height f)).
  - rewrite eyeClosureAlert_type, andb_true_r. reflexivity.
  - rewrite andb_false_r. reflexivity.
Qed.

(** ** Runs of closed-eye frames *)

(** The scenario of the specification: an average ratio of 0.10 against
    the threshold 0.140, with the iris below the middle of the frame, meets
    the condition of line 289. *)
Lemma ratio_010_counts_as_closed :
  forall cfg m frameHeight,
    earThreshold cfg = 0.140%float ->
    m_averageEAR m = 0.10%float ->
    (pt_y (m_irisCenter m) / frameHeight <=? 0.5)%float = false ->
    eyesClosedCondition cfg m frameHeight = true.
Proof.
  intros cfg m frameHeight Hthr Hear Hiris.
  unfold eyesClosedCondition. rewrite Hthr, Hear, Hiris. reflexivity.
Qed.

(** One closed-eye frame: the counter goes up by one, nothing else that the
    next frame's eye-closure step reads changes, and the [eye_closure]
    deliveries are those of the tier the new count falls in. *)
Lemma closed_frame_step :
  forall f this,
    eyesClosedFrame Math_hypot (config this) f = true ->
    exists m,
      frameMeasures Math_hypot f = Some m
      /\ fst (fst (process Math_hypot f this)) = Throw TypeError
      /\ eyeClosureCounter (snd (fst (process Math_hypot f this)))
         = eyeClosureCounter this + 1
      /\ config (snd (fst (process Math_hypot f this))) = config this
      /\ alertCallbacks (snd (fst (process Math_hypot f this)))
         = alertCallbacks this
      /\ deliveriesOf eye_closure (snd (process Math_hypot f this))
         = flat_map (fanout (alertCallbacks this))
             (eyeClosureAlert (config this) (m_averageEAR m)
                (eyeClosureCounter this + 1) (f_now f)).
Proof.
  intros f this H. unfold eyesClosedFrame in H.
  destruct (frameMeasures Math_hypot f) as [m|] eqn:Hm; [|discriminate].
  exists m. split; [reflexivity|].
  rewrite (face_frame_deliveries f m this eye_closure Hm).
  rewrite (process_face_frame f m this Hm), H. cbn [fst snd].
  destruct (afterBlinkRate_frame (f_now f) (afterEyes true this))
    as (-> & -> & _ & _ & _ & ->).
  cbn. rewrite app_nil_r. repeat split.
Qed.

Lemma feed_cons :
  forall f rest this,
    feed Math_hypot (f :: rest) this
    = ((fst (fst (process Math_hypot f this)), snd (process Math_hypot f this))
         :: fst (feed Math_hypot rest (snd (fst (process Math_hypot f this)))),
       snd (feed Math_hypot rest (snd (fst (process Math_hypot f this))))).
Proof.
  intros f rest this. cbn [feed].
  destruct (process Math_hypot f this) as [[r this1] out]. cbn [fst snd].
  destruct (feed Math_hypot rest this1) as [outs this2]. reflexivity.
Qed.

(** A run of closed-eye frames started with the counter at [c]: frame
    number [i] (from 0) throws after delivering the alert of count
    [c + i + 1], and the counter ends at [c] plus the length of the run. *)
Lemma feed_closed_run :
  forall frames this,
    forallb (eyesClosedFrame Math_hypot (config this)) frames = true ->
    eyeClosureCounter (snd (feed Math_hypot frames this))
    = eyeClosureCounter this + Z.of_nat (List.length frames)
    /\ config (snd (feed Math_hypot frames this)) = config this
    /\ alertCallbacks (snd (feed Math_hypot frames this)) = alertCallbacks this
    /\ forall i f,
         nth_error frames i = Some f ->
         exists m out,
           frameMeasures Math_hypot f = Some m
           /\ nth_error (fst (feed Math_hypot frames this)) i
              = Some (Throw TypeError, out)
           /\ deliveriesOf eye_closure out
              = flat_map (fanout (alertCallbacks this))
                  (eyeClosureAlert (config this) (m_averageEAR m)
                     (eyeClosureCounter this + Z.of_nat i + 1) (f_now f)).
Proof.
  induction frames as [|f rest IH]; intros this Hall.
  - cbn. repeat split; try lia. intros [|i] g Hg; discriminate.
  - cbn [forallb] in Hall. apply andb_true_iff in Hall as [Hf Hrest].
    destruct (closed_frame_step f this Hf) as (m & Hm & Hthrow & Hc & Hcfg & Hcb & Hout).
    rewrite feed_cons. cbn [fst snd].
    rewrite <- Hcfg in Hrest.
    destruct (IH _ Hrest) as (Hc' & Hcfg' & Hcb' & Hnth).
    rewrite Hc', Hcfg', Hcb', Hc, Hcfg, Hcb.
    repeat split;
      [change (List.length (f :: rest)) with (S (List.length rest)); lia|].
    intros [|i] g Hg.
    + cbn in Hg. injection Hg as <-. exists m, (snd (process Math_hypot f this)).
      cbn [nth_error]. rewrite Hthrow, Z.add_0_r. repeat split; assumption.
    + cbn [nth_error] in Hg |- *.
      destruct (Hnth i g Hg) as (m' & out & Hm' & Hi & Hd).
      exists m', out. rewrite Hcfg, Hcb, Hc in Hd.
      repeat split; try assumption.
      rewrite Hd.
      replace (eyeClosureCounter this + Z.of_nat (S i) + 1)
        with (eyeClosureCounter this + 1 + Z.of_nat i + 1) by lia.
      reflexivity.
Qed.

(** C2, as the engine has it. With [eyeClosedFramesThreshold = 9], twelve
    consecutive frames whose average eye aspect ratio is below
    [earThreshold] and whose iris is hidden (for instance a ratio of 0.10
    against the default threshold 0.140), fed to an engine whose
    eye-closure counter is 0. Frames 1 to 9 deliver no [eye_closure] alert.
    Frames 10, 11 and 12 each deliver one, moderate, "Warning: Eyes
    Closed", carrying the frame's ratio and the counts 10, 11 and 12, to
    each subscriber: three alerts per subscriber in all, not one. After
    frame 12 the eye-closure counter is 12. Every one of the twelve calls
    ends by throwing a [TypeError], after the eye-closure lines have
    run. *)
Theorem twelve_closed_frames :
  forall this frames,
    eyeClosedFramesThreshold (config this) = 9 ->
    eyeClosureCounter this = 0 ->
    List.length frames = 12%nat ->
    forallb (eyesClosedFrame Math_hypot (config this)) frames = true ->
    eyeClosureCounter (snd (feed Math_hypot frames this)) = 12
    /\ List.length (fst (feed Math_hypot frames this)) = 12%nat
    /\ forall i f,
         nth_error frames i = Some f ->
         exists m out,
           frameMeasures Math_hypot f = Some m
           /\ nth_error (fst (feed Math_hypot frames this)) i
              = Some (Throw TypeError, out)
           /\ deliveriesOf eye_closure out
              = if (i <? 9)%nat then []
                else fanout (alertCallbacks this)
                       {| alert_type := eye_closure;
                          alert_severity := moderate;
                          alert_message := "Warning: Eyes Closed";
                          alert_timestamp := f_now f;
                          alert_confidenceScore := Some 0.8%float;
                          alert_metadata :=
                            Some (MetaEye (m_averageEAR m) (Z.of_nat i + 1));
                          alert_sessionId := "" |}.
Proof.
  intros this frames Hthr Hc Hlen Hall.
  destruct (feed_closed_run frames this Hall) as (Hfinal & _ & _ & Hnth).
  rewrite Hc in Hnth. split; [|split].
  - rewrite Hfinal, Hc, Hlen. reflexivity.
  - rewrite <- Hlen. clear. revert this.
    induction frames as [|f rest IH]; intros this; [reflexivity|].
    rewrite feed_cons. cbn [fst List.length]. now rewrite IH.
  - intros i f Hf.
    assert (Hi : (i < 12)%nat)
      by (rewrite <- Hlen; apply nth_error_Some; congruence).
    destruct (Hnth i f Hf) as (m & out & Hm & Hout & Hd).
    exists m, out. split; [exact Hm|]. split; [exact Hout|].
    rewrite Hd. unfold eyeClosureAlert. rewrite Hthr.
    destruct (0 + Z.of_nat i + 1 >? 30) eqn:E1; [lia|].
    destruct (i <? 9)%nat eqn:E9.
    + apply Nat.ltb_lt in E9.
      destruct (0 + Z.of_nat i + 1 >? 9) eqn:E2; [lia|]. reflexivity.
    + apply Nat.ltb_ge in E9.
      destruct (0 + Z.of_nat i + 1 >? 9) eqn:E2; [|lia].
      cbn [flat_map]. rewrite app_nil_r. reflexivity.
Qed.

(** ** The end of a run: blinks *)

Lemma face_frame_state :
  forall f m this,
    frameMeasures Math_hypot f = Some m ->
    snd (fst (process Math_hypot f this))
    = afterBlinkRate (f_now f)
        (afterEyes (eyesClosedCondition (config this) m (f_height f)) this).
Proof.
  intros f m this Hm. now rewrite (process_face_frame f m this Hm).
Qed.

Lemma afterBlinkRate_within_window :
  forall now this,
    now - blinkTimer this <= 60000 -> afterBlinkRate now this = this.
Proof.
  intros now this H. unfold afterBlinkRate.
  destruct (now - blinkTimer this >? 60000) eqn:E; [lia|reflexivity].
Qed.

(** While the blink window lasts, a run of closed-eye frames leaves the
    blink counter and the window start alone. *)
Lemma feed_closed_run_blinks :
  forall frames this,
    forallb (eyesClosedFrame Math_hypot (config this)) frames = true ->
    Forall (fun g => f_now g - blinkTimer this <= 60000) frames ->
    blinkCounter (snd (feed Math_hypot frames this)) = blinkCounter this
    /\ blinkTimer (snd (feed Math_hypot frames this)) = blinkTimer this.
Proof.
  induction frames as [|f rest IH]; intros this Hall Hwin.
  - split; reflexivity.
  - cbn [forallb] in Hall. apply andb_true_iff in Hall as [Hf Hrest].
    inversion Hwin as [|? ? Hnow Hwin']; subst.
    rewrite feed_cons. cbn [snd].
    assert (Hstate : snd (fst (process Math_hypot f this))
                     = set_eyeClosureCounter (eyeClosureCounter this + 1) this).
    { unfold eyesClosedFrame in Hf.
      destruct (frameMeasures Math_hypot f) as [m|] eqn:Hm; [|discriminate].
      rewrite (face_frame_state f m this Hm), Hf.
      now apply afterBlinkRate_within_window. }
    rewrite Hstate.
    apply (IH (set_eyeClosureCounter (eyeClosureCounter this + 1) this));
      assumption.
Qed.

(** C3, as the engine has it. A frame that shows a face with the eyes not
    closed always resets the eye-closure counter to 0. If the 60-second
    blink window has not run out at that frame, the blink counter goes up
    by exactly 1 if and only if the counter held a value in
    [[2, eyeClosedFramesThreshold)] (the length of the run that just
    ended), and is unchanged otherwise; if the window has run out, the
    blink-rate step of the same call leaves the blink counter at 0. In
    particular, with the threshold at 9 and within one blink window, a run
    of 5 closed-eye frames followed by an open-eye frame adds one blink,
    and a run of 12 adds none. *)
Theorem blink_counted_at_end_of_run :
  (forall this f,
     eyesOpenFrame Math_hypot (config this) f = true ->
     let this' := snd (fst (process Math_hypot f this)) in
     eyeClosureCounter this' = 0
     /\ (f_now f - blinkTimer this <= 60000 ->
         (blinkCounter this' = blinkCounter this + 1
          <-> 2 <= eyeClosureCounter this < eyeClosedFramesThreshold (config this))
         /\ (blinkCounter this' = blinkCounter this
             <-> ~ 2 <= eyeClosureCounter this < eyeClosedFramesThreshold (config this)))
     /\ (f_now f - blinkTimer this > 60000 -> blinkCounter this' = 0))
  /\ (forall this run f,
        eyeClosedFramesThreshold (config this) = 9 ->
        eyeClosureCounter this = 0 ->
        forallb (eyesClosedFrame Math_hypot (config this)) run = true ->
        eyesOpenFrame Math_hypot (config this) f = true ->
        Forall (fun g => f_now g - blinkTimer this <= 60000) (run ++ [f]) ->
        let this' := snd (feed Math_hypot (run ++ [f]) this) in
        eyeClosureCounter this' = 0
        /\ (List.length run = 5%nat -> blinkCounter this' = blinkCounter this + 1)
        /\ (List.length run = 12%nat -> blinkCounter this' = blinkCounter this)).
Proof.
  assert (Hstep : forall this f,
     eyesOpenFrame Math_hypot (config this) f = true ->
     snd (fst (process Math_hypot f this))
     = afterBlinkRate (f_now f) (afterEyes false this)).
  { intros this f Hopen. unfold eyesOpenFrame in Hopen.
    destruct (frameMeasures Math_hypot f) as [m|] eqn:Hm; [|discriminate].
    rewrite (face_frame_state f m this Hm).
    apply negb_true_iff in Hopen. now rewrite Hopen. }
  assert (Hone : forall this f,
     eyesOpenFrame Math_hypot (config this) f = true ->
     let this' := snd (fst (process Math_hypot f this)) in
     eyeClosureCounter this' = 0
     /\ (f_now f - blinkTimer this <= 60000 ->
         (blinkCounter this' = blinkCounter this + 1
          <-> 2 <= eyeClosureCounter this < eyeClosedFramesThreshold (config this))
         /\ (blinkCounter this' = blinkCounter this
             <-> ~ 2 <= eyeClosureCounter this < eyeClosedFramesThreshold (config this)))
     /\ (f_now f - blinkTimer this > 60000 -> blinkCounter this' = 0)).
  { intros this f Hopen this'. subst this'. rewrite (Hstep this f Hopen).
    destruct (afterEyes_frame false this) as (_ & _ & _ & _ & _ & Htimer).
    unfold afterBlinkRate. rewrite Htimer. unfold afterEyes.
    destruct (f_now f - blinkTimer this >? 60000) eqn:Ewin.
    - split; [reflexivity|]. split; [lia|]. reflexivity.
    - split; [reflexivity|]. split; [|lia]. intros _.
      destruct (eyeClosureCounter this >=? 2) eqn:E1;
        destruct (eyeClosureCounter this <? eyeClosedFramesThreshold (config this)) eqn:E2;
        cbn; split; split; intros; lia. }
  split; [exact Hone|].
  intros this run f Hthr Hc Hclosed Hopen Hwin this'. subst this'.
  apply Forall_app in Hwin as [Hwin_run Hwin_f].
  inversion Hwin_f as [|? ? Hnow _]; subst.
  destruct (feed_closed_run run this Hclosed) as (Hcount & Hcfg & _ & _).
  destruct (feed_closed_run_blinks run this Hclosed Hwin_run) as (Hblink & Htimer).
  assert (Hfeed : snd (feed Math_hypot (run ++ [f]) this)
                  = snd (fst (process Math_hypot f (snd (feed Math_hypot run this))))).
  { clear. revert this. induction run as [|g rest IH]; intros this.
    - cbn [app]. rewrite feed_cons. reflexivity.
    - cbn [app]. rewrite !feed_cons. cbn [snd]. apply IH. }
  rewrite Hfeed.
  rewrite <- Hcfg in Hopen.
  destruct (Hone _ f Hopen) as (Hzero & Hin & _).
  rewrite Htimer in Hin. destruct (Hin Hnow) as (Hplus & Hsame).
  rewrite Hcount, Hcfg, Hthr, Hc, Hblink in Hplus, Hsame.
  split; [exact Hzero|]. split; intros Hlen; rewrite Hlen in *.
  - apply Hplus. lia.
  - apply Hsame. lia.
Qed.

(** ** Alert types a call can deliver *)

Lemma process_no_face :
  forall f this,
    frameMeasures Math_hypot f = None ->
    snd (process Math_hypot f this) = []
    /\ snd (fst (process Math_hypot f this)) = this.
Proof.
  intros f this Hm. unfold frameMeasures in Hm. unfold process, processFrame.
  rewrite (bind_Normal _ _ _ _ this this this []) by reflexivity.
  cbn [app fst snd].
  destruct (f_face f) as [[[landmarks|]]|]; cbn [face_landmarks];
    try (split; reflexivity).
  destruct (measureEyes Math_hypot landmarks (f_width f) (f_height f)) as [m|e] eqn:E;
    [discriminate|].
  unfold processFace.
  rewrite (bind_Throw _ _ _ _ this e this []) by (unfold lift; now rewrite E).
  split; reflexivity.
Qed.

(** Whatever the engine and the frame, [processFrame] delivers alerts of
    two types only: [eye_closure] and [blink_rate_high]. *)
Lemma process_delivers_eye_and_blink_only :
  forall f this type,
    type <> eye_closure -> type <> blink_rate_high ->
    deliveriesOf type (snd (process Math_hypot f this)) = [].
Proof.
  intros f this type H1 H2.
  destruct (frameMeasures Math_hypot f) as [m|] eqn:Hm.
  - rewrite (face_frame_deliveries f m this type Hm).
    destruct type; try contradiction; reflexivity.
  - destruct (process_no_face f this Hm) as [-> _]. reflexivity.
Qed.


(** A call on a frame that shows a face never completes normally. *)
Lemma process_face_throws :
  forall landmarks handResults frameWidth frameHeight sessionId now this,
    fst (fst (processFrame Math_hypot (Some {| face_landmarks := Some landmarks |})
                handResults frameWidth frameHeight sessionId now this))
    = Throw TypeError.
Proof.
  intros. unfold processFrame.
  rewrite (bind_Normal _ _ _ _ this this this []) by reflexivity.
  cbn [face_landmarks app fst snd].
  destruct (measureEyes Math_hypot landmarks frameWidth frameHeight) as [m|[]] eqn:E.
  - now rewrite (processFace_outcome _ _ _ _ _ _ _ _ E).
  - unfold processFace.
    now rewrite (bind_Throw _ _ _ _ this TypeError this [])
      by (unfold lift; now rewrite E).
Qed.

(** ** triggerAlert *)


(** ** No face *)

(** C6. Whatever the engine state, a call with no face result, or with a
    face result that has no landmarks, returns normally the initial result
    object (eye aspect ratios 0, mouth aspect ratio 0, gaze at (0.5, 0.5),
    turn, tilt, droop, drowsiness and distraction levels none, eye-closure
    severity normal, no hand flag), delivers no alert and leaves the engine
    unchanged. *)
Theorem no_face_neutral_result :
  forall this handResults frameWidth frameHeight sessionId now,
    processFrame Math_hypot None handResults frameWidth frameHeight sessionId
      now this
    = (Normal (initialResult this), this, [])
    /\ processFrame Math_hypot (Some {| face_landmarks := None |}) handResults
         frameWidth frameHeight sessionId now this
       = (Normal (initialResult this), this, [])
    /\ averageEAR (eyeClosure (initialResult this)) = 0%float
    /\ leftEAR (eyeClosure (initialResult this)) = 0%float
    /\ rightEAR (eyeClosure (initialResult this)) = 0%float
    /\ eye_severity (eyeClosure (initialResult this)) = eye_normal
    /\ isEyesClosed (eyeClosure (initialResult this)) = false
    /\ MAR (mouth (initialResult this)) = 0%float
    /\ isYawning (mouth (initialResult this)) = false
    /\ gaze_x (gaze (initialResult this)) = 0.5%float
    /\ gaze_y (gaze (initialResult this)) = 0.5%float
    /\ lookingAway (gaze (initialResult this)) = false
    /\ turn (headPose (initialResult this)) = lvl_none
    /\ tilt (headPose (initialResult this)) = lvl_none
    /\ droop (headPose (initialResult this)) = lvl_none
    /\ level (res_drowsiness (initialResult this)) = lvl_none
    /\ level (res_distraction (initialResult this)) = lvl_none
    /\ hands (initialResult this)
       = {| nearEar := false; nearFace := false; possibleTexting := false;
            phoneUsage := false |}.
Proof.
  intros. repeat split.
Qed.

(** ** reset *)

(** C10. Whatever the engine state, [reset()] returns normally, delivers
    nothing, sets the three counters to 0 and the blink window start to the
    clock reading, overwrites every cell of the mouth-ratio history with 0
    keeping its length (30 cells stay 30 cells of 0), and leaves the
    configuration, the calibration snapshot, the calibrated flag and the
    callback list as they were. *)
Theorem reset_clears_counters_only :
  forall this now,
    exists this',
      reset now this = (Normal tt, this', [])
      /\ eyeClosureCounter this' = 0
      /\ blinkCounter this' = 0
      /\ yawnCounter this' = 0
      /\ blinkTimer this' = now
      /\ marHistory this' = repeat 0%float (List.length (marHistory this))
      /\ config this' = config this
      /\ calibrationData this' = calibrationData this
      /\ isCalibrated this' = isCalibrated this
      /\ alertCallbacks this' = alertCallbacks this.
Proof.
  intros this now. eexists. split; [reflexivity|]. cbn.
  repeat split.
  induction (marHistory this) as [|x h IH]; cbn; [reflexivity|now f_equal].
Qed.

(** ** Composite drowsiness assessment *)

(** Lines 434-446 in full. The rule returns normally and leaves the engine
    as it was. With the eye-closure severity at 2 and a secondary indicator
    (head droop or yawning) it sets the level to severe and delivers one
    severe drowsiness alert to each subscriber; failing that, with the
    severity at 1 or more and a secondary indicator, it sets the level to
    moderate and delivers one moderate alert; in every other case it
    returns the result object untouched and delivers nothing. *)
Lemma drowsinessAssessment_cases :
  forall now result this,
    let secondary :=
      (levelSeverity (droop (headPose result)) >=? 1)
      || isYawning (mouth result) in
    let indicator :=
      if levelSeverity (droop (headPose result)) >=? 1
      then "head droop"%string else "yawning"%string in
    drowsinessAssessment now result this
    = if (eyeClosureSeverity result >=? 2) && secondary then
        (Normal (with_drowsiness
                   {| level := lvl_severe;
                      indicators := ["prolonged eye closure"%string; indicator] |}
                   result),
         this,
         fanout (alertCallbacks this)
           {| alert_type := drowsiness; alert_severity := severe;
              alert_message := "Severe DROWSINESS Observed";
              alert_timestamp := now;
              alert_confidenceScore := Some 0.95%float;
              alert_metadata := None; alert_sessionId := "" |})
      else if (eyeClosureSeverity result >=? 1) && secondary then
        (Normal (with_drowsiness
                   {| level := lvl_moderate;
                      indicators := ["eye closure"%string; indicator] |}
                   result),
         this,
         fanout (alertCallbacks this)
           {| alert_type := drowsiness; alert_severity := moderate;
              alert_message := "Moderate DROWSINESS Observed";
              alert_timestamp := now;
              alert_confidenceScore := Some 0.85%float;
              alert_metadata := None; alert_sessionId := "" |})
      else (Normal result, this, []).
Proof.
  intros now result this secondary indicator. subst secondary indicator.
  unfold drowsinessAssessment.
  destruct ((eyeClosureSeverity result >=? 2)
            && ((levelSeverity (droop (headPose result)) >=? 1)
                || isYawning (mouth result))).
  - cbn. unfold eng_bind, forEach_callback. cbn. now rewrite !app_nil_r.
  - destruct ((eyeClosureSeverity result >=? 1)
              && ((levelSeverity (droop (headPose result)) >=? 1)
                  || isYawning (mouth result))).
    + cbn. unfold eng_bind, forEach_callback. cbn. now rewrite !app_nil_r.
    + reflexivity.
Qed.

(** ** Aspect ratios *)

(** The guards of the two functions on defined cells. Given six defined
    cells, [calculateEAR] returns normally: with [A] the distance between
    cells 5 and 3, [B] between cells 2 and 0 and [C] between cells 1 and 4
    of its argument, it returns 0 without dividing when [C] is zero, and
    [A + B] over [2.0 * C] when [C] is positive. Given defined cells 13,
    14, 78 and 308, [calculateMAR] returns normally: 0 without dividing
    when the distance between cells 78 and 308 is zero, and the distance
    between cells 13 and 14 over it when it is positive. No division either
    function performs has a zero divisor. *)
Lemma aspect_ratios_guard_zero_divisor :
  (forall e0 e1 e2 e3 e4 e5 rest frameWidth frameHeight,
     let scale l := {| pt_x := (lm_x l * frameWidth)%float;
                       pt_y := (lm_y l * frameHeight)%float |} in
     let p1 := scale e1 in let p2 := scale e5 in let p3 := scale e2 in
     let p4 := scale e4 in let p5 := scale e0 in let p6 := scale e3 in
     let A := Math_hypot (pt_x p2 - pt_x p6) (pt_y p2 - pt_y p6) in
     let B := Math_hypot (pt_x p3 - pt_x p5) (pt_y p3 - pt_y p5) in
     let C := Math_hypot (pt_x p1 - pt_x p4) (pt_y p1 - pt_y p4) in
     let eyeLandmarks :=
       Some e0 :: Some e1 :: Some e2 :: Some e3 :: Some e4 :: Some e5 :: rest in
     exists ear divisors,
       calculateEAR_traced Math_hypot eyeLandmarks frameWidth frameHeight
       = Normal (ear, divisors)
       /\ calculateEAR Math_hypot eyeLandmarks frameWidth frameHeight = Normal ear
       /\ ((C =? 0)%float = true -> ear = 0%float /\ divisors = [])
       /\ ((C >? 0)%float = true -> ear = ((A + B) / (2.0 * C))%float)
       /\ Forall (fun d => (d =? 0)%float = false) divisors)
  /\ (forall mouthLandmarks top bottom left right frameWidth frameHeight,
        js_index mouthLandmarks 13 = Some top ->
        js_index mouthLandmarks 14 = Some bottom ->
        js_index mouthLandmarks 78 = Some left ->
        js_index mouthLandmarks 308 = Some right ->
        let scale l := {| pt_x := (lm_x l * frameWidth)%float;
                          pt_y := (lm_y l * frameHeight)%float |} in
        let vertical :=
          Math_hypot (pt_x (scale top) - pt_x (scale bottom))
                     (pt_y (scale top) - pt_y (scale bottom)) in
        let horizontal :=
          Math_hypot (pt_x (scale left) - pt_x (scale right))
                     (pt_y (scale left) - pt_y (scale right)) in
        exists mar divisors,
          calculateMAR_traced Math_hypot mouthLandmarks frameWidth frameHeight
          = Normal (mar, divisors)
          /\ calculateMAR Math_hypot mouthLandmarks frameWidth frameHeight
             = Normal mar
          /\ ((horizontal =? 0)%float = true -> mar = 0%float /\ divisors = [])
          /\ ((horizontal >? 0)%float = true ->
              mar = (vertical / horizontal)%float)
          /\ Forall (fun d => (d =? 0)%float = false) divisors).
Proof.
  split.
  - intros e0 e1 e2 e3 e4 e5 rest frameWidth frameHeight
      scale p1 p2 p3 p4 p5 p6 A B C eyeLandmarks.
    assert (Hnf : calculateEAR_traced Math_hypot eyeLandmarks frameWidth frameHeight
                  = Normal (if (C >? 0)%float then divide (A + B) (2.0 * C)
                            else (0%float, []))) by reflexivity.
    unfold calculateEAR, cmap. rewrite Hnf. cbn [cbind].
    destruct (C >? 0)%float eqn:Hpos; do 2 eexists;
      (split; [reflexivity|]); (split; [reflexivity|]); cbn [fst snd divide].
    + split; [intros Hz; apply zero_not_positive in Hz; congruence|].
      split; [reflexivity|].
      constructor; [|constructor]. now apply twice_positive_nonzero.
    + split; [intros _; split; reflexivity|].
      split; [discriminate|]. constructor.
  - intros mouthLandmarks top bottom left right frameWidth frameHeight
      Htop Hbottom Hleft Hright scale vertical horizontal.
    assert (Hnf : calculateMAR_traced Math_hypot mouthLandmarks frameWidth frameHeight
                  = Normal (if (horizontal >? 0)%float
                            then divide vertical horizontal
                            else (0%float, []))).
    { unfold calculateMAR_traced, getPoint.
      rewrite Htop, Hbottom, Hleft, Hright. reflexivity. }
    unfold calculateMAR, cmap. rewrite Hnf. cbn [cbind].
    destruct (horizontal >? 0)%float eqn:Hpos; do 2 eexists;
      (split; [reflexivity|]); (split; [reflexivity|]); cbn [fst snd divide].
    + split; [intros Hz; apply zero_not_positive in Hz; congruence|].
      split; [reflexivity|].
      constructor; [|constructor]. now apply positive_nonzero.
    + split; [intros _; split; reflexivity|].
      split; [discriminate|]. constructor.
Qed.

(** ** What the yawn lines do when they are reached *)

(** Lines 326-334 on their own: when the counter, raised by one if the
    ratio is above [marThreshold], exceeds [yawnThreshold], one moderate
    "Warning: Yawning" alert goes to each subscriber and the counter is set
    to 0, whatever the ratio. *)
Lemma yawnCounting_fires :
  forall mar now result this,
    let count :=
      if (mar >? marThreshold (config this))%float
      then yawnCounter this + 1 else yawnCounter this in
    count > yawnThreshold (config this) ->
    exists result' this',
      yawnCounting mar now result this
      = (Normal result', this',
         fanout (alertCallbacks this)
           {| alert_type := yawning; alert_severity := moderate;
              alert_message := "Warning: Yawning"; alert_timestamp := now;
              alert_confidenceScore := Some 0.8%float;
              alert_metadata := Some (MetaYawn mar count);
              alert_sessionId := "" |})
      /\ yawnCounter this' = 0
      /\ isYawning (mouth result') = true.
Proof.
  intros mar now result this count Hgt. subst count.
  unfold yawnCounting. cbn. unfold eng_bind, get. cbn.
  destruct (mar >? marThreshold (config this))%float; cbn;
    unfold forEach_callback; cbn.
  - destruct (yawnCounter this + 1 >? yawnThreshold (config this)) eqn:E; [|lia].
    cbn. do 2 eexists. rewrite !app_nil_r. repeat split.
  - destruct (yawnCounter this >? yawnThreshold (config this)) eqn:E; [|lia].
    cbn. do 2 eexists. rewrite !app_nil_r. repeat split.
Qed.

(** Lines 326-334 have no branch for a ratio at or below the threshold:
    the counter keeps its value. *)
Lemma yawnCounting_keeps_count :
  forall mar now result this,
    (mar >? marThreshold (config this))%float = false ->
    yawnCounter this <= yawnThreshold (config this) ->
    yawnCounter (snd (fst (yawnCounting mar now result this))) = yawnCounter this
    /\ snd (yawnCounting mar now result this) = [].
Proof.
  intros mar now result this Hle Hc.
  unfold yawnCounting. cbn. unfold eng_bind, get. cbn. rewrite Hle. cbn.
  destruct (yawnCounter this >? yawnThreshold (config this)) eqn:E; [lia|].
  split; reflexivity.
Qed.

End Properties.

(** * The cooldown gates *)



(** * The engine on concrete frames *)



Lemma twelve_closed_frames_witness :
  forallb (eyesClosedFrame hypot_sqrt (config engine1)) (closedRun 12 1000) = true
  /\ eyeClosureCounter (snd (feed hypot_sqrt (closedRun 12 1000) engine1)) = 12
  /\ exists m out,
       frameMeasures hypot_sqrt (closedEyes (1000 + 33 * 10)) = Some m
       /\ nth_error (fst (feed hypot_sqrt (closedRun 12 1000) engine1)) 10
          = Some (Throw TypeError, out)
       /\ deliveriesOf eye_closure out
          = [(7%nat,
              {| alert_type := eye_closure; alert_severity := moderate;
                 alert_message := "Warning: Eyes Closed";
                 alert_timestamp := 1000 + 33 * 10;
                 alert_confidenceScore := Some 0.8%float;
                 alert_metadata := Some (MetaEye (m_averageEAR m) 11);
                 alert_sessionId := "" |})].
Proof.
  assert (H : forallb (eyesClosedFrame hypot_sqrt (config engine1))
                (closedRun 12 1000) = true) by (vm_compute; reflexivity).
  split; [exact H|].
  destruct (twelve_closed_frames hypot_sqrt engine1 (closedRun 12 1000)
              eq_refl eq_refl eq_refl H) as (H12 & _ & Hnth).
  split; [exact H12|].
  exact (Hnth 10%nat (closedEyes (1000 + 33 * 10)) eq_refl).
Defined.

(** C2, as stated, fails: the twelve frames of the scenario (average ratio
    about 0.10 against the threshold 0.140, iris hidden, threshold of 9
    frames) deliver three moderate [eye_closure] alerts to the one
    subscriber, on frames 10, 11 and 12, not exactly one: nothing in the
    engine spaces alerts out. *)
Lemma twelve_frames_three_moderate_alerts :
  let outcomes := fst (feed hypot_sqrt (closedRun 12 1000) engine1) in
  let alerts := flat_map (fun o => deliveriesOf eye_closure (snd o)) outcomes in
  eyeClosedFramesThreshold (config engine1) = 9
  /\ earThreshold (config engine1) = 0.140%float
  /\ forallb (eyesClosedFrame hypot_sqrt (config engine1)) (closedRun 12 1000)
     = true
  /\ map (fun o => List.length (deliveriesOf eye_closure (snd o))) outcomes
     = [0; 0; 0; 0; 0; 0; 0; 0; 0; 1; 1; 1]%nat
  /\ map (fun d => alert_severity (snd d)) alerts
     = [moderate; moderate; moderate]
  /\ List.length alerts <> 1%nat.
Proof. vm_compute. repeat split. discriminate. Qed.

(** C3, as stated, fails: a run of 5 closed-eye frames (within
    [[2, 9)]) ends on an open-eye frame that is also the first one after the
    60-second blink window; the blink counter is 0 after that frame, not
    its previous value plus one. *)
Lemma blink_not_kept_when_window_ends :
  let this := snd (feed hypot_sqrt (closedRun 5 59000) engine1) in
  let this' := snd (fst (process hypot_sqrt (openEyes 60001) this)) in
  eyesOpenFrame hypot_sqrt (config this) (openEyes 60001) = true
  /\ eyeClosureCounter this = 5
  /\ eyeClosedFramesThreshold (config this) = 9
  /\ blinkCounter this = 0
  /\ blinkCounter this' = 0
  /\ blinkCounter this' <> blinkCounter this + 1.
Proof. vm_compute. repeat split. discriminate. Qed.

Lemma blink_counted_at_end_of_run_witness :
  eyesOpenFrame hypot_sqrt (config engine1) (openEyes 2000) = true
  /\ blinkCounter
       (snd (feed hypot_sqrt (closedRun 5 1000 ++ [openEyes 2000]) engine1))
     = blinkCounter engine1 + 1
  /\ blinkCounter
       (snd (feed hypot_sqrt (closedRun 12 1000 ++ [openEyes 2000]) engine1))
     = blinkCounter engine1
  /\ eyeClosureCounter
       (snd (fst (process hypot_sqrt (openEyes 2000) engine1))) = 0.
Proof.
  assert (Hopen : eyesOpenFrame hypot_sqrt (config engine1) (openEyes 2000) = true)
    by (vm_compute; reflexivity).
  assert (Hwin : forall n, (n <= 12)%nat ->
            Forall (fun g => f_now g - blinkTimer engine1 <= 60000)
              (closedRun n 1000 ++ [openEyes 2000])).
  { intros n Hn. apply Forall_app. split.
    - unfold closedRun, run. apply Forall_forall. intros g Hg.
      apply in_map_iff in Hg as (i & <- & Hi). apply in_seq in Hi.
      change (1000 + 33 * Z.of_nat i - 0 <= 60000). lia.
    - constructor; [change (2000 - 0 <= 60000); lia|constructor]. }
  destruct (blink_counted_at_end_of_run hypot_sqrt) as [Hstep Hrun].
  split; [exact Hopen|]. split; [|split].
  - destruct (Hrun engine1 (closedRun 5 1000) (openEyes 2000) eq_refl eq_refl)
      as (_ & H5 & _);
      [vm_compute; reflexivity|exact Hopen|apply Hwin; lia|].
    apply H5. reflexivity.
  - destruct (Hrun engine1 (closedRun 12 1000) (openEyes 2000) eq_refl eq_refl)
      as (_ & _ & H12);
      [vm_compute; reflexivity|exact Hopen|apply Hwin; lia|].
    apply H12. reflexivity.
  - exact (proj1 (Hstep engine1 (openEyes 2000) Hopen)).
Defined.

(** C4 at a calibrated engine. After [setCalibration(0.5, 0.5, 0.6)], a
    frame whose nose tip is at x = 0.9 (a horizontal offset of 0.4, beyond
    the severe bound 0.2) makes [processFrame] throw in [calculateMAR]
    before the head-pose lines: no alert at all is delivered. The head-pose
    lines themselves, run on that frame, deliver the severe head-turn
    alert. No call, on any engine and any frame, delivers a head-turn,
    head-droop or gaze-deviation alert. *)
Lemma calibrated_head_turn_unreported :
  isCalibrated calibratedEngine = true
  /\ process hypot_sqrt (turnedHead 1000) calibratedEngine
     = (Throw TypeError, calibratedEngine, [])
  /\ (forall Math_hypot f this,
        deliveriesOf head_turn (snd (process Math_hypot f this)) = []
        /\ deliveriesOf head_droop (snd (process Math_hypot f this)) = []
        /\ deliveriesOf gaze_deviation (snd (process Math_hypot f this)) = [])
  /\ snd (headPoseEstimation (mesh (faceAt 0.9 0.02 0.01))
            {| pt_x := 320; pt_y := 288 |} 640 1000
            (initialResult calibratedEngine) calibratedEngine)
     = [(7%nat,
         {| alert_type := head_turn; alert_severity := severe;
            alert_message := "Severe Head Turn"; alert_timestamp := 1000;
            alert_confidenceScore := Some 0.9%float;
            alert_metadata := None; alert_sessionId := "" |})].
Proof.
  split; [reflexivity|]. split; [vm_compute; reflexivity|].
  split; [|vm_compute; reflexivity].
  intros Math_hypot f this.
  repeat split; apply process_delivers_eye_and_blink_only; discriminate.
Qed.

(** A cell of a mesh. *)
Lemma nth_error_mesh :
  forall at_index i,
    (i < 478)%nat -> nth_error (mesh at_index) i = Some (at_index i).
Proof.
  intros at_index i Hi. unfold mesh.
  rewrite nth_error_map, nth_error_seq.
  apply Nat.ltb_lt in Hi. rewrite Hi. reflexivity.
Qed.

(** C5 on the points [processFrame] hands over. For the left eye
    [processFrame] passes the landmarks 33, 160, 158, 133, 153, 144 in
    cells 0 to 5 (33 and 133 are the eye corners), and [calculateEAR]
    takes cells 1 and 4 for its "horizontal" distance: it divides by the
    distance between the lid points 160 and 153, guards that distance, and
    sums the distances 144 to 133 and 158 to 33. So a face whose eye
    corners coincide (zero eye width) has a ratio of 0.5, not 0; a face
    whose eyes are 0.05 wide and open, with 160 and 153 on one spot, has
    the ratio 0; and a frame of zero-width eyes after three closed-eye
    frames is taken for open eyes (the counter returns to 0 and a blink is
    counted). For the mouth [processFrame] passes four cells and
    [calculateMAR] reads cells 13, 14, 78 and 308: on every landmark array
    it throws, returning neither 0 nor a ratio. The eye aspect ratio of
    the MediaPipe integration, given the same index list, does divide by
    the distance between the corners 33 and 133, without a guard: it is
    infinite on the first face and about 0.447 on the second. *)
Lemma eye_ratio_ignores_eye_width :
  (forall Math_hypot at_index frameWidth frameHeight,
     let scale i := {| pt_x := (lm_x (at_index i) * frameWidth)%float;
                       pt_y := (lm_y (at_index i) * frameHeight)%float |} in
     let distance i j :=
       Math_hypot (pt_x (scale i) - pt_x (scale j))%float
                  (pt_y (scale i) - pt_y (scale j))%float in
     calculateEAR Math_hypot (js_pick (mesh at_index) LEFT_EYE)
       frameWidth frameHeight
     = Normal (if (distance 160%nat 153%nat >? 0)%float
               then ((distance 144%nat 133%nat + distance 158%nat 33%nat)
                     / (2.0 * distance 160%nat 153%nat))%float
               else 0%float)
     /\ calculateEAR Math_hypot (js_pick (mesh at_index) RIGHT_EYE)
          frameWidth frameHeight
        = Normal (if (distance 385%nat 373%nat >? 0)%float
                  then ((distance 380%nat 263%nat + distance 387%nat 362%nat)
                        / (2.0 * distance 385%nat 373%nat))%float
                  else 0%float))
  /\ (forall Math_hypot landmarks frameWidth frameHeight,
        calculateMAR Math_hypot (js_pick landmarks MOUTH) frameWidth frameHeight
        = Throw TypeError)
  /\ cornersTogether 33 = cornersTogether 133
  /\ calculateEAR hypot_sqrt (js_pick (mesh cornersTogether) LEFT_EYE) 640 480
     = Normal 0.5%float
  /\ hypot_sqrt (lm_x (lidsTogether 33) * 640 - lm_x (lidsTogether 133) * 640)
       (lm_y (lidsTogether 33) * 480 - lm_y (lidsTogether 133) * 480)
     = 32%float
  /\ calculateEAR hypot_sqrt (js_pick (mesh lidsTogether) LEFT_EYE) 640 480
     = Normal 0%float
  /\ (let this := snd (feed hypot_sqrt (closedRun 3 1000) engine1) in
      let this' :=
        snd (fst (process hypot_sqrt (frameOf (mesh cornersTogether) 2000)
                    this)) in
      eyeClosureCounter this = 3
      /\ blinkCounter this = 0
      /\ eyeClosureCounter this' = 0
      /\ blinkCounter this' = 1)
  /\ (forall at_index,
        let distance i j :=
          PrimFloat.sqrt
            ((lm_x (at_index i) - lm_x (at_index j))
             * (lm_x (at_index i) - lm_x (at_index j))
             + (lm_y (at_index i) - lm_y (at_index j))
               * (lm_y (at_index i) - lm_y (at_index j)))%float in
        MediaPipe.calculateEAR (mesh at_index) LEFT_EYE
        = Normal ((distance 160%nat 144%nat + distance 158%nat 153%nat)
                  / (2.0 * distance 33%nat 133%nat))%float)
  /\ MediaPipe.calculateEAR (mesh cornersTogether) LEFT_EYE = Normal infinity
  /\ MediaPipe.calculateEAR (mesh lidsTogether) LEFT_EYE
     = Normal 0.44721359549995848%float.
Proof.
  split.
  { intros Math_hypot at_index frameWidth frameHeight scale distance.
    unfold calculateEAR, calculateEAR_traced, getPoint, js_index, js_pick,
      LEFT_EYE, RIGHT_EYE.
    cbn [map]. rewrite !nth_error_mesh by lia.
    subst distance scale. cbn.
    split.
    - destruct (_ <? _)%float; reflexivity.
    - destruct (_ <? _)%float; reflexivity. }
  split; [exact calculateMAR_of_picked_throws|].
  do 4 (split; [vm_compute; reflexivity|]).
  split; [vm_compute; repeat split|].
  split; [|vm_compute; split; reflexivity].
  intros at_index distance. subst distance.
  unfold MediaPipe.calculateEAR, js_pick, LEFT_EYE.
  cbn [map]. rewrite !nth_error_mesh by lia. reflexivity.
Qed.

(** C7 on a run of 32 frames with the eyes closed and the mouth wide open
    (aspect ratio 1.5 against the threshold 0.6). On the 32nd frame the
    eye-closure lines find the severe tier (count 32, beyond 30) and
    deliver the severe [eye_closure] alert; the call then throws in
    [calculateMAR], before the yawn lines and the composite rule: no
    drowsiness alert is delivered, and none is on any call, engine or
    frame. The yawn lines themselves, run over the 32 ratios, fire on the
    32nd, and lines 434-446 themselves, run on a result object with the
    severe eye-closure tier and a yawn, deliver the severe drowsiness
    alert; what
    they do on every result object is: severe with the eye-closure severity
    at 2 and a secondary indicator, else moderate with the severity at 1 or
    more and a secondary indicator, else nothing. *)
Lemma severe_closure_with_yawn_unreported :
  forallb (eyesClosedFrame hypot_sqrt (config engine1))
    (run closedEyesYawning 32 1000) = true
  /\ calculateMAR hypot_sqrt (js_dense (mesh (faceAt 0.5 0.0066 0.2))) 640 480
     = Normal 1.4999999999999991%float
  /\ nth_error (fst (feed hypot_sqrt (run closedEyesYawning 32 1000) engine1)) 31
     = Some (Throw TypeError,
             [(7%nat,
               {| alert_type := eye_closure; alert_severity := severe;
                  alert_message := "Alert: Eyes Closed Too Long";
                  alert_timestamp := 2023;
                  alert_confidenceScore := Some 0.9%float;
                  alert_metadata := Some (MetaEye 0.099000000000000199 32);
                  alert_sessionId := "" |})])
  /\ (forall Math_hypot f this,
        deliveriesOf drowsiness (snd (process Math_hypot f this)) = [])
  /\ nth_error
       (fst (yawnCountingRun (repeat 1.4999999999999991%float 32) 2023 engine1))
       31
     = Some [(7%nat,
              {| alert_type := yawning; alert_severity := moderate;
                 alert_message := "Warning: Yawning"; alert_timestamp := 2023;
                 alert_confidenceScore := Some 0.8%float;
                 alert_metadata := Some (MetaYawn 1.4999999999999991 4);
                 alert_sessionId := "" |})]
  /\ eyeClosureSeverity severeAndYawning = 2
  /\ isYawning (mouth severeAndYawning) = true
  /\ snd (drowsinessAssessment 2023 severeAndYawning engine1)
     = [(7%nat,
         {| alert_type := drowsiness; alert_severity := severe;
            alert_message := "Severe DROWSINESS Observed";
            alert_timestamp := 2023;
            alert_confidenceScore := Some 0.95%float;
            alert_metadata := None; alert_sessionId := "" |})]
  /\ (forall now result this,
        let secondary :=
          (levelSeverity (droop (headPose result)) >=? 1)
          || isYawning (mouth result) in
        let indicator :=
          if levelSeverity (droop (headPose result)) >=? 1
          then "head droop"%string else "yawning"%string in
        drowsinessAssessment now result this
        = if (eyeClosureSeverity result >=? 2) && secondary then
            (Normal (with_drowsiness
                       {| level := lvl_severe;
                          indicators :=
                            ["prolonged eye closure"%string; indicator] |}
                       result),
             this,
             fanout (alertCallbacks this)
               {| alert_type := drowsiness; alert_severity := severe;
                  alert_message := "Severe DROWSINESS Observed";
                  alert_timestamp := now;
                  alert_confidenceScore := Some 0.95%float;
                  alert_metadata := None; alert_sessionId := "" |})
          else if (eyeClosureSeverity result >=? 1) && secondary then
            (Normal (with_drowsiness
                       {| level := lvl_moderate;
                          indicators := ["eye closure"%string; indicator] |}
                       result),
             this,
             fanout (alertCallbacks this)
               {| alert_type := drowsiness; alert_severity := moderate;
                  alert_message := "Moderate DROWSINESS Observed";
                  alert_timestamp := now;
                  alert_confidenceScore := Some 0.85%float;
                  alert_metadata := None; alert_sessionId := "" |})
          else (Normal result, this, [])).
Proof.
  split; [vm_compute; reflexivity|]. split; [vm_compute; reflexivity|].
  split; [vm_compute; reflexivity|].
  split.
  { intros Math_hypot f this.
    apply process_delivers_eye_and_blink_only; discriminate. }
  split; [vm_compute; reflexivity|].
  split; [reflexivity|]. split; [reflexivity|].
  split; [vm_compute; reflexivity|].
  exact drowsinessAssessment_cases.
Qed.

(** C8 on four frames of a wide-open mouth (aspect ratio 1.5 against the
    threshold 0.6, yawn threshold 3). Each call throws in [calculateMAR]
    before lines 326-334: the yawn counter is never raised, never exceeds
    the threshold, and no yawning alert is delivered. Lines 326-334
    themselves, run with the counter at 3 and that ratio, deliver the one
    moderate alert and reset the counter. *)
Lemma yawning_frames_never_fire :
  calculateMAR hypot_sqrt (js_dense (mesh (faceAt 0.5 0.02 0.2))) 640 480
  = Normal 1.4999999999999991%float
  /\ (1.4999999999999991 >? marThreshold (config engine1))%float = true
  /\ feed hypot_sqrt (run yawningFace 4 1000) engine1
     = ([(Throw TypeError, []); (Throw TypeError, []);
         (Throw TypeError, []); (Throw TypeError, [])], engine1)
  /\ yawnCounter (snd (feed hypot_sqrt (run yawningFace 4 1000) engine1)) = 0
  /\ snd (yawnCounting 1.4999999999999991 1000
            (initialResult threeYawnFrames) threeYawnFrames)
     = [(7%nat,
         {| alert_type := yawning; alert_severity := moderate;
            alert_message := "Warning: Yawning"; alert_timestamp := 1000;
            alert_confidenceScore := Some 0.8%float;
            alert_metadata := Some (MetaYawn 1.4999999999999991 4);
            alert_sessionId := "" |})]
  /\ yawnCounter
       (snd (fst (yawnCounting 1.4999999999999991 1000
                    (initialResult threeYawnFrames) threeYawnFrames))) = 0.
Proof. vm_compute. repeat split. Qed.


(** * Further properties of the engine *)

(** ** Order facts on binary64 numbers *)

Ltac sf_order :=
  repeat match goal with
  | |- context [Pos.compare_cont Eq ?a ?b] =>
      change (Pos.compare_cont Eq a b) with (Pos.compare a b)
  | H : context [Pos.compare_cont Eq ?a ?b] |- _ =>
      change (Pos.compare_cont Eq a b) with (Pos.compare a b) in H
  end;
  repeat match goal with
  | H : context [Z.compare ?a ?b] |- _ =>
      destruct (Z.compare_spec a b); try discriminate
  | |- context [Z.compare ?a ?b] =>
      destruct (Z.compare_spec a b); try discriminate
  | H : context [Pos.compare ?a ?b] |- _ =>
      destruct (Pos.compare_spec a b); try discriminate
  | |- context [Pos.compare ?a ?b] =>
      destruct (Pos.compare_spec a b); try discriminate
  end;
  cbn in *; try discriminate; try reflexivity; try lia.


Lemma SFleb_SFltb_trans :
  forall x y z, SFleb x y = true -> SFltb y z = true -> SFltb x z = true.
Proof.
  unfold SFltb, SFleb.
  intros [sx|sx| |sx mx ex] [sy|sy| |sy my ey] [sz|sz| |sz mz ez];
    try destruct sx; try destruct sy; try destruct sz; cbn;
    try discriminate; try reflexivity; intros H1 H2; sf_order.
Qed.

Lemma SFleb_trans :
  forall x y z, SFleb x y = true -> SFleb y z = true -> SFleb x z = true.
Proof.
  unfold SFleb.
  intros [sx|sx| |sx mx ex] [sy|sy| |sy my ey] [sz|sz| |sz mz ez];
    try destruct sx; try destruct sy; try destruct sz; cbn;
    try discriminate; try reflexivity; intros H1 H2; sf_order.
Qed.



Lemma leb_ltb_trans :
  forall a b c : float,
    (a <=? b)%float = true -> (b <? c)%float = true -> (a <? c)%float = true.
Proof.
  intros a b c. rewrite !FloatAxioms.ltb_spec, FloatAxioms.leb_spec.
  apply SFleb_SFltb_trans.
Qed.

Lemma leb_trans :
  forall a b c : float,
    (a <=? b)%float = true -> (b <=? c)%float = true -> (a <=? c)%float = true.
Proof.
  intros a b c. rewrite !FloatAxioms.leb_spec. apply SFleb_trans.
Qed.



(** Two numbers that are not NaN compare one way or the other. *)
Lemma leb_or_ltb :
  forall a b : float,
    (a <=? a)%float = true -> (b <=? b)%float = true ->
    (a <=? b)%float = true \/ (b <? a)%float = true.
Proof.
  intros a b. rewrite !FloatAxioms.leb_spec, FloatAxioms.ltb_spec.
  unfold SFleb, SFltb.
  destruct (Prim2SF a) as [sx|sx| |sx mx ex], (Prim2SF b) as [sy|sy| |sy my ey];
    try destruct sx; try destruct sy; cbn; try discriminate; intros _ _;
    try (left; reflexivity); try (right; reflexivity); sf_order;
    try (left; reflexivity); try (right; reflexivity).
Qed.

Section MoreProperties.

Variable Math_hypot : float -> float -> float.

(** ** Undersized and full-size landmark arrays *)

Lemma getIrisCenter_LEFT_IRIS_short :
  forall landmarks frameWidth frameHeight,
    nth_error landmarks 477 = None ->
    getIrisCenter (js_pick landmarks LEFT_IRIS) frameWidth frameHeight
    = Throw TypeError.
Proof.
  intros landmarks frameWidth frameHeight H.
  unfold getIrisCenter, js_pick, LEFT_IRIS. cbn [map cmapM]. rewrite H.
  cbn [bind Completion_Monad].
  destruct (scalePoint frameWidth frameHeight (nth_error landmarks 474)) as [?|[]];
    cbn [cbind scalePoint]; [|reflexivity].
  destruct (scalePoint frameWidth frameHeight (nth_error landmarks 475)) as [?|[]];
    cbn [cbind scalePoint]; [|reflexivity].
  destruct (scalePoint frameWidth frameHeight (nth_error landmarks 476)) as [?|[]];
    cbn [cbind scalePoint]; reflexivity.
Qed.

Lemma measureEyes_short :
  forall landmarks frameWidth frameHeight,
    (List.length landmarks < 478)%nat ->
    measureEyes Math_hypot landmarks frameWidth frameHeight = Throw TypeError.
Proof.
  intros landmarks frameWidth frameHeight Hlen.
  assert (H : nth_error landmarks 477 = None) by (apply nth_error_None; lia).
  unfold measureEyes. cbn [bind Completion_Monad].
  destruct (getPoint _ _ _ NOSE_TIP) as [?|[]]; cbn [cbind]; [|reflexivity].
  destruct (calculateEAR Math_hypot (js_pick landmarks LEFT_EYE) _ _) as [?|[]];
    cbn [cbind]; [|reflexivity].
  destruct (calculateEAR Math_hypot (js_pick landmarks RIGHT_EYE) _ _) as [?|[]];
    cbn [cbind]; [|reflexivity].
  now rewrite (getIrisCenter_LEFT_IRIS_short _ _ _ H).
Qed.

Lemma measureEyes_full :
  forall landmarks frameWidth frameHeight,
    (478 <= List.length landmarks)%nat ->
    exists m, measureEyes Math_hypot landmarks frameWidth frameHeight = Normal m.
Proof.
  intros landmarks frameWidth frameHeight Hlen.
  assert (Hget : forall i, (i < 478)%nat ->
            exists l, nth_error landmarks i = Some l).
  { intros i Hi. destruct (nth_error landmarks i) eqn:E; [eauto|].
    apply nth_error_None in E. lia. }
  unfold measureEyes, calculateEAR, calculateEAR_traced, getIrisCenter, getPoint,
    js_index, js_dense, js_pick, LEFT_EYE, RIGHT_EYE, LEFT_IRIS, RIGHT_IRIS,
    NOSE_TIP.
  rewrite nth_error_map. cbn [map].
  repeat match goal with
  | |- context [nth_error landmarks ?i] =>
      let l := fresh "l" in
      let E := fresh "E" in
      destruct (Hget i ltac:(lia)) as [l E]; rewrite E; clear E
  end.
  cbn. eexists. reflexivity.
Qed.

(** ** What every call does and never does *)

(** The engine a call leaves: the one it found, or the one the eye-closure
    and blink-rate steps made of it. *)
Lemma process_state_cases :
  forall f this,
    snd (fst (process Math_hypot f this)) = this
    \/ exists closed,
         snd (fst (process Math_hypot f this))
         = afterBlinkRate (f_now f) (afterEyes closed this).
Proof.
  intros f this. destruct (frameMeasures Math_hypot f) as [m|] eqn:Hm.
  - right. eexists. apply (face_frame_state Math_hypot f m this Hm).
  - left. apply (process_no_face Math_hypot f this Hm).
Qed.

Lemma afterEyes_fields :
  forall closed this,
    marHistory (afterEyes closed this) = marHistory this
    /\ (eyeClosureCounter (afterEyes closed this) = eyeClosureCounter this + 1
        \/ eyeClosureCounter (afterEyes closed this) = 0)
    /\ (blinkCounter (afterEyes closed this) = blinkCounter this
        \/ blinkCounter (afterEyes closed this) = blinkCounter this + 1).
Proof.
  intros closed this. unfold afterEyes. destruct closed; cbn.
  - repeat split; auto.
  - destruct ((eyeClosureCounter this >=? 2)
              && (eyeClosureCounter this <? eyeClosedFramesThreshold (config this)));
      cbn; repeat split; auto.
Qed.

Lemma afterBlinkRate_fields :
  forall now this,
    marHistory (afterBlinkRate now this) = marHistory this
    /\ (blinkCounter (afterBlinkRate now this) = blinkCounter this
        \/ blinkCounter (afterBlinkRate now this) = 0).
Proof.
  intros now this. unfold afterBlinkRate.
  destruct (now - blinkTimer this >? 60000); cbn; split; auto.
Qed.

Lemma Forall_flat_map_fanout :
  forall (P : AlertData -> Prop) callbacks alerts,
    Forall P alerts ->
    Forall (fun d => P (snd d)) (flat_map (fanout callbacks) alerts).
Proof.
  intros P callbacks alerts H. induction H as [|a rest Ha _ IH]; cbn.
  - constructor.
  - apply Forall_app. split; [|exact IH].
    unfold fanout. apply Forall_map. apply Forall_forall. intros cb _. exact Ha.
Qed.

Lemma length_flat_map_fanout :
  forall callbacks alerts,
    List.length (flat_map (fanout callbacks) alerts)
    = (List.length alerts * List.length callbacks)%nat.
Proof.
  intros callbacks alerts. induction alerts as [|a rest IH]; cbn; [reflexivity|].
  rewrite length_app, IH. unfold fanout. now rewrite length_map.
Qed.

(** X1. Whatever the engine, the landmark array, the hands, the frame size
    and the clock, a [processFrame] call whose face result has landmarks
    never returns a result: it throws a [TypeError]. *)
Theorem face_frame_never_returns :
  forall this landmarks handResults frameWidth frameHeight sessionId now,
    fst (fst (processFrame Math_hypot
                (Some {| face_landmarks := Some landmarks |}) handResults
                frameWidth frameHeight sessionId now this))
    = Throw TypeError
    /\ forall result,
         fst (fst (processFrame Math_hypot
                     (Some {| face_landmarks := Some landmarks |}) handResults
                     frameWidth frameHeight sessionId now this))
         <> Normal result.
Proof.
  intros. rewrite (process_face_throws Math_hypot). split; [reflexivity|].
  intros result H. discriminate H.
Qed.

(** X2. Every alert a [processFrame] call delivers is an [eye_closure] or a
    [blink_rate_high] alert, and a call delivers at most two alerts to each
    subscriber. The nine other alert types are never delivered. *)
Theorem processFrame_delivers_two_types :
  forall f this,
    Forall (fun d => alert_type (snd d) = eye_closure
                     \/ alert_type (snd d) = blink_rate_high)
      (snd (process Math_hypot f this))
    /\ (List.length (snd (process Math_hypot f this))
        <= 2 * List.length (alertCallbacks this))%nat.
Proof.
  intros f this. destruct (frameMeasures Math_hypot f) as [m|] eqn:Hm.
  - rewrite (process_face_frame Math_hypot f m this Hm). cbn [snd].
    set (eye := if eyesClosedCondition (config this) m (f_height f)
                then eyeClosureAlert (config this) (m_averageEAR m)
                       (eyeClosureCounter this + 1) (f_now f)
                else []).
    set (blink := blinkRateAlert
                    (afterEyes (eyesClosedCondition (config this) m (f_height f)) this)
                    (f_now f)).
    assert (He : Forall (fun a => alert_type a = eye_closure) eye
                 /\ (List.length eye <= 1)%nat).
    { subst eye. destruct (eyesClosedCondition (config this) m (f_height f));
        [|split; [constructor|cbn; lia]].
      unfold eyeClosureAlert.
      destruct (eyeClosureCounter this + 1 >? 30);
        [|destruct (eyeClosureCounter this + 1 >? eyeClosedFramesThreshold (config this))];
        split; cbn; try lia; repeat constructor. }
    assert (Hb : Forall (fun a => alert_type a = blink_rate_high) blink
                 /\ (List.length blink <= 1)%nat).
    { subst blink. unfold blinkRateAlert.
      destruct (_ && _); split; cbn; try lia; repeat constructor. }
    destruct He as [He1 He2], Hb as [Hb1 Hb2]. split.
    + apply (Forall_flat_map_fanout
               (fun a => alert_type a = eye_closure \/ alert_type a = blink_rate_high)).
      apply Forall_app. split.
      * eapply Forall_impl; [|exact He1]. intros a Ha. now left.
      * eapply Forall_impl; [|exact Hb1]. intros a Ha. now right.
    + rewrite length_flat_map_fanout, length_app. nia.
  - destruct (process_no_face Math_hypot f this Hm) as [-> _].
    split; [constructor|cbn; lia].
Qed.

(** The three fields the session lemmas below rely on. *)
Lemma process_keeps_subscribers_and_history :
  forall f this,
    alertCallbacks (snd (fst (process Math_hypot f this))) = alertCallbacks this
    /\ yawnCounter (snd (fst (process Math_hypot f this))) = yawnCounter this
    /\ marHistory (snd (fst (process Math_hypot f this))) = marHistory this.
Proof.
  intros f this.
  destruct (process_state_cases f this) as [->|[closed ->]];
    [repeat split|].
  destruct (afterBlinkRate_frame (f_now f) (afterEyes closed this))
    as (_ & -> & _ & _ & -> & _).
  destruct (afterBlinkRate_fields (f_now f) (afterEyes closed this)) as [-> _].
  destruct (afterEyes_frame closed this) as (_ & -> & _ & _ & -> & _).
  destruct (afterEyes_fields closed this) as [-> _].
  repeat split.
Qed.

(** X3. Whatever the frame, a [processFrame] call leaves the configuration,
    the calibration snapshot, the calibrated flag, the callback list, the
    yawn counter and the mouth-ratio history as it found them. *)
Theorem processFrame_leaves_settings :
  forall f this,
    config (snd (fst (process Math_hypot f this))) = config this
    /\ calibrationData (snd (fst (process Math_hypot f this)))
       = calibrationData this
    /\ isCalibrated (snd (fst (process Math_hypot f this))) = isCalibrated this
    /\ alertCallbacks (snd (fst (process Math_hypot f this)))
       = alertCallbacks this
    /\ yawnCounter (snd (fst (process Math_hypot f this))) = yawnCounter this
    /\ marHistory (snd (fst (process Math_hypot f this))) = marHistory this.
Proof.
  intros f this.
  destruct (process_state_cases f this) as [->|[closed ->]];
    [repeat split|].
  destruct (afterBlinkRate_frame (f_now f) (afterEyes closed this))
    as (-> & -> & -> & -> & -> & _).
  destruct (afterBlinkRate_fields (f_now f) (afterEyes closed this)) as [-> _].
  destruct (afterEyes_frame closed this) as (-> & -> & -> & -> & -> & _).
  destruct (afterEyes_fields closed this) as [-> _].
  repeat split.
Qed.

(** X8. A landmark array with fewer than 478 entries (an empty array
    included) makes [processFrame] throw before it touches anything: the
    engine is unchanged and nothing is delivered. *)
Theorem undersized_landmarks_fail_fast :
  forall this landmarks handResults frameWidth frameHeight sessionId now,
    (List.length landmarks < 478)%nat ->
    processFrame Math_hypot (Some {| face_landmarks := Some landmarks |})
      handResults frameWidth frameHeight sessionId now this
    = (Throw TypeError, this, []).
Proof.
  intros this landmarks handResults frameWidth frameHeight sessionId now Hlen.
  unfold processFrame.
  rewrite (bind_Normal _ _ _ _ this this this []) by reflexivity.
  cbn [face_landmarks app fst snd]. unfold processFace.
  rewrite (bind_Throw _ _ _ _ this TypeError this []); [reflexivity|].
  unfold lift. now rewrite (measureEyes_short _ _ _ Hlen).
Qed.

(** ** Sessions *)

Lemma afterCall_invariant :
  forall this c,
    SessionInvariant this -> SessionInvariant (afterCall Math_hypot this c).
Proof.
  intros this c (Hy & Hh & He & Hb). unfold SessionInvariant.
  destruct c as [f|now|partial|g x y|callback]; cbn [afterCall].
  - destruct (process_keeps_subscribers_and_history f this) as (_ & -> & ->).
    split; [exact Hy|]. split; [exact Hh|].
    destruct (process_state_cases f this) as [->|[closed ->]]; [split; assumption|].
    destruct (afterBlinkRate_frame (f_now f) (afterEyes closed this))
      as (_ & _ & _ & _ & _ & ->).
    destruct (afterBlinkRate_fields (f_now f) (afterEyes closed this)) as [_ Hb'].
    destruct (afterEyes_fields closed this) as (_ & He' & Hb'').
    split; [destruct He' as [-> | ->]; lia|].
    destruct Hb' as [-> | ->]; [|lia]. destruct Hb'' as [-> | ->]; lia.
  - cbn. rewrite Hh. repeat split; try lia.
  - cbn. repeat split; assumption.
  - cbn. repeat split; assumption.
  - cbn. repeat split; assumption.
Qed.

(** X4. In every engine state that any sequence of public calls
    ([processFrame], [reset], [setConfig], [setCalibration],
    [addAlertCallback]) reaches from a new engine, the yawn counter is 0,
    the mouth-ratio history is 30 zeros, and the eye-closure and blink
    counters are not negative. *)
Theorem session_invariant :
  forall partial start calls,
    yawnCounter (session Math_hypot partial start calls) = 0
    /\ marHistory (session Math_hypot partial start calls) = repeat 0%float 30
    /\ 0 <= eyeClosureCounter (session Math_hypot partial start calls)
    /\ 0 <= blinkCounter (session Math_hypot partial start calls).
Proof.
  intros partial start calls. unfold session.
  change (SessionInvariant
            (fold_left (afterCall Math_hypot) calls (constructEngine partial start))).
  assert (H0 : SessionInvariant (constructEngine partial start))
    by (unfold SessionInvariant; cbn; repeat split; lia).
  revert H0. generalize (constructEngine partial start).
  induction calls as [|c rest IH]; intros e He; cbn [fold_left]; [exact He|].
  apply IH. now apply afterCall_invariant.
Qed.

(** X9. The callback list of an engine is exactly the callbacks registered
    since its construction, in registration order and with repetitions: no
    call removes, reorders or deduplicates subscribers, so an alert raised
    at any point of a session goes once to each registration made so far. *)
Theorem subscribers_are_registrations :
  forall partial start calls type severity message confidence metadata now,
    alertCallbacks (session Math_hypot partial start calls) = registered calls
    /\ snd (triggerAlert type severity message confidence metadata now
              (session Math_hypot partial start calls))
       = map (fun callback =>
                (callback,
                 {| alert_type := type; alert_severity := severity;
                    alert_message := message; alert_timestamp := now;
                    alert_confidenceScore := confidence;
                    alert_metadata := metadata; alert_sessionId := "" |}))
           (registered calls).
Proof.
  intros partial start calls type severity message confidence metadata now.
  assert (H : alertCallbacks (session Math_hypot partial start calls)
              = registered calls).
  { unfold session.
    assert (G : forall e,
              alertCallbacks (fold_left (afterCall Math_hypot) calls e)
              = alertCallbacks e ++ registered calls).
    { induction calls as [|c rest IH]; intros e; cbn [fold_left].
      - unfold registered. cbn. now rewrite app_nil_r.
      - rewrite IH. unfold registered. cbn [flat_map].
        destruct c as [f|t|p|g x y|callback]; cbn [afterCall app].
        + now destruct (process_keeps_subscribers_and_history f e) as (-> & _).
        + reflexivity.
        + reflexivity.
        + reflexivity.
        + cbn. now rewrite <- app_assoc. }
    rewrite G. reflexivity. }
  split; [exact H|].
  unfold triggerAlert. cbn. unfold eng_bind, forEach_callback. cbn.
  rewrite app_nil_r, H. reflexivity.
Qed.

(** ** Eye-closure tiers along a run *)

(** X5. Along a run of closed-eye frames started with the counter at 0,
    the call on frame number [n] (from 1) delivers no [eye_closure] alert
    while [n] is at most 30 and at most [eyeClosedFramesThreshold], one
    moderate alert when [n] is above the threshold and at most 30, and one
    severe alert on every frame past 30; each alert carries the count [n],
    and the counter is never reset by firing. With a threshold of 30 or
    more the moderate tier is never delivered. *)
Theorem eye_closure_tiers_along_run :
  forall this frames,
    eyeClosureCounter this = 0 ->
    forallb (eyesClosedFrame Math_hypot (config this)) frames = true ->
    eyeClosureCounter (snd (feed Math_hypot frames this))
    = Z.of_nat (List.length frames)
    /\ forall i f,
         nth_error frames i = Some f ->
         let n := Z.of_nat i + 1 in
         exists m out,
           frameMeasures Math_hypot f = Some m
           /\ nth_error (fst (feed Math_hypot frames this)) i
              = Some (Throw TypeError, out)
           /\ (n <= 30 -> n <= eyeClosedFramesThreshold (config this) ->
               deliveriesOf eye_closure out = [])
           /\ (n <= 30 -> eyeClosedFramesThreshold (config this) < n ->
               deliveriesOf eye_closure out
               = fanout (alertCallbacks this)
                   {| alert_type := eye_closure; alert_severity := moderate;
                      alert_message := "Warning: Eyes Closed";
                      alert_timestamp := f_now f;
                      alert_confidenceScore := Some 0.8%float;
                      alert_metadata := Some (MetaEye (m_averageEAR m) n);
                      alert_sessionId := "" |})
           /\ (30 < n ->
               deliveriesOf eye_closure out
               = fanout (alertCallbacks this)
                   {| alert_type := eye_closure; alert_severity := severe;
                      alert_message := "Alert: Eyes Closed Too Long";
                      alert_timestamp := f_now f;
                      alert_confidenceScore := Some 0.9%float;
                      alert_metadata := Some (MetaEye (m_averageEAR m) n);
                      alert_sessionId := "" |})
           /\ (30 <= eyeClosedFramesThreshold (config this) ->
               Forall (fun d => alert_severity (snd d) <> moderate)
                 (deliveriesOf eye_closure out)).
Proof.
  intros this frames Hc Hall.
  destruct (feed_closed_run Math_hypot frames this Hall) as (Hfinal & _ & _ & Hnth).
  split; [rewrite Hfinal, Hc; reflexivity|].
  intros i f Hf n.
  destruct (Hnth i f Hf) as (m & out & Hm & Hout & Hd).
  exists m, out. split; [exact Hm|]. split; [exact Hout|].
  rewrite Hd, Hc. fold n. replace (0 + Z.of_nat i + 1) with n by (subst n; lia).
  unfold eyeClosureAlert.
  assert (Hsev : forall a,
            alert_severity a <> moderate ->
            Forall (fun d : Delivery => alert_severity (snd d) <> moderate)
              (fanout (alertCallbacks this) a)).
  { intros a Ha. unfold fanout. apply Forall_map. apply Forall_forall.
    intros cb _. exact Ha. }
  destruct (n >? 30) eqn:E30.
  - cbn [flat_map]. rewrite app_nil_r.
    split; [intros; lia|]. split; [intros; lia|]. split; [reflexivity|].
    intros _. apply Hsev. discriminate.
  - destruct (n >? eyeClosedFramesThreshold (config this)) eqn:Ethr.
    + cbn [flat_map]. rewrite app_nil_r.
      split; [intros; lia|]. split; [reflexivity|]. split; [intros; lia|].
      intros; lia.
    + cbn [flat_map].
      split; [reflexivity|]. split; [intros; lia|]. split; [intros; lia|].
      intros _. constructor.
Qed.

(** ** The blink window *)

(** X6. On a frame that shows a face, the blink-rate step sees the blink
    counter with the blink of this very frame already counted. If more
    than 60000 ms have passed since the window start, the call delivers one
    mild "High Blinking Rate" alert when that count has reached
    [blinkRateThreshold] and none otherwise, and in both cases leaves the
    blink counter at 0 and the window start at the clock reading. If not,
    the call delivers no such alert and leaves the window start alone. *)
Theorem blink_window_rollover :
  forall f m this,
    frameMeasures Math_hypot f = Some m ->
    let closed := eyesClosedCondition (config this) m (f_height f) in
    let counted :=
      if negb closed
         && (eyeClosureCounter this >=? 2)
         && (eyeClosureCounter this <? eyeClosedFramesThreshold (config this))
      then blinkCounter this + 1 else blinkCounter this in
    let this' := snd (fst (process Math_hypot f this)) in
    let out := snd (process Math_hypot f this) in
    (f_now f - blinkTimer this > 60000 ->
       blinkCounter this' = 0
       /\ blinkTimer this' = f_now f
       /\ deliveriesOf blink_rate_high out
          = if counted >=? blinkRateThreshold (config this)
            then fanout (alertCallbacks this)
                   {| alert_type := blink_rate_high; alert_severity := mild;
                      alert_message := "High Blinking Rate";
                      alert_timestamp := f_now f;
                      alert_confidenceScore := Some 0.7%float;
                      alert_metadata := Some (MetaBlink counted);
                      alert_sessionId := "" |}
            else [])
    /\ (f_now f - blinkTimer this <= 60000 ->
        blinkCounter this' = counted
        /\ blinkTimer this' = blinkTimer this
        /\ deliveriesOf blink_rate_high out = []).
Proof.
  intros f m this Hm closed counted this' out. subst this' out.
  rewrite (face_frame_deliveries Math_hypot f m this blink_rate_high Hm).
  rewrite (face_frame_state Math_hypot f m this Hm).
  fold closed. cbn [AlertType_eqb andb app].
  assert (Hst : blinkCounter (afterEyes closed this) = counted
                /\ blinkTimer (afterEyes closed this) = blinkTimer this
                /\ config (afterEyes closed this) = config this).
  { subst counted. unfold afterEyes. destruct closed; cbn; [repeat split|].
    destruct ((eyeClosureCounter this >=? 2)
              && (eyeClosureCounter this <? eyeClosedFramesThreshold (config this)));
      cbn; repeat split. }
  destruct Hst as (Hb & Ht & Hcfg).
  unfold afterBlinkRate, blinkRateAlert. rewrite Hb, Ht, Hcfg.
  destruct (f_now f - blinkTimer this >? 60000) eqn:Ewin; split; intros Hw;
    try lia; cbn [andb].
  - destruct (counted >=? blinkRateThreshold (config this)); cbn;
      rewrite ?app_nil_r; repeat split.
  - cbn. repeat split; assumption.
Qed.

(** ** Frames without a face inside a run *)

Lemma feed_app :
  forall frames1 frames2 this,
    snd (feed Math_hypot (frames1 ++ frames2) this)
    = snd (feed Math_hypot frames2 (snd (feed Math_hypot frames1 this))).
Proof.
  induction frames1 as [|f rest IH]; intros frames2 this; [reflexivity|].
  cbn [app]. rewrite !(feed_cons Math_hypot). cbn [snd]. apply IH.
Qed.

Lemma feed_no_face :
  forall frames this,
    forallb noFaceFrame frames = true ->
    snd (feed Math_hypot frames this) = this
    /\ Forall (fun o => snd o = []) (fst (feed Math_hypot frames this)).
Proof.
  induction frames as [|f rest IH]; intros this Hall.
  - split; [reflexivity|constructor].
  - cbn [forallb] in Hall. apply andb_true_iff in Hall as [Hf Hrest].
    assert (Hm : frameMeasures Math_hypot f = None).
    { unfold frameMeasures. unfold noFaceFrame in Hf.
      destruct (f_face f) as [[[l|]]|]; try reflexivity. discriminate. }
    destruct (process_no_face Math_hypot f this Hm) as [Hout Hst].
    rewrite (feed_cons Math_hypot). cbn [fst snd]. rewrite Hst, Hout.
    destruct (IH this Hrest) as [-> Hall']. split; [reflexivity|].
    constructor; [reflexivity|exact Hall'].
Qed.

(** X7. Frames without a face do not interrupt a run: the calls on them
    deliver nothing and leave the engine alone, so closed-eye frames before
    and after a stretch of faceless frames count as one run. *)
Theorem faceless_frames_do_not_end_a_run :
  forall this before gap after,
    forallb (eyesClosedFrame Math_hypot (config this)) before = true ->
    forallb noFaceFrame gap = true ->
    forallb (eyesClosedFrame Math_hypot (config this)) after = true ->
    eyeClosureCounter (snd (feed Math_hypot (before ++ gap ++ after) this))
    = eyeClosureCounter this
      + Z.of_nat (List.length before) + Z.of_nat (List.length after)
    /\ snd (feed Math_hypot (before ++ gap ++ after) this)
       = snd (feed Math_hypot (before ++ after) this).
Proof.
  intros this before gap after Hb Hg Ha.
  rewrite !feed_app.
  destruct (feed_no_face gap (snd (feed Math_hypot before this)) Hg) as [-> _].
  split; [|reflexivity].
  destruct (feed_closed_run Math_hypot before this Hb) as (Hc1 & Hcfg & _ & _).
  rewrite <- Hcfg in Ha.
  destruct (feed_closed_run Math_hypot after _ Ha) as (Hc2 & _ & _ & _).
  rewrite Hc2, Hc1. reflexivity.
Qed.

(** ** Head pose and gaze lines *)

(** X10. While the engine is not calibrated, the head-pose and gaze lines
    (336-408) deliver nothing, leave the engine alone and leave the turn,
    tilt, droop and gaze fields of the result untouched: they only record
    the nose-tip position. *)
Theorem head_pose_inert_until_calibrated :
  forall landmarks irisCenter frameWidth now result this,
    isCalibrated this = false \/ calibrationData this = None ->
    snd (headPoseEstimation landmarks irisCenter frameWidth now result this) = []
    /\ snd (fst (headPoseEstimation landmarks irisCenter frameWidth now
                   result this)) = this
    /\ forall result',
         fst (fst (headPoseEstimation landmarks irisCenter frameWidth now
                     result this)) = Normal result' ->
         turn (headPose result') = turn (headPose result)
         /\ tilt (headPose result') = tilt (headPose result)
         /\ droop (headPose result') = droop (headPose result)
         /\ gaze result' = gaze result.
Proof.
  intros landmarks irisCenter frameWidth now result this Hcal.
  unfold headPoseEstimation. cbn [bind Eng_Monad]. unfold eng_bind, lift, get.
  destruct (js_get landmarks NOSE_TIP) as [nose|e]; cbn.
  - destruct Hcal as [-> | ->]; [|destruct (isCalibrated this)]; cbn;
      (split; [reflexivity|]); (split; [reflexivity|]);
      intros r Hr; injection Hr as <-; repeat split.
  - split; [reflexivity|]. split; [reflexivity|]. intros r Hr. discriminate Hr.
Qed.


(** ** Hands without landmarks *)

Lemma nan_div : forall h : float, (nan / h)%float = nan.
Proof.
  intros h. apply Prim2SF_inj. rewrite FloatAxioms.div_spec.
  reflexivity.
Qed.

Lemma not_above_nan : forall a : float, (nan >? a)%float = false.
Proof.
  intros a. rewrite FloatAxioms.ltb_spec.
  change (Prim2SF nan) with S754_nan. unfold SFltb.
  destruct (Prim2SF a); reflexivity.
Qed.

(** X12. Hand results whose landmark arrays are empty raise nothing: with
    a face array long enough for the ear tips (455 entries), the hand lines
    return the result as it was, leave the engine alone and deliver no
    phone, hand-near-face or texting alert, however many such hands there
    are (the centre of an empty hand is not a number, and no comparison
    with it holds). *)
Theorem landmarkless_hands_raise_nothing :
  forall landmarks faceCenter handResults frameWidth frameHeight now result this,
    (455 <= List.length landmarks)%nat ->
    forallb landmarklessHand handResults = true ->
    handDetection Math_hypot landmarks faceCenter handResults frameWidth
      frameHeight now result this
    = (Normal result, this, []).
Proof.
  intros landmarks faceCenter handResults frameWidth frameHeight now result this
    Hlen Hall.
  assert (Hear : forall hand,
            landmarklessHand hand = true ->
            isHandNearEar Math_hypot landmarks (hand_landmarks hand)
              frameWidth frameHeight = Normal false).
  { intros hand Hh. unfold landmarklessHand in Hh.
    destruct (hand_landmarks hand); [|discriminate].
    unfold isHandNearEar, getPoint, js_index, js_dense, LEFT_EAR_TIP,
      RIGHT_EAR_TIP.
    rewrite !nth_error_map.
    destruct (nth_error landmarks 234) eqn:E1;
      [|apply nth_error_None in E1; lia].
    destruct (nth_error landmarks 454) eqn:E2;
      [|apply nth_error_None in E2; lia].
    reflexivity. }
  assert (Hloop : forall hs,
            forallb landmarklessHand hs = true ->
            forEach_hand
              (fun hand result =>
                 near <- lift (isHandNearEar Math_hypot landmarks
                                 (hand_landmarks hand) frameWidth frameHeight) ;;
                 result <-
                   (if near : bool then
                      triggerAlert phone_usage moderate "Likely mobile call"
                        (Some 0.8%float) None now ;;;
                      ret (assign_nearEar result)
                    else ret result) ;;
                 this <- get ;;
                 if isHandNearFace Math_hypot (config this) faceCenter
                      (hand_landmarks hand) frameWidth frameHeight then
                   triggerAlert hand_near_face mild "Hand near the face"
                     (Some 0.7%float) None now ;;;
                   ret (assign_nearFace result)
                 else ret result)
              hs result this
            = (Normal result, this, [])).
  { intros hs. induction hs as [|hand rest IH]; intros Hh; [reflexivity|].
    cbn [forallb] in Hh. apply andb_true_iff in Hh as [Hhand Hrest].
    cbn [forEach_hand].
    rewrite (bind_Normal _ _ _ _ this result this []).
    - rewrite (IH Hrest). reflexivity.
    - cbn [bind Eng_Monad]. unfold eng_bind, lift, get.
      rewrite (Hear hand Hhand). cbn.
      unfold landmarklessHand in Hhand.
      destruct (hand_landmarks hand); [reflexivity|discriminate]. }
  unfold handDetection. destruct handResults as [|hand rest]; [reflexivity|].
  rewrite (bind_Normal _ _ _ _ this result this []) by (apply Hloop; exact Hall).
  assert (Htext : detectTexting Math_hypot (hand :: rest) frameWidth frameHeight
                  = false).
  { destruct rest as [|hand2 [|hand3 rest]]; try reflexivity.
    cbn [forallb] in Hall. apply andb_true_iff in Hall as [H1 _].
    unfold landmarklessHand in H1. unfold detectTexting, getHandCenter.
    destruct (hand_landmarks hand); [|discriminate].
    cbn [map centroid pt_y fold_left].
    change (0 / js_length (@nil Point))%float with nan.
    now rewrite nan_div, not_above_nan. }
  rewrite Htext. reflexivity.
Qed.

(** ** Configuration *)

(** X13. [setConfig] merges key by key and touches nothing but the
    configuration: two calls in a row amount to one call with the second
    partial configuration spread over the first, a call with no key changes
    nothing, and constructing an engine with a partial configuration is
    constructing a default one and calling [setConfig] with it. *)
Theorem setConfig_merges :
  forall p q this now,
    snd (fst (setConfig q (snd (fst (setConfig p this)))))
    = snd (fst (setConfig (spreadPartial p q) this))
    /\ setConfig emptyPartial this = (Normal tt, this, [])
    /\ constructEngine (Some p) now
       = snd (fst (setConfig p (constructEngine None now)))
    /\ set_config (config this) (snd (fst (setConfig p this))) = this.
Proof.
  intros p q this now. destruct this as [cfg ec bc yc bt mh cd ic cbs].
  destruct cfg, p as [p1 p2 p3 p4 p5 p6 p7 p8], q as [q1 q2 q3 q4 q5 q6 q7 q8].
  repeat split.
  unfold setConfig, modify, set_config, spreadConfig, spreadPartial, spread.
  cbn. destruct q1, q2, q3, q4, q5, q6, q7, q8; reflexivity.
Qed.

(** ** The yawn lines on a long yawn *)

Lemma yawnCounting_step :
  forall mar now result this,
    (mar >? marThreshold (config this))%float = true ->
    yawnCounting mar now result this
    = (Normal (if yawnCounter this + 1 >? yawnThreshold (config this)
               then assign_isYawning true (assign_MAR mar result)
               else assign_MAR mar result),
       set_yawnCounter
         (if yawnCounter this + 1 >? yawnThreshold (config this)
          then 0 else yawnCounter this + 1)
         (set_marHistory (tl (marHistory this ++ [mar])) this),
       if yawnCounter this + 1 >? yawnThreshold (config this)
       then fanout (alertCallbacks this)
              {| alert_type := yawning; alert_severity := moderate;
                 alert_message := "Warning: Yawning"; alert_timestamp := now;
                 alert_confidenceScore := Some 0.8%float;
                 alert_metadata := Some (MetaYawn mar (yawnCounter this + 1));
                 alert_sessionId := "" |}
       else []).
Proof.
  intros mar now result this Hmar.
  unfold yawnCounting. cbn. unfold eng_bind, get. cbn. rewrite Hmar. cbn.
  destruct (yawnCounter this + 1 >? yawnThreshold (config this)); cbn;
    unfold forEach_callback; cbn; rewrite ?app_nil_r; reflexivity.
Qed.

(** X14. The yawn lines (322-334) taken on their own, on a yawn that lasts:
    with the counter at 0 and every frame's ratio above [marThreshold], the
    counter after [k] frames is [k] modulo [yawnThreshold + 1], and a
    moderate yawning alert with count [yawnThreshold + 1] goes to each
    subscriber on every frame whose number is a multiple of
    [yawnThreshold + 1] and on no other: one long yawn fires again and
    again. *)
Theorem long_yawn_fires_periodically :
  forall mars now this,
    0 <= yawnThreshold (config this) ->
    yawnCounter this = 0 ->
    forallb (fun mar => (mar >? marThreshold (config this))%float) mars = true ->
    let period := yawnThreshold (config this) + 1 in
    yawnCounter (snd (yawnCountingRun mars now this))
    = Z.of_nat (List.length mars) mod period
    /\ forall i mar,
         nth_error mars i = Some mar ->
         nth_error (fst (yawnCountingRun mars now this)) i
         = Some (if (Z.of_nat i + 1) mod period =? 0
                 then fanout (alertCallbacks this)
                        {| alert_type := yawning; alert_severity := moderate;
                           alert_message := "Warning: Yawning";
                           alert_timestamp := now;
                           alert_confidenceScore := Some 0.8%float;
                           alert_metadata := Some (MetaYawn mar period);
                           alert_sessionId := "" |}
                 else []).
Proof.
  intros mars now this Hthr Hc Hall period.
  assert (Hgen : forall mars this k,
            config this = config this ->
            0 <= yawnThreshold (config this) ->
            0 <= k ->
            yawnCounter this = k mod (yawnThreshold (config this) + 1) ->
            forallb (fun mar => (mar >? marThreshold (config this))%float) mars = true ->
            yawnCounter (snd (yawnCountingRun mars now this))
            = (k + Z.of_nat (List.length mars)) mod (yawnThreshold (config this) + 1)
            /\ forall i mar,
                 nth_error mars i = Some mar ->
                 nth_error (fst (yawnCountingRun mars now this)) i
                 = Some (if (k + Z.of_nat i + 1) mod (yawnThreshold (config this) + 1) =? 0
                         then fanout (alertCallbacks this)
                                {| alert_type := yawning; alert_severity := moderate;
                                   alert_message := "Warning: Yawning";
                                   alert_timestamp := now;
                                   alert_confidenceScore := Some 0.8%float;
                                   alert_metadata :=
                                     Some (MetaYawn mar (yawnThreshold (config this) + 1));
                                   alert_sessionId := "" |}
                         else [])).
  { clear. induction mars as [|mar rest IH]; intros this k _ Hthr Hk Hc Hall.
    - cbn. split; [now rewrite Z.add_0_r|]. intros [|i] mar H; discriminate H.
    - cbn [forallb] in Hall. apply andb_true_iff in Hall as [Hmar Hrest].
      cbn [yawnCountingRun].
      rewrite (yawnCounting_step mar now (initialResult this) this Hmar).
      set (N := yawnThreshold (config this) + 1) in *.
      assert (HN : 0 < N) by (subst N; lia).
      assert (Hrange : 0 <= k mod N < N) by (apply Z.mod_pos_bound; lia).
      assert (Hnext : (if yawnCounter this + 1 >? yawnThreshold (config this)
                       then 0 else yawnCounter this + 1) = (k + 1) mod N).
      { rewrite <- (Zplus_mod_idemp_l k 1 N), <- Hc.
        destruct (yawnCounter this + 1 >? yawnThreshold (config this)) eqn:E.
        - replace (yawnCounter this + 1) with N by lia.
          now rewrite Z_mod_same_full.
        - symmetry. apply Z.mod_small. lia. }
      set (this1 := set_yawnCounter _ _).
      destruct (IH this1 (k + 1)) as [Hfin Hnth];
        [reflexivity|exact Hthr|lia|exact Hnext|exact Hrest|].
      destruct (yawnCountingRun rest now this1) as [outs this2] eqn:Erun.
      cbn [fst snd] in *. split.
      + change (List.length (mar :: rest)) with (S (List.length rest)).
        rewrite Hfin. f_equal. lia.
      + intros [|i] mar' Hi.
        * cbn in Hi. injection Hi as <-. cbn [nth_error]. f_equal.
          replace (k + Z.of_nat 0 + 1) with (k + 1) by lia.
          rewrite <- Hnext.
          destruct (yawnCounter this + 1 >? yawnThreshold (config this)) eqn:E.
          -- replace (yawnCounter this + 1) with N by lia. reflexivity.
          -- destruct (yawnCounter this + 1 =? 0) eqn:E0; [|reflexivity].
             rewrite Hc in E0. lia.
        * cbn [nth_error] in Hi |- *. rewrite (Hnth i mar' Hi).
          replace (k + 1 + Z.of_nat i + 1) with (k + Z.of_nat (S i) + 1) by lia.
          reflexivity. }
  destruct (Hgen mars this 0 eq_refl Hthr (Z.le_refl 0)) as [Hfin Hnth];
    [rewrite Hc; symmetry; apply Z.mod_0_l; lia|exact Hall|].
  split; [exact Hfin|].
  intros i mar Hi. rewrite (Hnth i mar Hi). reflexivity.
Qed.

End MoreProperties.

(** * Battery optimization service *)

(** A comparison that holds has a left side that is not NaN. *)
Lemma leb_refl_l :
  forall a b : float, (a <=? b)%float = true -> (a <=? a)%float = true.
Proof.
  intros a b. rewrite !FloatAxioms.leb_spec. unfold SFleb.
  destruct (Prim2SF a) as [sx|sx| |sx mx ex], (Prim2SF b) as [sy|sy| |sy my ey];
    try destruct sx; cbn; try discriminate; try reflexivity; intros _;
    rewrite Z.compare_refl;
    change (Pos.compare_cont Eq mx mx) with (Pos.compare mx mx);
    now rewrite Pos.compare_refl.
Qed.

(** X15. The frame rate, the frame skip count and the processing quality
    agree. With adaptive frame rate on, the rate is 10, 15 or 30 exactly
    when the quality is low, medium or high. Off the charger with reduced
    processing on, the skip count is 4, 2 or 1 for low, medium or high
    quality: even at high quality every second frame is skipped. On the
    charger the rate is 30, no frame is skipped, the quality is high, there
    is no recommendation, monitoring is not stopped and optimization is
    reported inactive. *)
Theorem battery_decisions_agree :
  forall this,
    (Battery.adaptiveFrameRate (Battery.config this) = true ->
       Battery.getOptimizedFrameRate this
       = match Battery.getProcessingQuality this with
         | Battery.low => 10
         | Battery.medium => 15
         | Battery.high => 30
         end)
    /\ (Battery.adaptiveFrameRate (Battery.config this) = false ->
        Battery.getOptimizedFrameRate this = 30)
    /\ (Battery.reducedProcessingMode (Battery.config this) = true ->
        Battery.isCharging this = false ->
        Battery.getFrameSkipCount this
        = match Battery.getProcessingQuality this with
          | Battery.low => 4
          | Battery.medium => 2
          | Battery.high => 1
          end)
    /\ (Battery.isCharging this = true ->
        Battery.getOptimizedFrameRate this = 30
        /\ Battery.getFrameSkipCount this = 0
        /\ Battery.getProcessingQuality this = Battery.high
        /\ Battery.getOptimizationRecommendations this = None
        /\ Battery.shouldStopMonitoring this = false
        /\ Battery.optimizationActive (Battery.getBatteryStatus this) = false).
Proof.
  intros [cfg level charging].
  unfold Battery.getOptimizedFrameRate, Battery.getFrameSkipCount,
    Battery.getProcessingQuality, Battery.getOptimizationRecommendations,
    Battery.shouldStopMonitoring, Battery.getBatteryStatus.
  cbn.
  split; [intros ->|]. 
  { destruct charging; cbn; [reflexivity|].
    destruct (level <=? Battery.criticalBatteryThreshold cfg)%float; [reflexivity|].
    destruct (level <=? Battery.lowBatteryThreshold cfg)%float; reflexivity. }
  split; [intros ->; reflexivity|].
  split; [intros -> ->; cbn|].
  { destruct (level <=? Battery.criticalBatteryThreshold cfg)%float; [reflexivity|].
    destruct (level <=? Battery.lowBatteryThreshold cfg)%float; reflexivity. }
  intros ->. rewrite !orb_true_r, !andb_false_r. repeat split.
Qed.

(** X16. When [shouldStopMonitoring] answers yes, the service is off the
    charger, the quality is low, the recommendation is the critical one,
    the frame rate is 10 if adaptive frame rate is on and the skip count is
    4 if reduced processing is on. *)
Theorem stop_means_critical :
  forall this,
    Battery.shouldStopMonitoring this = true ->
    Battery.isCharging this = false
    /\ Battery.getProcessingQuality this = Battery.low
    /\ option_map Battery.severity (Battery.getOptimizationRecommendations this)
       = Some Battery.critical
    /\ (Battery.adaptiveFrameRate (Battery.config this) = true ->
        Battery.getOptimizedFrameRate this = 10)
    /\ (Battery.reducedProcessingMode (Battery.config this) = true ->
        Battery.getFrameSkipCount this = 4).
Proof.
  intros [cfg level charging].
  unfold Battery.shouldStopMonitoring, Battery.getOptimizedFrameRate,
    Battery.getFrameSkipCount, Battery.getProcessingQuality,
    Battery.getOptimizationRecommendations.
  cbn. intros H.
  apply andb_true_iff in H as [H Hc]. apply andb_true_iff in H as [_ Hl].
  apply negb_true_iff in Hc. subst charging. rewrite Hl.
  repeat split; intros ->; reflexivity.
Qed.

(** X17. With the critical threshold at or below the low threshold, the
    status reports optimization as active exactly when there is a
    recommendation, and the recommendation is the critical one exactly when
    the level is at or below the critical threshold off the charger. *)
Theorem optimization_active_iff_recommendation :
  forall this,
    (Battery.criticalBatteryThreshold (Battery.config this)
     <=? Battery.lowBatteryThreshold (Battery.config this))%float = true ->
    (Battery.optimizationActive (Battery.getBatteryStatus this) = true
     <-> Battery.getOptimizationRecommendations this <> None)
    /\ (option_map Battery.severity (Battery.getOptimizationRecommendations this)
        = Some Battery.critical
        <-> Battery.isCharging this = false
            /\ (Battery.currentBatteryLevel this
                <=? Battery.criticalBatteryThreshold (Battery.config this))%float
               = true).
Proof.
  intros [cfg level charging] Hcfg. cbn in Hcfg.
  unfold Battery.getBatteryStatus, Battery.getOptimizationRecommendations. cbn.
  destruct charging; cbn.
  - split; split; try discriminate; try (intros H; now contradiction H).
    intros [H _]. discriminate H.
  - destruct (level <=? Battery.criticalBatteryThreshold cfg)%float eqn:Ec.
    + rewrite (leb_trans _ _ _ Ec Hcfg). cbn.
      split; split; try discriminate; auto.
    + destruct (level <=? Battery.lowBatteryThreshold cfg)%float; cbn;
        split; split; try discriminate; auto;
        try (intros H; now contradiction H); intros [_ H]; discriminate H.
Qed.

(** X18. A higher battery level never degrades the service: for two levels
    with the first at or below the second, and the same configuration and
    charging flag, the frame rate at the first is at most the rate at the
    second, the skip count at least as large, and the quality at most as
    good. *)
Theorem battery_decisions_monotone :
  forall cfg charging level1 level2,
    (level1 <=? level2)%float = true ->
    let at_level l :=
      {| Battery.config := cfg; Battery.currentBatteryLevel := l;
         Battery.isCharging := charging |} in
    Battery.getOptimizedFrameRate (at_level level1)
    <= Battery.getOptimizedFrameRate (at_level level2)
    /\ Battery.getFrameSkipCount (at_level level2)
       <= Battery.getFrameSkipCount (at_level level1)
    /\ Battery.qualityRank (Battery.getProcessingQuality (at_level level1))
       <= Battery.qualityRank (Battery.getProcessingQuality (at_level level2)).
Proof.
  intros cfg charging level1 level2 Hle at_level. subst at_level.
  unfold Battery.getOptimizedFrameRate, Battery.getFrameSkipCount,
    Battery.getProcessingQuality. cbn.
  destruct (level2 <=? Battery.criticalBatteryThreshold cfg)%float eqn:E2c.
  - rewrite (leb_trans _ _ _ Hle E2c).
    destruct (negb (Battery.adaptiveFrameRate cfg) || charging),
      (negb (Battery.reducedProcessingMode cfg) || charging), charging;
      cbn; lia.
  - destruct (level2 <=? Battery.lowBatteryThreshold cfg)%float eqn:E2l.
    + rewrite (leb_trans _ _ _ Hle E2l).
      destruct (level1 <=? Battery.criticalBatteryThreshold cfg)%float,
        (negb (Battery.adaptiveFrameRate cfg) || charging),
        (negb (Battery.reducedProcessingMode cfg) || charging), charging;
        cbn; lia.
    + destruct (level1 <=? Battery.criticalBatteryThreshold cfg)%float,
        (level1 <=? Battery.lowBatteryThreshold cfg)%float,
        (negb (Battery.adaptiveFrameRate cfg) || charging),
        (negb (Battery.reducedProcessingMode cfg) || charging), charging;
        cbn; lia.
Qed.

(** X19. A battery level that is not a number is treated as a full
    battery: the frame rate is 30, the quality is high, there is no
    recommendation, monitoring is not stopped and optimization is reported
    inactive. *)
Theorem nan_level_is_full_battery :
  forall this,
    (Battery.currentBatteryLevel this <=? Battery.currentBatteryLevel this)%float
    = false ->
    Battery.getOptimizedFrameRate this = 30
    /\ Battery.getProcessingQuality this = Battery.high
    /\ Battery.getOptimizationRecommendations this = None
    /\ Battery.shouldStopMonitoring this = false
    /\ Battery.optimizationActive (Battery.getBatteryStatus this) = false.
Proof.
  intros [cfg level charging] Hnan. cbn in Hnan.
  assert (H : forall x, (level <=? x)%float = false).
  { intros x. destruct (level <=? x)%float eqn:E; [|reflexivity].
    apply leb_refl_l in E. congruence. }
  unfold Battery.getOptimizedFrameRate, Battery.getProcessingQuality,
    Battery.getOptimizationRecommendations, Battery.shouldStopMonitoring,
    Battery.getBatteryStatus.
  cbn. rewrite !H. rewrite !andb_false_r.
  destruct (negb (Battery.adaptiveFrameRate cfg) || charging), charging;
    repeat split.
Qed.

(** * The detection state of the FaceDetectionProcessor component *)

(** X21. The update keeps the four frame counters within their bounds (0
    to 8 for drowsiness, 0 to 5 for yawning and phone use, 0 to 10 for
    distraction) and changes no other field of the state: the alert time
    stamps and the calibrated thresholds are as before. *)
Theorem update_keeps_counters_in_range :
  forall data prev,
    Processor.CountersInRange prev ->
    let next := fst (Processor.updateDetectionState data prev) in
    Processor.CountersInRange next
    /\ Processor.lastAlertTime next = Processor.lastAlertTime prev
    /\ Processor.lastPhoneAlertTime next = Processor.lastPhoneAlertTime prev
    /\ Processor.lastDistractionAlertTime next
       = Processor.lastDistractionAlertTime prev
    /\ Processor.calibratedEARThreshold next
       = Processor.calibratedEARThreshold prev
    /\ Processor.calibratedMARThreshold next
       = Processor.calibratedMARThreshold prev
    /\ Processor.isCalibrating next = Processor.isCalibrating prev
    /\ Processor.calibrationSamples next = Processor.calibrationSamples prev.
Proof.
  intros data prev (Hd & Hy & Hp & Hx) next. subst next.
  unfold Processor.CountersInRange, Processor.updateDetectionState,
    Processor.updateDrowsy, Processor.updateYawn, Processor.updatePhoneUse,
    Processor.updateDistraction, Processor.DROWSY_FRAME_THRESHOLD,
    Processor.YAWN_FRAME_THRESHOLD, Processor.DISTRACTION_FRAME_THRESHOLD in *.
  destruct (Processor.avgEAR data <? Processor.calibratedEARThreshold prev)%float;
    cbn;
    [destruct (Processor.drowsyFrameCount prev + 1 >? 8) eqn:E1|];
    (destruct (Processor.MAR data >? Processor.calibratedMARThreshold prev)%float;
     cbn;
     [destruct (Processor.yawnFrameCount prev + 1 >? 5) eqn:E2|]);
    (destruct (Processor.truthy (Processor.handData_nearEar data)); cbn;
     [destruct (Processor.phoneUseFrameCount prev + 1 >? 5) eqn:E3|]);
    (destruct (Processor.truthy (Processor.headPose_isDistracted data)); cbn;
     [destruct (Processor.distractionFrameCount prev + 1 >? 10) eqn:E4|]);
    cbn; repeat split; lia.
Qed.

(** The drowsiness part of the update, read off the whole update. *)
Lemma update_drowsy_part :
  forall data prev,
    Processor.drowsyFrameCount (fst (Processor.updateDetectionState data prev))
    = Processor.drowsyFrameCount (fst (Processor.updateDrowsy data prev prev))
    /\ Processor.occurs Processor.TriggerDrowsinessAlert
         (snd (Processor.updateDetectionState data prev))
       = Processor.occurs Processor.TriggerDrowsinessAlert
           (snd (Processor.updateDrowsy data prev prev))
    /\ Processor.calibratedEARThreshold
         (fst (Processor.updateDetectionState data prev))
       = Processor.calibratedEARThreshold prev.
Proof.
  intros data prev. unfold Processor.updateDetectionState.
  destruct (Processor.updateDrowsy data prev prev) as [s1 e1] eqn:E1.
  assert (H1 : Processor.calibratedEARThreshold s1
               = Processor.calibratedEARThreshold prev).
  { unfold Processor.updateDrowsy in E1.
    destruct (_ <? _)%float; [destruct (_ >? _) in E1|];
      injection E1 as <- _; reflexivity. }
  unfold Processor.updateYawn, Processor.updatePhoneUse,
    Processor.updateDistraction.
  destruct (Processor.MAR data >? Processor.calibratedMARThreshold prev)%float;
    [destruct (_ >? Processor.YAWN_FRAME_THRESHOLD)|];
    (destruct (Processor.truthy (Processor.handData_nearEar data));
     [destruct (_ >? 5)|]);
    (destruct (Processor.truthy (Processor.headPose_isDistracted data));
     [destruct (_ >? Processor.DISTRACTION_FRAME_THRESHOLD)|]);
    cbn [fst snd Processor.drowsyFrameCount Processor.calibratedEARThreshold
         Processor.set_yawnFrameCount Processor.set_phoneUseFrameCount
         Processor.set_distractionFrameCount];
    (split; [reflexivity|]); (split; [|exact H1]);
    unfold Processor.occurs; rewrite !existsb_app; cbn;
    rewrite ?orb_false_r; reflexivity.
Qed.

Lemma updateAll_cons :
  forall data rest state,
    Processor.updateAll (data :: rest) state
    = (fst (Processor.updateAll rest
              (fst (Processor.updateDetectionState data state))),
       snd (Processor.updateDetectionState data state)
       :: snd (Processor.updateAll rest
                 (fst (Processor.updateDetectionState data state)))).
Proof.
  intros data rest state. cbn [Processor.updateAll].
  destruct (Processor.updateDetectionState data state) as [s1 e1]. cbn [fst snd].
  destruct (Processor.updateAll rest s1) as [s2 more]. reflexivity.
Qed.

(** X22. While the eye aspect ratio stays below the calibrated threshold,
    the component's drowsiness counter started at 0 holds, after [k]
    detection results, [k] modulo 9, and [triggerDrowsinessAlert] is called
    on every ninth result and on no other. *)
Theorem drowsiness_trigger_every_ninth_result :
  forall datas state,
    Processor.drowsyFrameCount state = 0 ->
    forallb (fun data =>
               (Processor.avgEAR data
                <? Processor.calibratedEARThreshold state)%float) datas = true ->
    Processor.drowsyFrameCount (fst (Processor.updateAll datas state))
    = Z.of_nat (List.length datas) mod 9
    /\ forall i data,
         nth_error datas i = Some data ->
         exists effects,
           nth_error (snd (Processor.updateAll datas state)) i = Some effects
           /\ Processor.occurs Processor.TriggerDrowsinessAlert effects
              = ((Z.of_nat i + 1) mod 9 =? 0).
Proof.
  intros datas state Hc Hall.
  assert (Hgen : forall datas state k,
            0 <= k ->
            Processor.drowsyFrameCount state = k mod 9 ->
            forallb (fun data =>
                       (Processor.avgEAR data
                        <? Processor.calibratedEARThreshold state)%float) datas
            = true ->
            Processor.drowsyFrameCount (fst (Processor.updateAll datas state))
            = (k + Z.of_nat (List.length datas)) mod 9
            /\ forall i data,
                 nth_error datas i = Some data ->
                 exists effects,
                   nth_error (snd (Processor.updateAll datas state)) i
                   = Some effects
                   /\ Processor.occurs Processor.TriggerDrowsinessAlert effects
                      = ((k + Z.of_nat i + 1) mod 9 =? 0)).
  { clear. induction datas as [|data rest IH]; intros state k Hk Hc Hall.
    - cbn. split; [now rewrite Z.add_0_r|]. intros [|i] d H; discriminate H.
    - cbn [forallb] in Hall. apply andb_true_iff in Hall as [Hd Hrest].
      rewrite updateAll_cons. cbn [fst snd].
      destruct (update_drowsy_part data state) as (Hcount & Hocc & Hthr).
      assert (Hrange : 0 <= k mod 9 < 9) by (apply Z.mod_pos_bound; lia).
      assert (Hstep :
                Processor.drowsyFrameCount
                  (fst (Processor.updateDrowsy data state state))
                = (k + 1) mod 9
                /\ Processor.occurs Processor.TriggerDrowsinessAlert
                     (snd (Processor.updateDrowsy data state state))
                   = ((k + 1) mod 9 =? 0)).
      { rewrite <- (Zplus_mod_idemp_l k 1 9), <- Hc.
        unfold Processor.updateDrowsy, Processor.DROWSY_FRAME_THRESHOLD.
        rewrite Hd. cbn [Processor.drowsyFrameCount Processor.set_drowsyFrameCount].
        destruct (Processor.drowsyFrameCount state + 1 >? 8) eqn:E.
        - replace (Processor.drowsyFrameCount state + 1) with 9 by lia.
          cbn [fst snd Processor.drowsyFrameCount Processor.set_drowsyFrameCount].
          split; [reflexivity|].
          unfold Processor.occurs. rewrite existsb_app. cbn.
          rewrite ?orb_true_r. reflexivity.
        - cbn [fst snd]. rewrite Z.mod_small by lia.
          split; [reflexivity|].
          destruct (Processor.drowsyFrameCount state + 1 =? 0) eqn:E0; [lia|].
          unfold Processor.occurs.
          destruct (Processor.drowsyFrameCount state + 1 >? 8 / 2); reflexivity. }
      destruct Hstep as [Hnext Hfire].
      rewrite <- Hthr in Hrest.
      destruct (IH (fst (Processor.updateDetectionState data state)) (k + 1))
        as [Hfin Hnth]; [lia|now rewrite Hcount|exact Hrest|].
      split.
      + change (List.length (data :: rest)) with (S (List.length rest)).
        rewrite Hfin. f_equal. lia.
      + intros [|i] d Hi.
        * eexists. cbn [nth_error]. split; [reflexivity|].
          rewrite Hocc, Hfire. now rewrite Z.add_0_r.
        * cbn [nth_error] in Hi |- *.
          destruct (Hnth i d Hi) as (effects & He & Ho).
          exists effects. split; [exact He|]. rewrite Ho.
          replace (k + 1 + Z.of_nat i + 1) with (k + Z.of_nat (S i) + 1) by lia.
          reflexivity. }
  destruct (Hgen datas state 0 (Z.le_refl 0)) as [Hfin Hnth];
    [rewrite Hc; reflexivity|exact Hall|].
  split; [exact Hfin|exact Hnth].
Qed.

(** X23. The component's drowsiness counter decays instead of being reset:
    each result whose eye aspect ratio is not below the calibrated
    threshold takes 2 off the counter, never below 0, and calls no alert;
    after [n] such results a counter that held [c] holds the larger of 0
    and [c - 2 n]. *)
Theorem drowsiness_counter_decays_by_two :
  forall datas state,
    0 <= Processor.drowsyFrameCount state ->
    forallb (fun data =>
               negb (Processor.avgEAR data
                     <? Processor.calibratedEARThreshold state)%float) datas
    = true ->
    Processor.drowsyFrameCount (fst (Processor.updateAll datas state))
    = Z.max 0 (Processor.drowsyFrameCount state
               - 2 * Z.of_nat (List.length datas))
    /\ Forall (fun effects =>
                 Processor.occurs Processor.TriggerDrowsinessAlert effects = false)
         (snd (Processor.updateAll datas state)).
Proof.
  induction datas as [|data rest IH]; intros state Hc Hall.
  - cbn. split; [lia|constructor].
  - cbn [forallb] in Hall. apply andb_true_iff in Hall as [Hd Hrest].
    apply negb_true_iff in Hd.
    rewrite updateAll_cons. cbn [fst snd].
    destruct (update_drowsy_part data state) as (Hcount & Hocc & Hthr).
    assert (Hstep :
              Processor.drowsyFrameCount
                (fst (Processor.updateDrowsy data state state))
              = Z.max 0 (Processor.drowsyFrameCount state - 2)
              /\ Processor.occurs Processor.TriggerDrowsinessAlert
                   (snd (Processor.updateDrowsy data state state)) = false).
    { unfold Processor.updateDrowsy. rewrite Hd. cbn. split; [reflexivity|].
      destruct (Z.max 0 (Processor.drowsyFrameCount state - 2) =? 0); reflexivity. }
    destruct Hstep as [Hnext Hquiet].
    rewrite <- Hthr in Hrest.
    destruct (IH (fst (Processor.updateDetectionState data state)))
      as [Hfin Hall']; [rewrite Hcount, Hnext; lia|exact Hrest|].
    split.
    + rewrite Hfin, Hcount, Hnext.
      change (List.length (data :: rest)) with (S (List.length rest)). lia.
    + constructor; [now rewrite Hocc|exact Hall'].
Qed.

(** ** The frame loop of the component *)

Lemma div_succ :
  forall n N,
    0 < N -> 0 <= n ->
    (n + 1) / N = n / N + (if (n + 1) mod N =? 0 then 1 else 0).
Proof.
  intros n N HN Hn.
  pose proof (Z.div_mod n N ltac:(lia)) as Hdm.
  pose proof (Z.mod_pos_bound n N HN) as Hr.
  destruct (Z.eq_dec (n mod N) (N - 1)) as [E|E].
  - assert (H1 : n + 1 = (n / N + 1) * N) by nia.
    rewrite H1 at 1 2. rewrite Z.div_mul, Z.mod_mul by lia. cbn. lia.
  - assert (Hq : (n + 1) / N = n / N).
    { symmetry. apply (Z.div_unique (n + 1) N (n / N) (n mod N + 1)); lia. }
    assert (Hm : (n + 1) mod N = n mod N + 1).
    { symmetry. apply (Z.mod_unique (n + 1) N (n / N) (n mod N + 1)); lia. }
    rewrite Hq, Hm. destruct (n mod N + 1 =? 0) eqn:E0; lia.
Qed.

(** X24. With the service unchanged, out of the first [n] iterations of
    the frame loop exactly [n / (skip + 1)] pass the skip test, where
    [skip] is the service's frame skip count: every frame on the charger,
    and at most every second frame off the charger with reduced processing
    on, whatever the battery level. *)
Theorem frame_loop_processes_one_in_skip_plus_one :
  forall service n,
    Z.of_nat (List.length
                (filter (fun goes_on => goes_on)
                   (Processor.frameSkipTests n service 0)))
    = Z.of_nat n / (Battery.getFrameSkipCount service + 1)
    /\ (Battery.isCharging service = true ->
        Processor.frameSkipTests n service 0 = repeat true n)
    /\ (Battery.isCharging service = false ->
        Battery.reducedProcessingMode (Battery.config service) = true ->
        Z.of_nat (List.length
                    (filter (fun goes_on => goes_on)
                       (Processor.frameSkipTests n service 0)))
        <= Z.of_nat n / 2).
Proof.
  intros service n.
  assert (Hskip : 0 <= Battery.getFrameSkipCount service).
  { unfold Battery.getFrameSkipCount.
    destruct (_ || _); [lia|]. destruct (_ <=? _)%float; [lia|].
    destruct (_ <=? _)%float; lia. }
  assert (Hgen : forall n c,
            0 <= c ->
            Z.of_nat (List.length
                        (filter (fun goes_on => goes_on)
                           (Processor.frameSkipTests n service c)))
            = (c + Z.of_nat n) / (Battery.getFrameSkipCount service + 1)
              - c / (Battery.getFrameSkipCount service + 1)).
  { clear n. induction n as [|n IH]; intros c Hc.
    - cbn. rewrite Z.add_0_r. lia.
    - cbn [Processor.frameSkipTests Processor.frameSkipTest].
      set (N := Battery.getFrameSkipCount service + 1) in *.
      assert (HN : 0 < N) by (subst N; lia).
      cbn [filter].
      replace (c + Z.of_nat (S n)) with (c + 1 + Z.of_nat n) by lia.
      pose proof (div_succ c N HN Hc) as Hd.
      destruct ((c + 1) mod N =? 0) eqn:Em; cbn [negb andb].
      + rewrite andb_false_r. cbn [negb List.length].
        rewrite Nat2Z.inj_succ, IH by lia. lia.
      + destruct (Battery.getFrameSkipCount service >? 0) eqn:Es; cbn [negb andb].
        * rewrite IH by lia. lia.
        * assert (N = 1) by (subst N; lia).
          rewrite H, Z.mod_1_r in Em. discriminate Em. }
  split; [|split].
  - rewrite (Hgen n 0 (Z.le_refl 0)). rewrite Z.add_0_l.
    rewrite Z.div_0_l by lia. lia.
  - intros Hch.
    assert (H0 : Battery.getFrameSkipCount service = 0).
    { unfold Battery.getFrameSkipCount. rewrite Hch, orb_true_r. reflexivity. }
    generalize 0. induction n as [|n IH]; intros c; [reflexivity|].
    cbn [Processor.frameSkipTests Processor.frameSkipTest repeat].
    rewrite H0. cbn. f_equal. apply IH.
  - intros Hch Hred.
    rewrite (Hgen n 0 (Z.le_refl 0)). rewrite Z.add_0_l.
    rewrite (Z.div_0_l (Battery.getFrameSkipCount service + 1)) by lia.
    rewrite Z.sub_0_r.
    assert (H1 : 1 <= Battery.getFrameSkipCount service).
    { unfold Battery.getFrameSkipCount. rewrite Hch, Hred. cbn.
      destruct (_ <=? _)%float; [lia|]. destruct (_ <=? _)%float; lia. }
    apply Z.div_le_compat_l; lia.
Qed.

(** * The further properties on concrete inputs *)

Lemma undersized_landmarks_fail_fast_witness :
  process hypot_sqrt (emptyLandmarks 1000) engine1 = (Throw TypeError, engine1, []).
Proof.
  apply (undersized_landmarks_fail_fast hypot_sqrt engine1 [] [] 640%float
           480%float "session"%string 1000).
  cbn. lia.
Defined.

Lemma eye_closure_tiers_along_run_witness :
  eyeClosureCounter (snd (feed hypot_sqrt (closedRun 32 1000) engine1)) = 32.
Proof.
  apply (eye_closure_tiers_along_run hypot_sqrt engine1 (closedRun 32 1000));
    vm_compute; reflexivity.
Defined.

Lemma blink_window_rollover_witness :
  blinkTimer (snd (fst (process hypot_sqrt (openEyes 70000) engine1))) = 70000.
Proof.
  destruct (frameMeasures hypot_sqrt (openEyes 70000)) as [m|] eqn:Hm;
    [|vm_compute in Hm; discriminate Hm].
  destruct (blink_window_rollover hypot_sqrt (openEyes 70000) m engine1 Hm)
    as [Hover _].
  apply Hover. vm_compute. reflexivity.
Defined.

Lemma faceless_frames_do_not_end_a_run_witness :
  eyeClosureCounter
    (snd (feed hypot_sqrt
            (closedRun 3 1000 ++ [facelessFrame 1100; facelessFrame 1133]
             ++ closedRun 4 1200) engine1))
  = 7.
Proof.
  apply (faceless_frames_do_not_end_a_run hypot_sqrt engine1 (closedRun 3 1000)
           [facelessFrame 1100; facelessFrame 1133] (closedRun 4 1200));
    vm_compute; reflexivity.
Defined.

Lemma head_pose_inert_until_calibrated_witness :
  snd (headPoseEstimation (mesh (faceAt 0.9 0.02 0.01))
         {| pt_x := 320; pt_y := 288 |} 640 1000 (initialResult engine1) engine1)
  = [].
Proof.
  apply (head_pose_inert_until_calibrated (mesh (faceAt 0.9 0.02 0.01))
           {| pt_x := 320; pt_y := 288 |} 640%float 1000
           (initialResult engine1) engine1).
  left. reflexivity.
Defined.


Lemma long_yawn_fires_periodically_witness :
  yawnCounter
    (snd (yawnCountingRun (repeat 1.5%float 9) 1000 engine1))
  = 1.
Proof.
  apply (long_yawn_fires_periodically (repeat 1.5%float 9) 1000 engine1);
    vm_compute; try reflexivity. discriminate.
Defined.

Lemma stop_means_critical_witness :
  Battery.shouldStopMonitoring criticalService = true
  /\ Battery.getProcessingQuality criticalService = Battery.low.
Proof.
  split; [reflexivity|].
  apply (stop_means_critical criticalService). reflexivity.
Defined.

Lemma optimization_active_iff_recommendation_witness :
  Battery.optimizationActive (Battery.getBatteryStatus criticalService) = true
  <-> Battery.getOptimizationRecommendations criticalService <> None.
Proof.
  apply (optimization_active_iff_recommendation criticalService). reflexivity.
Defined.

Lemma battery_decisions_monotone_witness :
  Battery.getOptimizedFrameRate
    {| Battery.config := Battery.DEFAULT_CONFIG;
       Battery.currentBatteryLevel := 0.05; Battery.isCharging := false |}
  <= Battery.getOptimizedFrameRate
       {| Battery.config := Battery.DEFAULT_CONFIG;
          Battery.currentBatteryLevel := 0.5; Battery.isCharging := false |}.
Proof.
  apply (battery_decisions_monotone Battery.DEFAULT_CONFIG false 0.05%float
           0.5%float).
  reflexivity.
Defined.

Lemma nan_level_is_full_battery_witness :
  Battery.getOptimizedFrameRate unknownLevelService = 30
  /\ Battery.getOptimizationRecommendations unknownLevelService = None.
Proof.
  destruct (nan_level_is_full_battery unknownLevelService eq_refl)
    as (H1 & _ & H2 & _).
  split; [exact H1|exact H2].
Defined.

Lemma update_keeps_counters_in_range_witness :
  Processor.CountersInRange Processor.initialState
  /\ Processor.CountersInRange
       (fst (Processor.updateDetectionState drowsyData Processor.initialState)).
Proof.
  assert (H : Processor.CountersInRange Processor.initialState)
    by (repeat split; vm_compute; discriminate).
  split; [exact H|].
  apply (update_keeps_counters_in_range drowsyData Processor.initialState H).
Defined.

Lemma drowsiness_trigger_every_ninth_result_witness :
  Processor.drowsyFrameCount
    (fst (Processor.updateAll (repeat drowsyData 20) Processor.initialState))
  = 2.
Proof.
  apply (drowsiness_trigger_every_ninth_result (repeat drowsyData 20)
           Processor.initialState); reflexivity.
Defined.

Lemma drowsiness_counter_decays_by_two_witness :
  Processor.drowsyFrameCount
    (fst (Processor.updateAll [alertData; alertData]
            (fst (Processor.updateAll (repeat drowsyData 7)
                    Processor.initialState))))
  = 3.
Proof.
  apply (drowsiness_counter_decays_by_two [alertData; alertData]
           (fst (Processor.updateAll (repeat drowsyData 7)
                   Processor.initialState)));
    vm_compute; [discriminate|reflexivity].
Defined.

Lemma landmarkless_hands_raise_nothing_witness :
  snd (handDetection hypot_sqrt (mesh (faceAt 0.5 0.02 0.01))
         {| pt_x := 320; pt_y := 288 |}
         [{| hand_landmarks := [] |}; {| hand_landmarks := [] |}] 640 480 1000
         (initialResult engine1) engine1)
  = [].
Proof.
  rewrite (landmarkless_hands_raise_nothing hypot_sqrt
             (mesh (faceAt 0.5 0.02 0.01)) {| pt_x := 320; pt_y := 288 |}
             [{| hand_landmarks := [] |}; {| hand_landmarks := [] |}]
             640%float 480%float 1000 (initialResult engine1) engine1).
  - reflexivity.
  - apply Nat.leb_le. vm_compute. reflexivity.
  - reflexivity.
Defined.

Lemma battery_decisions_agree_witness :
  Battery.getOptimizedFrameRate criticalService = 10
  /\ Battery.getFrameSkipCount criticalService = 4.
Proof.
  pose proof (battery_decisions_agree criticalService)
    as (Hrate & _ & Hskip & _).
  split.
  - rewrite Hrate; reflexivity.
  - rewrite Hskip; reflexivity.
Defined.

Lemma frame_loop_processes_one_in_skip_plus_one_witness :
  Z.of_nat (List.length
              (filter (fun goes_on => goes_on)
                 (Processor.frameSkipTests 10 halfChargedService 0)))
  <= 5.
Proof.
  apply (proj2 (proj2
           (frame_loop_processes_one_in_skip_plus_one halfChargedService 10)));
    reflexivity.
Defined.
